(** * eibi2kiwi: EiBi broadcast schedules to kiwiSDR labels

    A shallow embedding of the three scripts of the repository
    ([eibi2kiwi.py], [eibi2kiwi_online.py], [eibi2kiwi_json.py]) and the
    properties of their weekday encoder, row pipeline, frequency sort,
    JSON stage and percent-encoder.

    Conventions of the embedding.
    - A Python [str] is a [string]; each [ascii] is the code point of one
      character, so the model covers text in the range U+0000..U+00FF.
      The percent-encoder is embedded a second time on text of any code
      points (module [Unicode]).
    - A raised exception is the [Raise] case of [result]; the exception
      classes are the constructors of [exn].  The constructor [Unmodelled]
      is no exception of Python: it is the outcome of [list.sort] where
      only the merge strategy of the interpreter decides the result.
    - A CSV row is the [list string] that [csv.reader] yields for it.
    - Python floats are kept abstract behind the class [FloatOps]. *)

From Stdlib Require Import String Ascii List ZArith NArith Bool Lia.
From Stdlib Require Import Permutation Sorted QArith Qround DecimalString.
Import ListNotations.

Local Open Scope string_scope.
Local Open Scope list_scope.
Local Open Scope Z_scope.

(** ** Exceptions *)

Inductive exn : Type :=
| ValueError
| IndexError
| KeyError
| StopIteration
| CsvError
| UnicodeEncodeError
| Unmodelled.

Inductive result (A : Type) : Type :=
| Ok (a : A)
| Raise (e : exn).

Arguments Ok {A} a.
Arguments Raise {A} e.

Definition bind {A B : Type} (c : result A) (k : A -> result B) : result B :=
  match c with
  | Ok a => k a
  | Raise e => Raise e
  end.

Notation "x <- c ;; k" := (bind c (fun x => k))
  (at level 61, c at next level, right associativity).

Fixpoint mapM {A B : Type} (f : A -> result B) (l : list A) : result (list B) :=
  match l with
  | [] => Ok []
  | a :: l' =>
      b <- f a ;;
      bs <- mapM f l' ;;
      Ok (b :: bs)
  end.

Fixpoint foldM {S A : Type} (body : S -> A -> result S) (s : S) (l : list A)
  : result S :=
  match l with
  | [] => Ok s
  | a :: l' => s' <- body s a ;; foldM body s' l'
  end.

Definition is_ok {A : Type} (c : result A) : bool :=
  match c with Ok _ => true | Raise _ => false end.

(** ** Python built-ins used by the scripts *)

Module Py.

Definition code (c : ascii) : N := N_of_ascii c.

(** The ten decimal digits ['0'..'9']. *)
Definition is_decimal (c : ascii) : bool :=
  ((48 <=? code c) && (code c <=? 57))%N.

(** [str.isdigit] on one character: the decimal digits and, in this
    range, the superscripts U+00B2, U+00B3 and U+00B9. *)
Definition isdigit_char (c : ascii) : bool :=
  is_decimal c
  || (code c =? 178)%N || (code c =? 179)%N || (code c =? 185)%N.

Fixpoint forallb_string (p : ascii -> bool) (s : string) : bool :=
  match s with
  | EmptyString => true
  | String c s' => p c && forallb_string p s'
  end.

(** [s.isdigit()]: false on the empty string. *)
Definition isdigit (s : string) : bool :=
  match s with
  | EmptyString => false
  | _ => forallb_string isdigit_char s
  end.

(** [int(c)] for a one-character string [c]. *)
Definition int_char (c : ascii) : result Z :=
  if is_decimal c then Ok (Z.of_N (code c) - 48) else Raise ValueError.

(** [str.isspace] on one character of the range. *)
Definition isspace (c : ascii) : bool :=
  (((9 <=? code c) && (code c <=? 13))
   || ((28 <=? code c) && (code c <=? 32))
   || (code c =? 133) || (code c =? 160))%N.

Fixpoint lstrip (p : ascii -> bool) (s : string) : string :=
  match s with
  | EmptyString => EmptyString
  | String c s' => if p c then lstrip p s' else s
  end.

Fixpoint rstrip (p : ascii -> bool) (s : string) : string :=
  match s with
  | EmptyString => EmptyString
  | String c s' =>
      match rstrip p s' with
      | EmptyString => if p c then EmptyString else String c EmptyString
      | r => String c r
      end
  end.

(** [s.strip()] and [s.strip(chars)] for a one-character [chars]. *)
Definition strip (s : string) : string := rstrip isspace (lstrip isspace s).
Definition strip_char (q : ascii) (s : string) : string :=
  rstrip (Ascii.eqb q) (lstrip (Ascii.eqb q) s).

(** [c in s] for a one-character [c]. *)
Fixpoint contains (c : ascii) (s : string) : bool :=
  match s with
  | EmptyString => false
  | String d s' => Ascii.eqb d c || contains c s'
  end.

Definition startswith (pre s : string) : bool := String.prefix pre s.

(** [s[n:]]. *)
Fixpoint drop (n : nat) (s : string) : string :=
  match n, s with
  | O, _ => s
  | S _, EmptyString => EmptyString
  | S n', String _ s' => drop n' s'
  end.

(** [s[-1]] of a non-empty string. *)
Fixpoint last_char (s : string) : result ascii :=
  match s with
  | EmptyString => Raise IndexError
  | String c EmptyString => Ok c
  | String _ s' => last_char s'
  end.

(** [s.split(sep)] for a one-character separator. *)
Fixpoint split (sep : ascii) (s : string) : list string :=
  match s with
  | EmptyString => [EmptyString]
  | String c s' =>
      if Ascii.eqb c sep then EmptyString :: split sep s'
      else match split sep s' with
           | part :: parts => String c part :: parts
           | [] => [String c EmptyString]
           end
  end.

(** [sep.join(parts)]. *)
Definition join (sep : string) (parts : list string) : string :=
  String.concat sep parts.

(** [s.replace(pat, rep)] for a non-empty [pat]: scan from the left,
    at each position either consume an occurrence of [pat] or copy one
    character.  [skip] counts the characters of a consumed occurrence
    that are still to be passed over. *)
Fixpoint replace_from (pat rep : string) (skip : nat) (s : string) : string :=
  match s with
  | EmptyString => EmptyString
  | String c s' =>
      match skip with
      | S k => replace_from pat rep k s'
      | O =>
          if String.prefix pat s
          then rep ++ replace_from pat rep (String.length pat - 1) s'
          else String c (replace_from pat rep 0 s')
      end
  end.

Definition replace (pat rep s : string) : string := replace_from pat rep 0 s.

(** [l[i]] with Python's negative indices. *)
Definition getitem {A : Type} (l : list A) (i : Z) : result A :=
  let n := Z.of_nat (List.length l) in
  let j := if i <? 0 then i + n else i in
  if (j <? 0) || (n <=? j) then Raise IndexError
  else match nth_error l (Z.to_nat j) with
       | Some a => Ok a
       | None => Raise IndexError
       end.

(** [l[i]] for a [range] index. *)
Definition getnat {A : Type} (l : list A) (i : nat) : result A :=
  match nth_error l i with
  | Some a => Ok a
  | None => Raise IndexError
  end.

(** [l.index(x)]. *)
Fixpoint index (x : string) (l : list string) : result nat :=
  match l with
  | [] => Raise ValueError
  | y :: l' => if String.eqb y x then Ok O
               else (i <- index x l' ;; Ok (S i))
  end.

(** [l[a:b]] and its open forms, for indices that are not negative. *)
Definition slice {A : Type} (l : list A) (a b : nat) : list A :=
  firstn (b - a) (skipn a l).
Definition slice_from {A : Type} (l : list A) (a : nat) : list A := skipn a l.
Definition slice_to {A : Type} (l : list A) (b : nat) : list A := firstn b l.

(** [d[k]] and [k in d.keys()] for a dict with string keys, kept as an
    association list in insertion order. *)
Fixpoint lookup {V : Type} (d : list (string * V)) (k : string) : option V :=
  match d with
  | [] => None
  | (k', v) :: d' => if String.eqb k' k then Some v else lookup d' k
  end.

Definition getkey {V : Type} (d : list (string * V)) (k : string) : result V :=
  match lookup d k with
  | Some v => Ok v
  | None => Raise KeyError
  end.

Definition haskey {V : Type} (d : list (string * V)) (k : string) : bool :=
  match lookup d k with Some _ => true | None => false end.

(** [d[k] = v]: replace in place, or append a new key. *)
Fixpoint setkey {V : Type} (d : list (string * V)) (k : string) (v : V)
  : list (string * V) :=
  match d with
  | [] => [(k, v)]
  | (k', v') :: d' =>
      if String.eqb k' k then (k', v) :: d' else (k', v') :: setkey d' k v
  end.

(** [zip] over the unpacked list of strings: the columns of the
    strings, as many as the shortest string has; nothing for no string
    at all. *)
Fixpoint heads (l : list string) : option (list ascii) :=
  match l with
  | [] => Some []
  | EmptyString :: _ => None
  | String c _ :: l' =>
      match heads l' with
      | Some hs => Some (c :: hs)
      | None => None
      end
  end.

Definition tails (l : list string) : list string :=
  map (fun s => match s with EmptyString => EmptyString | String _ s' => s' end) l.

Fixpoint zip_columns (s : string) (others : list string) : list (list ascii) :=
  match s with
  | EmptyString => []
  | String c s' =>
      match heads others with
      | Some hs => (c :: hs) :: zip_columns s' (tails others)
      | None => []
      end
  end.

Definition zip_star (l : list string) : list (list ascii) :=
  match l with
  | [] => []
  | s :: others => zip_columns s others
  end.

End Py.

(** ** The weekday encoder (eibi2kiwi.py, eibi2kiwi_online.py) *)

Definition days : list (string * string) :=
  [ ("Mo", "1000000"); ("Tu", "0100000"); ("We", "0010000");
    ("Th", "0001000"); ("Fr", "0000100"); ("Sa", "0000010");
    ("Su", "0000001") ].

Definition weekdays : list string := ["Mo"; "Tu"; "We"; "Th"; "Fr"; "Sa"; "Su"].

Definition expand_weekday_range (weekday_range : string) : result string :=
  match Py.split "-" weekday_range with
  | [start; end_] =>
      start_index <- Py.index start weekdays ;;
      end_index <- Py.index end_ weekdays ;;
      Ok (Py.join ","
            (if (start_index <=? end_index)%nat
             then Py.slice weekdays start_index (end_index + 1)
             else Py.slice_from weekdays start_index
                  ++ Py.slice_to weekdays (end_index + 1)))
  | _ => Raise ValueError
  end.

Definition weekdays_to_binstrings (weekdays : string)
    (days_dict : list (string * string)) : result (list string) :=
  mapM (fun day => Py.getkey days_dict day) (Py.split "," weekdays).

Definition daylist : list string := ["Mo"; "Tu"; "We"; "Th"; "Fr"; "Sa"; "Su"].

Fixpoint weekdays_list_of (numbers_string : string) : result (list string) :=
  match numbers_string with
  | EmptyString => Ok []
  | String number rest =>
      n <- Py.int_char number ;;
      d <- Py.getitem daylist (n - 1) ;;
      ds <- weekdays_list_of rest ;;
      Ok (d :: ds)
  end.

Definition weekdaynumbers_to_binstrings (numbers_string : string)
    (days_dict : list (string * string)) : result (list string) :=
  weekdays_list <- weekdays_list_of numbers_string ;;
  weekdays_to_binstrings (Py.join "," weekdays_list) days_dict.

Definition create_weekly_binstring (bin_strings : list string) : string :=
  string_of_list_ascii
    (map (fun bits => if existsb (Ascii.eqb "1") bits then "1"%char else "0"%char)
         (Py.zip_star bin_strings)).

Definition dow_letters : list ascii :=
  ["M"; "T"; "W"; "T"; "F"; "S"; "S"]%char.

Fixpoint binstring_to_dowstring_from (i : nat) (bin_string : string)
  : result string :=
  match bin_string with
  | EmptyString => Ok EmptyString
  | String b rest =>
      c <- (if Ascii.eqb b "1" then Py.getnat dow_letters i else Ok "_"%char) ;;
      r <- binstring_to_dowstring_from (S i) rest ;;
      Ok (String c r)
  end.

Definition binstring_to_dowstring (bin_string : string) : result string :=
  binstring_to_dowstring_from 0 bin_string.

(** The loop of [binstring_to_decimal]: [i] is the index of the next
    digit, [len] the length of the whole string. *)
Fixpoint binstring_sum (len i decimal : Z) (rest : string) : result Z :=
  match rest with
  | EmptyString => Ok decimal
  | String c rest' =>
      d <- Py.int_char c ;;
      binstring_sum len (i + 1) (decimal + d * 2 ^ (len - i - 1)) rest'
  end.

(** The function returns an integer for a string of binary digits and
    the string itself otherwise. *)
Definition binstring_to_decimal (bin_string : string) : result (Z + string) :=
  if Py.forallb_string (fun c => Py.contains c "01") bin_string
  then (decimal <- binstring_sum (Z.of_nat (String.length bin_string)) 0 0
                     bin_string ;;
        Ok (inl decimal))
  else Ok (inr bin_string).

(** ** Floats

    The scripts use floats only through [float(s)], [str(x)], [round(x, 2)]
    and the comparison [x < y] made by [list.sort]. *)

Class FloatOps : Type := {
  float : Type;
  py_float : string -> result float;
  py_str : float -> string;
  py_round2 : float -> float;
  float_ltb : float -> float -> bool
}.

(** ** The row loop of the CSV stage *)

Definition dquote : ascii := "034"%char.

(** The f-string that wraps a value in double quotes. *)
Definition quoted (s : string) : string :=
  String dquote (s ++ String dquote EmptyString).

Definition is_empty (s : string) : bool :=
  match s with EmptyString => true | _ => false end.

Definition loc_dict : Type := list (string * list (string * string)).

(** The two entry points share the loop; they differ in the guard of the
    range branch and in how the relay column is read. *)
Inductive variant : Type :=
| Standalone
| Online (location_dict : loc_dict).

Definition unpack2 (parts : list string) : result (string * string) :=
  match parts with
  | [a; b] => Ok (a, b)
  | _ => Raise ValueError
  end.

Definition dow_of_binstrings (r : list string) : result string :=
  binstring_to_dowstring (create_weekly_binstring r).

Definition dow_of_digits (day : string) : result string :=
  r <- weekdaynumbers_to_binstrings day days ;;
  dow_of_binstrings r.

Definition dow_of_list (day : string) : result string :=
  let day := if String.eqb day "SaSu" then "Sa,Su" else day in
  let day := if Py.startswith "1." day then Py.drop 2 day else day in
  r <- weekdays_to_binstrings day days ;;
  dow_of_binstrings r.

Definition dow_of_range (day : string) : result string :=
  r <- expand_weekday_range day ;;
  r <- weekdays_to_binstrings r days ;;
  dow_of_binstrings r.

Definition is_list_or_token (day : string) : bool :=
  Py.contains "," day || Py.haskey days day || String.eqb day "SaSu"
  || Py.startswith "1." day.

Definition ends_with_hyphen (day : string) : bool :=
  match Py.last_char day with
  | Ok c => Ascii.eqb c "-"
  | Raise _ => false
  end.

Definition is_range (v : variant) (day : string) : bool :=
  match v with
  | Standalone => Py.contains "-" day
  | Online _ => Py.contains "-" day && negb (ends_with_hyphen day)
  end.

(** The [if]/[elif] chain on the day column; [DOW] is the module-level
    variable as the row finds it. *)
Definition day_of_week (v : variant) (DOW day : string) : result string :=
  if Py.isdigit day then dow_of_digits day
  else if is_list_or_token day then dow_of_list day
  else if is_range v day then dow_of_range day
  else Ok DOW.

Definition quote_dow (DOW : string) : string :=
  if is_empty DOW then EmptyString else quoted DOW.

Definition clamp_begin (begin_ : string) : string :=
  if String.eqb begin_ "0000" then "0001" else begin_.

Definition clamp_end (end_ : string) : string :=
  if String.eqb end_ "2400" then "2359" else end_.

Definition type_tag (lang : string) : string :=
  if Py.startswith "-" lang || is_empty lang then "T4" else "T3".

Definition lang_note (lang : string) : string :=
  if is_empty lang then EmptyString else "Lang: " ++ lang.

Definition target_note (target : string) : string :=
  if is_empty target then EmptyString else "Target: " ++ target ++ ".".

(** eibi2kiwi.py, the relay column. *)
Definition notes_standalone (itu rem target lang : string) : string :=
  if is_empty rem then itu ++ ". " ++ target ++ " " ++ lang
  else itu ++ " via " ++ rem ++ ". " ++ target ++ " " ++ lang.

(** eibi2kiwi_online.py, the relay column: the country code and the site
    code the lookup is made with. *)
Definition relay_codes (itu relay : string) : string * string :=
  if Py.contains "/" relay then
    let stn := Py.split "-" relay in
    (Py.drop 1 (hd EmptyString stn),
     match stn with
     | _ :: site :: _ => site
     | _ => EmptyString
     end)
  else (itu, relay).

Definition location_lookup (location_dict : loc_dict) (itu txsite : string)
  : option string :=
  match Py.lookup location_dict itu with
  | Some sites => Py.lookup sites txsite
  | None => None
  end.

Definition notes_online (location_dict : loc_dict)
    (itu relay target lang : string) : string :=
  let '(itu, txsite) := relay_codes itu relay in
  match location_lookup location_dict itu txsite with
  | Some long_name =>
      itu ++ " " ++ Py.strip long_name ++ ". " ++ target ++ " " ++ lang
  | None => itu ++ ". " ++ target ++ " " ++ lang
  end.

Definition notes_of (v : variant) (itu relay target lang : string) : string :=
  match v with
  | Standalone => notes_standalone itu relay target lang
  | Online location_dict => notes_online location_dict itu relay target lang
  end.

Section CsvStage.

Context `{FloatOps}.

(** The loop state: the records appended so far and the variable DOW. *)
Definition loop_state : Type := (list (list string) * string)%type.

(** One iteration of the loop over the source rows. *)
Definition process_row (v : variant) (st : loop_state) (row : list string)
  : result loop_state :=
  let '(outrow, DOW) := st in
  f0 <- Py.getnat row 0 ;;
  khz <- py_float f0 ;;
  f1 <- Py.getnat row 1 ;;
  be <- unpack2 (Py.split "-" f1) ;;
  let begin_ := clamp_begin (fst be) in
  let end_ := clamp_end (snd be) in
  day <- Py.getnat row 2 ;;
  DOW <- day_of_week v DOW day ;;
  let DOW := quote_dow DOW in
  itu <- Py.getnat row 3 ;;
  ident <- Py.getnat row 4 ;;
  f5 <- Py.getnat row 5 ;;
  let lang := Py.strip f5 in
  let type := type_tag lang in
  let lang := lang_note lang in
  f6 <- Py.getnat row 6 ;;
  let target := target_note (Py.strip f6) in
  f7 <- Py.getnat row 7 ;;
  let notes := notes_of v itu f7 target lang in
  Ok (outrow
        ++ [[ py_str khz; quoted "QAM"; quoted ident;
              quoted (Py.strip notes); EmptyString; quoted type;
              EmptyString; EmptyString; EmptyString; DOW; begin_; end_ ]],
      EmptyString).

Fixpoint main_loop (v : variant) (st : loop_state) (rows : list (list string))
  : result loop_state :=
  match rows with
  | [] => Ok st
  | row :: rest =>
      st' <- process_row v st row ;;
      main_loop v st' rest
  end.

(** [outrow.sort(key=lambda x: float(x[0]))]: the keys are computed
    first, then the records are put in order by [<] on the keys.

    Where [<] orders the keys that occur (it is asymmetric on them and
    its complement is transitive, as on floats that are numbers), the
    contract of [list.sort] fixes the result: the stable ascending
    arrangement, built here by the insertion sort that moves a record
    only past records with a strictly smaller key.  A NaN among the keys
    can break that order, as [float] accepts the text nan and a NaN is
    below nothing and above nothing.  A list in which no key is below the
    key before it is then still one ascending run, which the sort leaves
    as it is; on any other such list the result depends on the merge
    strategy of the interpreter and is [Unmodelled]. *)
Definition sort_key (x : list string) : result float :=
  f0 <- Py.getnat x 0 ;;
  py_float f0.

Fixpoint insert_keyed (x : float * list string)
    (l : list (float * list string)) : list (float * list string) :=
  match l with
  | [] => [x]
  | y :: l' =>
      if float_ltb (fst y) (fst x) then y :: insert_keyed x l'
      else x :: l
  end.

Definition sort_keyed (l : list (float * list string))
  : list (float * list string) :=
  fold_right insert_keyed [] l.

(** [<] orders the keys of the list. *)
Definition ordered_keys (keys : list float) : bool :=
  forallb
    (fun a =>
       forallb
         (fun b =>
            (negb (float_ltb a b) || negb (float_ltb b a))
            && forallb
                 (fun c => float_ltb b a || float_ltb c b || negb (float_ltb c a))
                 keys)
         keys)
    keys.

(** No key is below the key before it. *)
Fixpoint ascending_run (keys : list float) : bool :=
  match keys with
  | a :: (b :: _) as rest => negb (float_ltb b a) && ascending_run rest
  | _ => true
  end.

Definition list_sort (l : list (float * list string))
  : result (list (float * list string)) :=
  if ordered_keys (map fst l) then Ok (sort_keyed l)
  else if ascending_run (map fst l) then Ok l
  else Raise Unmodelled.

Definition sort_outrow (outrow : list (list string))
  : result (list (list string)) :=
  keys <- mapM sort_key outrow ;;
  sorted <- list_sort (combine keys outrow) ;;
  Ok (map snd sorted).

(** The script from the parsed source rows to the records it writes:
    the header row is skipped, the rows are converted, the records are
    sorted. *)
Definition eibi2kiwi (v : variant) (rows : list (list string))
  : result (list (list string)) :=
  match rows with
  | [] => Raise StopIteration
  | _ :: body =>
      st <- main_loop v ([], EmptyString) body ;;
      sort_outrow (fst st)
  end.

(** The line written for a record. *)
Definition csv_line (row : list string) : string := Py.join ";" row.

End CsvStage.

(** ** The CSV reader

    [csv.reader(f, delimiter=";")] with the default dialect (the
    double quote as quote character, doubled quotes, not strict), as the state machine of
    the [csv] module.  A file opened in text mode is a list of lines; a
    line is kept without its terminator, which the reader sees as a
    newline character followed by the end of the line.  The limit on the
    size of a field is not modelled. *)

Module Csv.

Inductive state : Type :=
| START_RECORD
| START_FIELD
| IN_FIELD
| IN_QUOTED_FIELD
| QUOTE_IN_QUOTED_FIELD
| EAT_CRNL.

Record parser : Type := {
  st : state;
  field : string;
  fields : list string
}.

Definition reset : parser :=
  {| st := START_RECORD; field := EmptyString; fields := [] |}.

Definition add_char (p : parser) (c : ascii) (s : state) : parser :=
  {| st := s; field := field p ++ String c EmptyString; fields := fields p |}.

Definition save_field (p : parser) (s : state) : parser :=
  {| st := s; field := EmptyString; fields := fields p ++ [field p] |}.

Definition goto (p : parser) (s : state) : parser :=
  {| st := s; field := field p; fields := fields p |}.

Definition is_newline (c : ascii) : bool :=
  Ascii.eqb c "010" || Ascii.eqb c "013".

Definition start_field (delimiter : ascii) (p : parser) (c : option ascii)
  : result parser :=
  match c with
  | None => Ok (save_field p START_RECORD)
  | Some c =>
      if is_newline c then Ok (save_field p EAT_CRNL)
      else if Ascii.eqb c dquote then Ok (goto p IN_QUOTED_FIELD)
      else if Ascii.eqb c delimiter then Ok (save_field p START_FIELD)
      else Ok (add_char p c IN_FIELD)
  end.

(** One step of the machine; [None] is the end of the line. *)
Definition process_char (delimiter : ascii) (p : parser) (c : option ascii)
  : result parser :=
  match st p with
  | START_RECORD =>
      match c with
      | None => Ok p
      | Some c' =>
          if is_newline c' then Ok (goto p EAT_CRNL)
          else start_field delimiter p c
      end
  | START_FIELD => start_field delimiter p c
  | IN_FIELD =>
      match c with
      | None => Ok (save_field p START_RECORD)
      | Some c =>
          if is_newline c then Ok (save_field p EAT_CRNL)
          else if Ascii.eqb c delimiter then Ok (save_field p START_FIELD)
          else Ok (add_char p c IN_FIELD)
      end
  | IN_QUOTED_FIELD =>
      match c with
      | None => Ok p
      | Some c =>
          if Ascii.eqb c dquote then Ok (goto p QUOTE_IN_QUOTED_FIELD)
          else Ok (add_char p c IN_QUOTED_FIELD)
      end
  | QUOTE_IN_QUOTED_FIELD =>
      match c with
      | None => Ok (save_field p START_RECORD)
      | Some c =>
          if Ascii.eqb c dquote then Ok (add_char p c IN_QUOTED_FIELD)
          else if Ascii.eqb c delimiter then Ok (save_field p START_FIELD)
          else if is_newline c then Ok (save_field p EAT_CRNL)
          else Ok (add_char p c IN_FIELD)
      end
  | EAT_CRNL =>
      match c with
      | None => Ok (goto p START_RECORD)
      | Some c => if is_newline c then Ok p else Raise CsvError
      end
  end.

Fixpoint feed (delimiter : ascii) (p : parser) (s : string) : result parser :=
  match s with
  | EmptyString => Ok p
  | String c s' =>
      p' <- process_char delimiter p (Some c) ;;
      feed delimiter p' s'
  end.

(** A whole line: its characters, its newline, the end of the line. *)
Definition feed_line (delimiter : ascii) (p : parser) (line : string)
  : result parser :=
  p1 <- feed delimiter p line ;;
  p2 <- process_char delimiter p1 (Some "010"%char) ;;
  process_char delimiter p2 None.

Definition at_record_start (p : parser) : bool :=
  match st p with START_RECORD => true | _ => false end.

(** The loop [for row in reader: body], with the state [S] of the body:
    rows are read one at a time, so an exception of the body comes
    before an exception of a later line. *)
Fixpoint fold {S : Type} (delimiter : ascii) (body : S -> list string -> result S)
    (p : parser) (s : S) (lines : list string) : result S :=
  match lines with
  | [] =>
      if negb (is_empty (field p)) || negb (at_record_start p)
      then body s (fields p ++ [field p])
      else Ok s
  | line :: rest =>
      p' <- feed_line delimiter p line ;;
      if at_record_start p'
      then (s' <- body s (fields p') ;; fold delimiter body reset s' rest)
      else fold delimiter body p' s rest
  end.

(** All the rows of a file, [list(reader)]. *)
Fixpoint rows_from (delimiter : ascii) (p : parser) (lines : list string)
  : result (list (list string)) :=
  match lines with
  | [] =>
      if negb (is_empty (field p)) || negb (at_record_start p)
      then Ok [fields p ++ [field p]]
      else Ok []
  | line :: rest =>
      p' <- feed_line delimiter p line ;;
      if at_record_start p'
      then (rs <- rows_from delimiter reset rest ;; Ok (fields p' :: rs))
      else rows_from delimiter p' rest
  end.

Definition rows (delimiter : ascii) (lines : list string)
  : result (list (list string)) :=
  rows_from delimiter reset lines.

End Csv.

(** ** The JSON stage (eibi2kiwi_json.py) *)

Module Quote.

(** [text.encode("utf-8")] for code points below 256. *)
Definition utf8_char (c : ascii) : list N :=
  let n := Py.code c in
  if (n <? 128)%N then [n]
  else [(192 + n / 64)%N; (128 + n mod 64)%N].

Fixpoint utf8 (s : string) : list N :=
  match s with
  | EmptyString => []
  | String c s' => utf8_char c ++ utf8 s'
  end.

(** The bytes [urllib.parse.quote] never escapes: letters, digits and
    [_.-~]. *)
Definition always_safe (b : N) : bool :=
  (((65 <=? b) && (b <=? 90)) || ((97 <=? b) && (b <=? 122))
   || ((48 <=? b) && (b <=? 57))
   || (b =? 95) || (b =? 46) || (b =? 45) || (b =? 126))%N.

Definition hex_upper (d : N) : ascii :=
  if (d <? 10)%N then ascii_of_N (48 + d) else ascii_of_N (55 + d).

Definition hex_lower (d : N) : ascii :=
  if (d <? 10)%N then ascii_of_N (48 + d) else ascii_of_N (87 + d).

(** The escape of one byte, [%XX] with upper-case digits. *)
Definition escape (b : N) : string :=
  String "%" (String (hex_upper (b / 16)) (String (hex_upper (b mod 16)) EmptyString)).

Definition quote_byte (safe : ascii -> bool) (b : N) : string :=
  if always_safe b || ((b <? 128)%N && safe (ascii_of_N b))
  then String (ascii_of_N b) EmptyString
  else escape b.

Fixpoint quote_bytes (safe : ascii -> bool) (bs : list N) : string :=
  match bs with
  | [] => EmptyString
  | b :: bs' => quote_byte safe b ++ quote_bytes safe bs'
  end.

(** [urllib.parse.quote(text, safe=...)]. *)
Definition quote (text : string) (safe : ascii -> bool) : string :=
  quote_bytes safe (utf8 text).

End Quote.

Definition is_hex (c : ascii) : bool :=
  let n := Py.code c in
  (((48 <=? n) && (n <=? 57)) || ((65 <=? n) && (n <=? 70))
   || ((97 <=? n) && (n <=? 102)))%N.

(** [c.lower()] for a character of an escape. *)
Definition ascii_lower (c : ascii) : ascii :=
  let n := Py.code c in
  if ((65 <=? n) && (n <=? 90))%N then ascii_of_N (n + 32) else c.

(** The regular expression [%[0-9A-Fa-f]{2}] matches at the head of [s]. *)
Definition escape_at (s : string) : bool :=
  match s with
  | String p (String a (String b _)) => Ascii.eqb p "%" && is_hex a && is_hex b
  | _ => false
  end.

(** [re.sub] of that expression with the match in lower case: from the
    left, a match is consumed whole; [inside] counts the characters of
    the current match still to come. *)
Fixpoint lower_escapes_from (inside : nat) (s : string) : string :=
  match s with
  | EmptyString => EmptyString
  | String c s' =>
      match inside with
      | S k => String (ascii_lower c) (lower_escapes_from k s')
      | O =>
          if escape_at s then String (ascii_lower c) (lower_escapes_from 2 s')
          else String c (lower_escapes_from 0 s')
      end
  end.

Definition lower_escapes (s : string) : string := lower_escapes_from 0 s.

Definition encode_preserve_case (text : string) : string :=
  let encoded :=
    Py.replace "%26" "&"
      (Py.replace "%29" ")"
        (Py.replace "%28" "("
          (Py.replace "%2C" ","
            (Py.replace "%3E" ">"
              (Py.replace "%3C" "<"
                (Py.replace "%3A" ":"
                  (Py.replace "%20" " "
                    (Quote.quote text (Ascii.eqb " "))))))))) in
  lower_escapes encoded.

Definition percent_encode (station_name details : string) : string * string :=
  (encode_preserve_case station_name, encode_preserve_case details).

(** *** Text of any code points

    The same function on a [str] that is not confined to U+0000..U+00FF:
    the list of the numbers of its code points, each at most
    [MAX_UNICODE]. *)

Module Unicode.

Definition str : Type := list N.

Definition MAX_UNICODE : N := 1114111.

(** The [str] of a text of the range U+0000..U+00FF. *)
Definition points (s : string) : str := map Py.code (list_ascii_of_string s).

Definition is_surrogate (ch : N) : bool :=
  ((55296 <=? ch) && (ch <=? 57343))%N.

(** [text.encode("utf-8")] for one code point, the error handler being
    strict: the bytes as the encoder of the interpreter sets their bits,
    and the UnicodeEncodeError for a surrogate. *)
Definition utf8_char (ch : N) : result (list N) :=
  if (ch <? 128)%N then Ok [ch]
  else if (ch <? 2048)%N then
    Ok [ N.lor 192 (N.shiftr ch 6); N.lor 128 (N.land ch 63) ]
  else if is_surrogate ch then Raise UnicodeEncodeError
  else if (ch <? 65536)%N then
    Ok [ N.lor 224 (N.shiftr ch 12);
         N.lor 128 (N.land (N.shiftr ch 6) 63);
         N.lor 128 (N.land ch 63) ]
  else
    Ok [ N.lor 240 (N.shiftr ch 18);
         N.lor 128 (N.land (N.shiftr ch 12) 63);
         N.lor 128 (N.land (N.shiftr ch 6) 63);
         N.lor 128 (N.land ch 63) ].

Fixpoint utf8 (text : str) : result (list N) :=
  match text with
  | [] => Ok []
  | ch :: rest =>
      bs <- utf8_char ch ;;
      bs' <- utf8 rest ;;
      Ok (bs ++ bs')
  end.

(** [urllib.parse.quote(text, safe=...)]. *)
Definition quote (text : str) (safe : ascii -> bool) : result string :=
  bs <- utf8 text ;;
  Ok (Quote.quote_bytes safe bs).

Definition encode_preserve_case (text : str) : result string :=
  q <- quote text (Ascii.eqb " ") ;;
  let encoded :=
    Py.replace "%26" "&"
      (Py.replace "%29" ")"
        (Py.replace "%28" "("
          (Py.replace "%2C" ","
            (Py.replace "%3E" ">"
              (Py.replace "%3C" "<"
                (Py.replace "%3A" ":"
                  (Py.replace "%20" " " q))))))) in
  Ok (lower_escapes encoded).

End Unicode.

(** [int(s, 2)] for the strings of ['0'] and ['1'] that
    [day_schedule_to_int] builds; anything else is a ValueError here. *)
Fixpoint int_base2_from (acc : Z) (s : string) : result Z :=
  match s with
  | EmptyString => Ok acc
  | String c s' =>
      if Ascii.eqb c "0" then int_base2_from (2 * acc) s'
      else if Ascii.eqb c "1" then int_base2_from (2 * acc + 1) s'
      else Raise ValueError
  end.

Definition int_base2 (s : string) : result Z :=
  match s with
  | EmptyString => Raise ValueError
  | _ => int_base2_from 0 s
  end.

Fixpoint binary_representation (schedule : string) : string :=
  match schedule with
  | EmptyString => EmptyString
  | String c rest =>
      String (if Ascii.eqb c "_" then "0"%char else "1"%char)
             (binary_representation rest)
  end.

Definition day_schedule_to_int (schedule : string) : result Z :=
  int_base2 (binary_representation schedule).

(** [int(s)] in base ten: surrounding white space, an optional sign,
    digits, single underscores between digits.  The limit on the number
    of digits is not modelled. *)
Fixpoint int_digits (acc : Z) (after_digit : bool) (s : string) : result Z :=
  match s with
  | EmptyString => if after_digit then Ok acc else Raise ValueError
  | String c s' =>
      if Py.is_decimal c
      then int_digits (10 * acc + (Z.of_N (Py.code c) - 48)) true s'
      else if Ascii.eqb c "_" && after_digit then int_digits acc false s'
      else Raise ValueError
  end.

Definition py_int (s : string) : result Z :=
  match Py.strip s with
  | String "+" s' => int_digits 0 false s'
  | String "-" s' => n <- int_digits 0 false s' ;; Ok (- n)
  | s' => int_digits 0 false s'
  end.

Section JsonStage.

Context `{FloatOps}.

(** One element of the output array: a list of five values. *)
Record json_entry : Type := {
  frequency : float;
  band : string;
  station_name : string;
  details : string;
  metadata : list (string * Z)
}.

Definition truthy (s : string) : bool := negb (is_empty s).

(** The body of [if row:] for a row that is not empty. *)
Definition json_entry_of_row (row : list string) : result json_entry :=
  f0 <- Py.getnat row 0 ;;
  x <- py_float f0 ;;
  let frequency := py_round2 x in
  f1 <- Py.getnat row 1 ;;
  let band := Py.strip_char dquote f1 in
  f2 <- Py.getnat row 2 ;;
  let station_name := Py.strip_char dquote f2 in
  f3 <- Py.getnat row 3 ;;
  let details := Py.strip_char dquote f3 in
  let nd := percent_encode station_name details in
  let metadata := [("T3", 1)] in
  f10 <- Py.getnat row 10 ;;
  metadata <-
    (if truthy (Py.strip f10)
     then (b0 <- py_int (Py.strip (Py.replace "'" EmptyString f10)) ;;
           Ok (Py.setkey metadata "b0" b0))
     else Ok metadata) ;;
  f11 <- Py.getnat row 11 ;;
  let metadata :=
    if negb (truthy (Py.strip f10)) && truthy (Py.strip f11)
    then Py.setkey metadata "b0" 0 else metadata in
  metadata <-
    (if truthy (Py.strip f11)
     then (e0 <- py_int (Py.strip (Py.replace "'" EmptyString f11)) ;;
           Ok (Py.setkey metadata "e0" e0))
     else Ok metadata) ;;
  let metadata :=
    if negb (truthy (Py.strip f11)) && truthy (Py.strip f10)
    then Py.setkey metadata "e0" 0 else metadata in
  f9 <- Py.getnat row 9 ;;
  metadata <-
    (if truthy (Py.strip f9)
     then (d0 <- day_schedule_to_int f9 ;;
           Ok (Py.setkey metadata "d0" d0))
     else Ok metadata) ;;
  Ok {| frequency := frequency; band := band;
        station_name := fst nd; details := snd nd;
        metadata := metadata |}.

(** The reading loop of [csv_to_json].  The state is the list [result]
    and whether [next(reader, None)] has consumed its row. *)
Definition json_state : Type := (bool * list json_entry)%type.

Definition json_body (s : json_state) (row : list string) : result json_state :=
  let '(header_skipped, result) := s in
  if negb header_skipped then Ok (true, result)
  else match row with
       | [] => Ok s
       | _ => (e <- json_entry_of_row row ;; Ok (true, result ++ [e]))
       end.

(** The loop over rows already read. *)
Definition json_rows (s : json_state) (rows : list (list string))
  : result json_state :=
  foldM json_body s rows.

(** [csv_to_json] from the lines of the input file to the elements of
    the array it writes. *)
Definition csv_to_json (lines : list string) : result (list json_entry) :=
  s <- Csv.fold ";" json_body Csv.reset (false, []) lines ;;
  Ok (snd s).

End JsonStage.

(** ** A decimal instance of the float interface

    Frequencies written as plain decimal literals, held as exact
    rationals.  It is used to run the model on concrete files. *)

Module Dec.

Fixpoint digits_value (acc : N) (s : string) : N :=
  match s with
  | EmptyString => acc
  | String c s' => digits_value (10 * acc + (Py.code c - 48))%N s'
  end.

Definition all_decimal (s : string) : bool :=
  negb (is_empty s) && Py.forallb_string Py.is_decimal s.

Definition parse (s : string) : result Q :=
  match Py.split "." s with
  | [i] =>
      if all_decimal i then Ok (Z.of_N (digits_value 0 i) # 1)
      else Raise ValueError
  | [i; f] =>
      if all_decimal i && all_decimal f
      then Ok (Qred (Z.of_N (digits_value 0 (i ++ f))
                     # Pos.pow 10 (Pos.of_nat (String.length f))))
      else Raise ValueError
  | _ => Raise ValueError
  end.

Definition digit_char (d : Z) : ascii := ascii_of_N (48 + Z.to_N d).

Fixpoint fraction (fuel : nat) (r den : Z) : string :=
  match fuel with
  | O => EmptyString
  | S k =>
      let d := (r * 10) / den in
      let r' := (r * 10) mod den in
      String (digit_char d) (if r' =? 0 then EmptyString else fraction k r' den)
  end.

Definition str (q : Q) : string :=
  let den := Z.pos (Qden q) in
  NilZero.string_of_uint (N.to_uint (Z.to_N (Qnum q / den)))
  ++ "." ++ fraction 17 (Qnum q mod den) den.

Definition round2 (q : Q) : Q :=
  Qred (Qfloor (q * 100 + (1 # 2)) # 100).

Definition ltb (x y : Q) : bool := negb (Qle_bool y x).

End Dec.

#[local] Instance DecFloat : FloatOps := {|
  float := Q;
  py_float := Dec.parse;
  py_str := Dec.str;
  py_round2 := Dec.round2;
  float_ltb := Dec.ltb
|}.

(** ** The decimal instance with a NaN

    The instance above with one more float, the NaN that [float] makes of
    the text nan: it prints as nan and is neither below nor above any
    float. *)

Module DecNan.

Definition parse (s : string) : result (option Q) :=
  if String.eqb s "nan" then Ok None
  else q <- Dec.parse s ;; Ok (Some q).

Definition str (x : option Q) : string :=
  match x with
  | Some q => Dec.str q
  | None => "nan"
  end.

Definition round2 (x : option Q) : option Q := option_map Dec.round2 x.

Definition ltb (x y : option Q) : bool :=
  match x, y with
  | Some a, Some b => Dec.ltb a b
  | _, _ => false
  end.

End DecNan.

Definition NanFloat : FloatOps := {|
  float := option Q;
  py_float := DecNan.parse;
  py_str := DecNan.str;
  py_round2 := DecNan.round2;
  float_ltb := DecNan.ltb
|}.

(** * Vocabulary of the properties *)

Fixpoint count_char (c : ascii) (s : string) : nat :=
  match s with
  | EmptyString => O
  | String d s' => (if Ascii.eqb d c then 1 else 0) + count_char c s'
  end.

(** The days a range covers, read off the week as a cycle: from day [i],
    as many days as lead to day [j]. *)
Definition cyclic_days (i j : nat) : list string :=
  map (fun k => nth ((i + k) mod 7) weekdays EmptyString)
      (seq 0 (S ((j + 7 - i) mod 7))).

(** The seven binary digits of a mask, Monday first: the character at
    position [i] is the bit of weight [2^(6-i)]. *)
Definition mask_binstring (mask : Z) : string :=
  string_of_list_ascii
    (map (fun i => if Z.testbit mask (6 - Z.of_nat i) then "1"%char else "0"%char)
         (seq 0 7)).

(** The weekday a digit selects when the index [int(d) - 1] is in range. *)
Definition digit_day (c : ascii) : string :=
  if Ascii.eqb c "0" then "Su"
  else nth (N.to_nat (Py.code c) - 49) daylist EmptyString.

Definition day_bits (day : string) : string :=
  match Py.lookup days day with
  | Some bits => bits
  | None => EmptyString
  end.

Definition is_octal (c : ascii) : bool :=
  ((48 <=? Py.code c) && (Py.code c <=? 55))%N.



(** A day field that none of the three branches takes. *)
Definition day_unrecognized (v : variant) (day : string) : Prop :=
  Py.isdigit day = false /\ is_list_or_token day = false /\ is_range v day = false.

(** A day field that the range branch takes. *)
Definition reaches_range (v : variant) (day : string) : Prop :=
  Py.isdigit day = false /\ is_list_or_token day = false /\ is_range v day = true.

Definition sample_row_digits : list string :=
  ["9400"; "0600-1800"; "1345"; "D"; "Deutsche Welle"; "E"; EmptyString; EmptyString].

Definition sample_row_irregular : list string :=
  ["9500"; "0000-2400"; "irr"; "D"; "Deutsche Welle"; "E"; "Eu"; "/USA-g"].

Section SortVocabulary.

Context `{FloatOps}.

Definition keyed : Type := (float * list string)%type.

(** [p] may stand before [q]: the key of [q] is not below the key of [p]. *)
Definition key_le (p q : keyed) : Prop := float_ltb (fst q) (fst p) = false.

(** The keys [k] and [k'] are equal as numbers. *)
Definition same_float (k k' : float) : bool :=
  negb (float_ltb k k') && negb (float_ltb k' k).

End SortVocabulary.

(** The records of a given frequency, in the order of the list. *)
Definition with_frequency `{FloatOps} (k : float) (x : list string) : bool :=
  match sort_key x with
  | Ok k' => same_float k k'
  | Raise _ => false
  end.

(** The frequency of [x] is not above the frequency of [y]. *)
Definition frequency_le `{FloatOps} (x y : list string) : Prop :=
  exists kx ky, sort_key x = Ok kx /\ sort_key y = Ok ky /\ float_ltb ky kx = false.

(** The encoder the claim describes.  The text is taken in its UTF-8
    form, which RFC 3629 lays out by the size of the scalar value: one
    byte below 128, two below 2048, three below 65536 and four above,
    the first byte carrying the length and every further byte six bits
    of the value.  Byte by byte, the unreserved characters of URLs, the
    space and the seven listed punctuation characters stay as they are;
    every other byte is a percent sign and its two hexadecimal digits in
    lower case. *)
Module EncoderSpec.

(** A code point that has a UTF-8 form: any but the surrogates. *)
Definition scalar (c : N) : bool :=
  ((c <? 55296) || ((57343 <? c) && (c <=? 1114111)))%N.

Definition utf8_bytes (c : N) : list N :=
  if (c <? 128)%N then [c]
  else if (c <? 2048)%N then [ 192 + c / 64; 128 + c mod 64 ]%N
  else if (c <? 65536)%N then
    [ 224 + c / 4096; 128 + (c / 64) mod 64; 128 + c mod 64 ]%N
  else
    [ 240 + c / 262144; 128 + (c / 4096) mod 64; 128 + (c / 64) mod 64;
      128 + c mod 64 ]%N.

Definition unreserved (b : N) : bool :=
  (b <? 128)%N
  && Py.contains (ascii_of_N b)
       "ABCDEFGHIJKLMNOPQRSTUVWXYZabcdefghijklmnopqrstuvwxyz0123456789-._~".

Definition left_literal (b : N) : bool :=
  (b <? 128)%N && Py.contains (ascii_of_N b) " :<>,()&".

Definition hex_digit (d : N) : ascii :=
  match String.get (N.to_nat d) "0123456789abcdef" with
  | Some a => a
  | None => "?"%char
  end.

Definition encode_byte (b : N) : string :=
  if unreserved b || left_literal b then String (ascii_of_N b) EmptyString
  else String "%" (String (hex_digit (b / 16))
                     (String (hex_digit (b mod 16)) EmptyString)).

Definition encode (text : list N) : string :=
  String.concat EmptyString (map encode_byte (flat_map utf8_bytes text)).

End EncoderSpec.

(** The output of [quote] is a sequence of tokens: a character that is
    not the percent sign, or an escape of three characters. *)
Definition wf_tok (t : string) : bool :=
  match t with
  | String c EmptyString => negb (Ascii.eqb c "%")
  | String p (String a (String b EmptyString)) =>
      Ascii.eqb p "%" && is_hex a && is_hex b
  | _ => false
  end.

Fixpoint concat_toks (ts : list string) : string :=
  match ts with
  | [] => EmptyString
  | t :: ts' => t ++ concat_toks ts'
  end.

Definition subst_tok (pat rep t : string) : string :=
  if String.eqb t pat then rep else t.

Definition lower_tok (t : string) : string :=
  match t with
  | String p (String a (String b EmptyString)) =>
      String p (String (ascii_lower a) (String (ascii_lower b) EmptyString))
  | _ => t
  end.

(** What the chain of replacements and the final substitution do to one
    token. *)
Definition cook (t : string) : string :=
  lower_tok
    (subst_tok "%26" "&"
      (subst_tok "%29" ")"
        (subst_tok "%28" "("
          (subst_tok "%2C" ","
            (subst_tok "%3E" ">"
              (subst_tok "%3C" "<"
                (subst_tok "%3A" ":"
                  (subst_tok "%20" " " t)))))))).

Definition nonempty_row (row : list string) : bool :=
  match row with [] => false | _ => true end.

(** The record the CSV stage emits for [sample_row_digits], and the row
    the reader of the JSON stage makes of its line. *)
Definition sample_record : list string :=
  [ "9400.0"; quoted "QAM"; quoted "Deutsche Welle"; quoted "D.  Lang: E";
    EmptyString; quoted "T3"; EmptyString; EmptyString; EmptyString;
    quoted "M_WTF__"; "0600"; "1800" ].

Definition sample_parsed : list string :=
  [ "9400.0"; "QAM"; "Deutsche Welle"; "D.  Lang: E";
    EmptyString; "T3"; EmptyString; EmptyString; EmptyString;
    "M_WTF__"; "0600"; "1800" ].

(** A source row of a station broadcasting on the days 1, 3, 4 and 5,
    and the record the CSV stage emits for it, by frequency and name. *)
Definition station_row (khz ident : string) : list string :=
  [khz; "0600-1800"; "1345"; "D"; ident; "E"; EmptyString; EmptyString].

Definition station_record (khz ident : string) : list string :=
  [ khz; quoted "QAM"; quoted ident; quoted "D.  Lang: E";
    EmptyString; quoted "T3"; EmptyString; EmptyString; EmptyString;
    quoted "M_WTF__"; "0600"; "1800" ].

(** A character that an unquoted field can hold. *)
Definition plain_char (c : ascii) : bool :=
  negb (Ascii.eqb c ";" || Ascii.eqb c dquote || Csv.is_newline c).

(** * Vocabulary of the further properties *)

(** Whether the string has the digit 1 at position [i]. *)
Definition has_one_at (i : nat) (s : string) : bool :=
  match String.get i s with
  | Some c => Ascii.eqb "1" c
  | None => false
  end.

(** Whether one of the strings has the digit 1 at position [i]. *)
Definition column_or (l : list string) (i : nat) : bool :=
  existsb (has_one_at i) l.

(** The string of [n] binary digits whose digit [i] is 1 when one of the
    strings has a 1 there. *)
Definition union_bits (n : nat) (l : list string) : string :=
  string_of_list_ascii
    (map (fun i => if column_or l i then "1"%char else "0"%char) (seq 0 n)).

(** Whether weekday [i] of the week, Monday first, is in the list. *)
Definition day_listed (ds : list string) (i : nat) : bool :=
  existsb (String.eqb (nth i weekdays EmptyString)) ds.

(** The tokens the list branch looks up. *)
Definition list_tokens (day : string) : list string :=
  let day := if String.eqb day "SaSu" then "Sa,Su" else day in
  let day := if Py.startswith "1." day then Py.drop 2 day else day in
  Py.split "," day.

(** The value of a string read as binary digits, most significant first:
    every character other than [zero] counts as a one. *)
Fixpoint bits_value (zero : ascii) (s : string) : Z :=
  match s with
  | EmptyString => 0
  | String c s' =>
      (if Ascii.eqb c zero then 0 else 2 ^ Z.of_nat (String.length s'))
      + bits_value zero s'
  end.

(** A day-letter string as the CSV stage writes it: seven characters,
    each the letter of its position or the placeholder, not all of them
    placeholders. *)
Definition dow_letters_ok (letters : string) : bool :=
  Nat.eqb (String.length letters) 7
  && forallb (fun i => match String.get i letters with
                       | Some c => Ascii.eqb c (nth i dow_letters "_"%char)
                                   || Ascii.eqb c "_"
                       | None => false
                       end) (seq 0 7)
  && negb (String.eqb letters "_______").

(** The shape of a record of the CSV stage. *)
Definition record_ok (rec : list string) : Prop :=
  List.length rec = 12%nat /\
  nth 1 rec "?" = quoted "QAM" /\
  nth 4 rec "?" = EmptyString /\
  (nth 5 rec "?" = quoted "T3" \/ nth 5 rec "?" = quoted "T4") /\
  nth 6 rec "?" = EmptyString /\
  nth 7 rec "?" = EmptyString /\
  nth 8 rec "?" = EmptyString /\
  (nth 9 rec "?" = EmptyString
   \/ exists letters, nth 9 rec "?" = quoted letters
                      /\ dow_letters_ok letters = true) /\
  nth 10 rec "?" <> "0000" /\
  nth 11 rec "?" <> "2400".

(** Decoders used to show that the percent-encoder loses nothing: the
    value of a hexadecimal digit, the bytes behind an encoded string, the
    text behind its UTF-8 bytes. *)
Definition hex_value (c : ascii) : N :=
  let n := Py.code c in
  if (n <? 58)%N then (n - 48)%N
  else if (n <? 97)%N then (n - 55)%N else (n - 87)%N.

Fixpoint unescape (s : string) : list N :=
  match s with
  | EmptyString => []
  | String c s' =>
      if Ascii.eqb c "%" then
        match s' with
        | String a (String b rest) =>
            (16 * hex_value a + hex_value b)%N :: unescape rest
        | _ => []
        end
      else Py.code c :: unescape s'
  end.

Fixpoint utf8_decode (bs : list N) : string :=
  match bs with
  | [] => EmptyString
  | b1 :: bs' =>
      if (b1 <? 128)%N then String (ascii_of_N b1) (utf8_decode bs')
      else match bs' with
           | b2 :: bs'' =>
               String (ascii_of_N ((b1 - 192) * 64 + (b2 - 128)))
                      (utf8_decode bs'')
           | [] => EmptyString
           end
  end.

Definition printable (c : ascii) : bool :=
  ((32 <=? Py.code c) && (Py.code c <=? 126))%N.

(** * The preamble of eibi2kiwi_online.py

    The code that runs before the row loop: the location dictionary, the
    choice of the season file and the download. Its exceptions are kept
    apart from those of the conversion. *)

Module Preamble.

Inductive stop : Type :=
| NameError
| DateValueError
| OverflowError
| SystemExit.

Inductive outcome (A : Type) : Type :=
| Done (a : A)
| Stop (e : stop).

Arguments Done {A} a.
Arguments Stop {A} e.

Definition then_ {A B : Type} (c : outcome A) (k : A -> outcome B) : outcome B :=
  match c with
  | Done a => k a
  | Stop e => Stop e
  end.

(** ** The location dictionary *)

(** The state of the loop over eibisites.csv: the dictionary, the three
    loop variables once they are bound, and the rows reported as errors. *)
Record load_state : Type := {
  location_dict : loc_dict;
  bound : option (string * string * string);
  reported : list (list string)
}.

Definition load_start : load_state :=
  {| location_dict := []; bound := None; reported := [] |}.

(** One iteration: the unpacking binds the three variables or, for a row
    that has not three columns, reports the row and leaves them as they
    are; the assignment then uses the variables, which is a NameError
    when they were never bound. *)
Definition load_row (s : load_state) (row : list string) : outcome load_state :=
  let vars_reported :=
    match row with
    | [country_code; location_code; location_name] =>
        (Some (country_code, location_code, location_name), reported s)
    | _ => (bound s, reported s ++ [row])
    end in
  match fst vars_reported with
  | None => Stop NameError
  | Some (country_code, location_code, location_name) =>
      let d := location_dict s in
      let d := if Py.haskey d country_code then d
               else Py.setkey d country_code [] in
      let sites := match Py.lookup d country_code with
                   | Some sites => sites
                   | None => []
                   end in
      Done {| location_dict :=
                Py.setkey d country_code
                  (Py.setkey sites location_code location_name);
              bound := fst vars_reported;
              reported := snd vars_reported |}
  end.

Fixpoint load_rows (s : load_state) (rows : list (list string))
  : outcome load_state :=
  match rows with
  | [] => Done s
  | row :: rest => then_ (load_row s row) (fun s' => load_rows s' rest)
  end.

Definition load_locations (rows : list (list string)) : outcome load_state :=
  load_rows load_start rows.

(** ** Dates

    A [date] is held as its proleptic Gregorian ordinal, as
    [date.toordinal] gives it; comparisons of dates are comparisons of
    ordinals. *)

Definition is_leap (year : Z) : bool :=
  (year mod 4 =? 0) && (negb (year mod 100 =? 0) || (year mod 400 =? 0)).

Definition days_before_year (year : Z) : Z :=
  let y := year - 1 in
  y * 365 + y / 4 - y / 100 + y / 400.

Definition DAYS_IN_MONTH : list Z :=
  [-1; 31; 28; 31; 30; 31; 30; 31; 31; 30; 31; 30; 31].

Definition DAYS_BEFORE_MONTH : list Z :=
  [-1; 0; 31; 59; 90; 120; 151; 181; 212; 243; 273; 304; 334].

Definition days_in_month (year month : Z) : Z :=
  if (month =? 2) && is_leap year then 29
  else nth (Z.to_nat month) DAYS_IN_MONTH 0.

Definition days_before_month (year month : Z) : Z :=
  nth (Z.to_nat month) DAYS_BEFORE_MONTH 0
  + (if (2 <? month) && is_leap year then 1 else 0).

Definition ymd2ord (year month day : Z) : Z :=
  days_before_year year + days_before_month year month + day.

Definition MAXORDINAL : Z := 3652059.

(** [date(year, month, day)]. *)
Definition date (year month day : Z) : outcome Z :=
  if (1 <=? year) && (year <=? 9999) && (1 <=? month) && (month <=? 12)
     && (1 <=? day) && (day <=? days_in_month year month)
  then Done (ymd2ord year month day)
  else Stop DateValueError.

(** [d - timedelta(days=n)]. *)
Definition minus_days (d n : Z) : outcome Z :=
  let o := d - n in
  if (0 <? o) && (o <=? MAXORDINAL) then Done o else Stop OverflowError.

(** [d.weekday()]: Monday is 0, Sunday is 6. *)
Definition weekday (d : Z) : Z := (d + 6) mod 7.

Definition last_sunday (year month : Z) : outcome Z :=
  then_ (date year (month + 1) 1) (fun first =>
  then_ (minus_days first 1) (fun last_day =>
  if weekday last_day =? 6 then Done last_day
  else minus_days last_day (weekday last_day + 1))).

(** [str(n)] for an integer. *)
Definition str_int (n : Z) : string := NilZero.string_of_int (Z.to_int n).

(** The choice of FILEIN; [year] is [today.year] and [today] the ordinal
    of today. *)
Definition season_file (year today : Z) : outcome string :=
  then_ (last_sunday year 3) (fun season_a_start =>
  then_ (last_sunday year 10) (fun season_a_end =>
  then_ (last_sunday (year + 1) 3) (fun season_b_end =>
  then_ (if today <? season_a_start
         then then_ (last_sunday (year - 1) 3) (fun a_start =>
              then_ (last_sunday (year - 1) 10) (fun a_end =>
              then_ (last_sunday year 3) (fun b_end =>
              Done (a_start, a_end, b_end))))
         else Done (season_a_start, season_a_end, season_b_end))
    (fun seasons =>
       let '(season_a_start, season_a_end, season_b_end) := seasons in
       if (season_a_start <=? today) && (today <=? season_a_end)
       then Done ("sked-a" ++ Py.drop 2 (str_int year) ++ ".csv")%string
       else if (season_a_end <? today) && (today <? season_b_end)
       then (if today <? season_b_end
             then Done ("sked-b" ++ Py.drop 2 (str_int (year - 1)) ++ ".csv")%string
             else Done ("sked-b" ++ Py.drop 2 (str_int year) ++ ".csv")%string)
       else Stop SystemExit)))).

(** ** The download

    What one request gives: a response with a status and a text, or no
    response at all (a connection error or a timeout).
    [raise_for_status] raises for a status from 400 to 599. *)
Inductive reply : Type :=
| Response (status_code : Z) (text : string)
| NoResponse.

Definition CR : string := String "013" EmptyString.
Definition CRLF : string := String "013" (String "010" EmptyString).

Definition is_http_error (status_code : Z) : bool :=
  (400 <=? status_code) && (status_code <? 600).

(** What the loop has done: the requests made, the pauses taken, the
    file as it is on disk, and whether the final message of failure was
    printed. *)
Record fetched : Type := {
  requests : nat;
  sleeps : nat;
  file : option string;
  gave_up : bool
}.

(** The loop [for attempt in range(max_attempts)] with its [else];
    [server] answers the request of each attempt and [local] is the file
    found on disk before the loop. *)
Fixpoint fetch_from (server : nat -> reply) (attempt remaining : nat)
    (requests sleeps : nat) (local : option string) : fetched :=
  match remaining with
  | O => {| requests := requests; sleeps := sleeps; file := local;
            gave_up := true |}
  | S remaining' =>
      match server attempt with
      | Response status_code text =>
          if is_http_error status_code then
            if status_code =? 404
            then {| requests := S requests; sleeps := sleeps; file := local;
                    gave_up := false |}
            else fetch_from server (S attempt) remaining' (S requests)
                            (S sleeps) local
          else {| requests := S requests; sleeps := sleeps;
                  file := Some (Py.replace CRLF CR text);
                  gave_up := false |}
      | NoResponse =>
          fetch_from server (S attempt) remaining' (S requests) (S sleeps) local
      end
  end.

Definition max_attempts : nat := 3.

Definition fetch (server : nat -> reply) (local : option string) : fetched :=
  fetch_from server 0 max_attempts 0 0 local.

(** The check after the loop: the script goes on only with a file on
    disk. *)
Definition file_or_exit (f : fetched) : outcome string :=
  match file f with
  | Some content => Done content
  | None => Stop SystemExit
  end.

End Preamble.

(** The name that the rows of eibisites.csv give to a site: that of the
    last row of three columns with the country code and the site code. *)
Fixpoint last_site_name (rows : list (list string)) (cc lc : string)
  : option string :=
  match rows with
  | [] => None
  | row :: rest =>
      match last_site_name rest cc lc with
      | Some name => Some name
      | None =>
          match row with
          | [a; b; c] => if String.eqb a cc && String.eqb b lc then Some c else None
          | _ => None
          end
      end
  end.

Definition three_columns (row : list string) : bool :=
  Nat.eqb (List.length row) 3.

(** A reply after which the download loop pauses and tries again. *)
Definition retryable (r : Preamble.reply) : bool :=
  match r with
  | Preamble.NoResponse => true
  | Preamble.Response status_code _ =>
      Preamble.is_http_error status_code && negb (status_code =? 404)
  end.

(** * Properties *)

(** ** Auxiliary facts on the built-ins *)

Lemma bind_ok {A B : Type} (c : result A) (k : A -> result B) (b : B) :
  bind c k = Ok b -> exists a, c = Ok a /\ k a = Ok b.
Proof.
  destruct c as [a|e]; simpl; intros E; [now exists a | discriminate].
Qed.

Lemma index_In (x : string) (l : list string) :
  In x l <-> exists i, Py.index x l = Ok i.
Proof.
  induction l as [|y l IH]; simpl.
  - split; [tauto | intros [i E]; discriminate].
  - destruct (String.eqb_spec y x) as [->|N].
    + split; [intros _; now exists O | now left].
    + split.
      * intros [E|I]; [contradiction|].
        apply IH in I. destruct I as [i ->]. now exists (S i).
      * intros [i E]. right. apply IH.
        destruct (Py.index x l) as [j|e]; [now exists j | discriminate].
Qed.

Lemma index_not_In (x : string) (l : list string) :
  ~ In x l <-> Py.index x l = Raise ValueError.
Proof.
  induction l as [|y l IH]; simpl.
  - tauto.
  - destruct (String.eqb_spec y x) as [->|N].
    + split; [intros C; exfalso; apply C; now left | discriminate].
    + split.
      * intros C. assert (E : Py.index x l = Raise ValueError) by (apply IH; tauto).
        now rewrite E.
      * intros E [C|C]; [contradiction|].
        apply IH in C; [exact C|].
        destruct (Py.index x l) as [j|e]; simpl in E; [discriminate | exact E].
Qed.

Lemma split_length (sep : ascii) (s : string) :
  List.length (Py.split sep s) = S (count_char sep s).
Proof.
  induction s as [|c s IH]; simpl; [reflexivity|].
  destruct (Ascii.eqb c sep); simpl.
  - now rewrite IH.
  - destruct (Py.split sep s) as [|p ps]; simpl in *; [discriminate | exact IH].
Qed.

Lemma count_char_contains (c : ascii) (s : string) :
  Py.contains c s = false <-> count_char c s = O.
Proof.
  induction s as [|d s IH]; simpl; [tauto|].
  destruct (Ascii.eqb d c); simpl; [split; discriminate | exact IH].
Qed.

Lemma split_no_sep (sep : ascii) (s : string) :
  Py.contains sep s = false -> Py.split sep s = [s].
Proof.
  induction s as [|c s IH]; simpl; [reflexivity|].
  destruct (Ascii.eqb c sep); simpl; [discriminate|].
  intros E. now rewrite (IH E).
Qed.

Lemma split_app (sep : ascii) (a b : string) :
  Py.contains sep a = false ->
  Py.split sep (a ++ String sep b) = a :: Py.split sep b.
Proof.
  induction a as [|c a IH]; simpl.
  - now rewrite Ascii.eqb_refl.
  - destruct (Ascii.eqb c sep); simpl; [discriminate|].
    intros E. now rewrite (IH E).
Qed.

(** Splitting a joined list gives the list back when no part holds the
    separator. *)
Lemma split_join (sep : ascii) (parts : list string) :
  parts <> [] ->
  Forall (fun p => Py.contains sep p = false) parts ->
  Py.split sep (Py.join (String sep EmptyString) parts) = parts.
Proof.
  induction parts as [|p ps IH]; [congruence|].
  intros _ F. inversion F as [|? ? Hp Hps]; subst.
  destruct ps as [|q ps].
  - simpl. now apply split_no_sep.
  - change (Py.join (String sep EmptyString) (p :: q :: ps))
      with (p ++ String sep (Py.join (String sep EmptyString) (q :: ps)))%string.
    rewrite split_app by exact Hp.
    f_equal. apply IH; [discriminate | exact Hps].
Qed.

(** A check made on every integer of a range holds at each of them. *)
Lemma range_forallb (p : Z -> bool) (n : nat) :
  forallb p (map Z.of_nat (seq 0 n)) = true ->
  forall z, 0 <= z < Z.of_nat n -> p z = true.
Proof.
  intros F z Hz. rewrite forallb_forall in F. apply F.
  rewrite in_map_iff. exists (Z.to_nat z). split; [lia|].
  apply in_seq. lia.
Qed.

(** ** The range syntax *)

(** C4. For a day field [start-end] with both endpoints canonical
    abbreviations, [expand_weekday_range] returns the Monday-first slice
    from start to end when start is not after end in the week, and
    otherwise start through Sunday followed by Monday through end; the
    days are joined by commas, and splitting on the comma gives them back.
    Either way these are the days from start onwards around the week up to
    end.  So [Sa-Tu] gives Sa, Su, Mo, Tu and [Mo-Th] gives Mo, Tu, We,
    Th. *)
Theorem expand_weekday_range_canonical (start end_ : string) :
  In start weekdays -> In end_ weekdays ->
  exists i j,
    Py.index start weekdays = Ok i /\ Py.index end_ weekdays = Ok j /\
    let covered :=
      if (i <=? j)%nat
      then firstn (j + 1 - i) (skipn i weekdays)
      else skipn i weekdays ++ firstn (j + 1) weekdays in
    expand_weekday_range (start ++ "-" ++ end_) = Ok (Py.join "," covered) /\
    Py.split "," (Py.join "," covered) = covered /\
    covered = cyclic_days i j /\
    expand_weekday_range "Sa-Tu" = Ok "Sa,Su,Mo,Tu" /\
    expand_weekday_range "Mo-Th" = Ok "Mo,Tu,We,Th".
Proof.
  intros Hs He.
  assert (Cs : start = "Mo" \/ start = "Tu" \/ start = "We" \/ start = "Th"
               \/ start = "Fr" \/ start = "Sa" \/ start = "Su")
    by (simpl in Hs; intuition congruence).
  assert (Ce : end_ = "Mo" \/ end_ = "Tu" \/ end_ = "We" \/ end_ = "Th"
               \/ end_ = "Fr" \/ end_ = "Sa" \/ end_ = "Su")
    by (simpl in He; intuition congruence).
  clear Hs He.
  repeat (destruct Cs as [Cs|Cs]); repeat (destruct Ce as [Ce|Ce]); subst;
    do 2 eexists; (split; [reflexivity|]); (split; [reflexivity|]);
    vm_compute; repeat split.
Qed.

Lemma expand_weekday_range_canonical_witness :
  In "Sa" weekdays /\ In "Tu" weekdays /\
  expand_weekday_range "Sa-Tu" = Ok "Sa,Su,Mo,Tu".
Proof.
  assert (Hs : In "Sa" weekdays) by (simpl; tauto).
  assert (He : In "Tu" weekdays) by (simpl; tauto).
  split; [exact Hs|]. split; [exact He|].
  destruct (expand_weekday_range_canonical "Sa" "Tu" Hs He)
    as (i & j & _ & _ & _ & _ & _ & E & _).
  exact E.
Defined.

(** ** The mask serializers *)

(** C2. For each of the 128 seven-bit masks, [binstring_to_dowstring] on
    the seven binary digits of the mask gives a string of seven
    characters, the day letter where the bit is set and the placeholder
    elsewhere with Monday as the most significant bit, and
    [day_schedule_to_int] on that string gives the value of the mask
    back. *)
Theorem mask_letters_roundtrip (mask : Z) :
  0 <= mask < 128 ->
  exists letters,
    binstring_to_dowstring (mask_binstring mask) = Ok letters /\
    String.length letters = 7%nat /\
    (forall i, (i < 7)%nat ->
       String.get i letters =
       Some (if Z.testbit mask (6 - Z.of_nat i)
             then nth i dow_letters "_"%char else "_"%char)) /\
    day_schedule_to_int letters = Ok mask.
Proof.
  intros Hm.
  replace mask with (Z.of_nat (Z.to_nat mask)) by lia.
  assert (K : (Z.to_nat mask < 128)%nat) by lia.
  revert K. generalize (Z.to_nat mask). clear Hm mask. intros k K.
  do 128 (destruct k as [|k];
          [ eexists; split; [vm_compute; reflexivity|];
            split; [reflexivity|];
            split; [intros i Hi; do 7 (destruct i as [|i]; [reflexivity|]); lia
                   | reflexivity]
          | ]).
  lia.
Qed.

Lemma mask_letters_roundtrip_witness :
  0 <= 92 < 128 /\
  exists letters,
    binstring_to_dowstring (mask_binstring 92) = Ok letters /\
    day_schedule_to_int letters = Ok 92.
Proof.
  assert (R : 0 <= 92 < 128) by lia.
  split; [exact R|].
  destruct (mask_letters_roundtrip 92 R) as (letters & E1 & _ & _ & E2).
  exists letters. split; [exact E1 | exact E2].
Defined.

(** ** The digit syntax *)


Lemma octal_cases (c : ascii) :
  is_octal c = true ->
  c = "0"%char \/ c = "1"%char \/ c = "2"%char \/ c = "3"%char \/ c = "4"%char
  \/ c = "5"%char \/ c = "6"%char \/ c = "7"%char.
Proof.
  destruct c as [[] [] [] [] [] [] [] []]; vm_compute; intros E;
    try discriminate E; tauto.
Qed.

Lemma weekdays_list_of_octal (s : string) :
  Py.forallb_string is_octal s = true ->
  weekdays_list_of s = Ok (map digit_day (list_ascii_of_string s)).
Proof.
  induction s as [|c s IH]; simpl; [reflexivity|].
  intros E. apply andb_true_iff in E. destruct E as [Ec Es].
  rewrite (IH Es).
  destruct (octal_cases c Ec) as [C|[C|[C|[C|[C|[C|[C|C]]]]]]]; subst c;
    reflexivity.
Qed.


Lemma digit_day_In (c : ascii) : is_octal c = true -> In (digit_day c) daylist.
Proof.
  intros Ec.
  destruct (octal_cases c Ec) as [C|[C|[C|[C|[C|[C|[C|C]]]]]]]; subst c;
    vm_compute; tauto.
Qed.

Lemma mapM_getkey_days (ds : list string) :
  Forall (fun d => In d daylist) ds ->
  mapM (fun day => Py.getkey days day) ds = Ok (map day_bits ds).
Proof.
  induction 1 as [|d ds Hd _ IH]; simpl; [reflexivity|].
  rewrite IH.
  simpl in Hd. repeat (destruct Hd as [Hd|Hd]); try contradiction; subst d;
    reflexivity.
Qed.

Lemma daylist_no_comma (ds : list string) :
  Forall (fun d => In d daylist) ds ->
  Forall (fun p => Py.contains "," p = false) ds.
Proof.
  intros F. eapply Forall_impl; [|exact F].
  intros d Hd. simpl in Hd.
  repeat (destruct Hd as [Hd|Hd]); try contradiction; subst d; reflexivity.
Qed.

Lemma weekdays_to_binstrings_join (ds : list string) :
  ds <> [] -> Forall (fun d => In d daylist) ds ->
  weekdays_to_binstrings (Py.join "," ds) days = Ok (map day_bits ds).
Proof.
  intros N F. unfold weekdays_to_binstrings.
  rewrite split_join by (try exact N; now apply daylist_no_comma).
  now apply mapM_getkey_days.
Qed.







(** ** The row loop *)

Lemma day_of_week_unrecognized (v : variant) (DOW day : string) :
  day_unrecognized v day -> day_of_week v DOW day = Ok DOW.
Proof.
  intros (E1 & E2 & E3). unfold day_of_week. now rewrite E1, E2, E3.
Qed.

Lemma day_of_week_range (v : variant) (DOW day : string) :
  reaches_range v day -> day_of_week v DOW day = dow_of_range day.
Proof.
  intros (E1 & E2 & E3). unfold day_of_week. now rewrite E1, E2, E3.
Qed.

Section RowLoop.

Context `{FloatOps}.

Lemma main_loop_app (v : variant) (st : loop_state) (pre post : list (list string)) :
  main_loop v st (pre ++ post)
  = (st' <- main_loop v st pre ;; main_loop v st' post).
Proof.
  revert st. induction pre as [|row pre IH]; intros st; simpl; [reflexivity|].
  destruct (process_row v st row) as [st'|e]; simpl; [apply IH | reflexivity].
Qed.

(** Every iteration leaves the variable DOW empty. *)
Lemma process_row_resets (v : variant) (st st' : loop_state) (row : list string) :
  process_row v st row = Ok st' -> snd st' = EmptyString.
Proof.
  unfold process_row. destruct st as [outrow DOW]. intros E.
  repeat (apply bind_ok in E; destruct E as (? & _ & E)).
  inversion E. reflexivity.
Qed.

Lemma main_loop_resets (v : variant) (rows : list (list string))
    (st st' : loop_state) :
  snd st = EmptyString -> main_loop v st rows = Ok st' -> snd st' = EmptyString.
Proof.
  revert st. induction rows as [|row rows IH]; intros st E0; simpl.
  - intros E. inversion E. now subst.
  - intros E. apply bind_ok in E. destruct E as (st1 & E1 & E).
    apply (IH st1); [now apply (process_row_resets v st) in E1 | exact E].
Qed.

Lemma process_row_day_raises (v : variant) (st : loop_state)
    (row : list string) (day : string) :
  nth_error row 2 = Some day ->
  (forall DOW, exists e, day_of_week v DOW day = Raise e) ->
  exists e, process_row v st row = Raise e.
Proof.
  intros Hd Hr. destruct st as [outrow DOW].
  destruct row as [|f0 [|f1 [|d cols]]]; try discriminate Hd.
  simpl in Hd. inversion Hd; subst d. unfold process_row. simpl.
  destruct (py_float f0) as [khz|e]; simpl; [|now exists e].
  destruct (unpack2 (Py.split "-" f1)) as [be|e]; simpl; [|now exists e].
  destruct (Hr DOW) as [e ->]. now exists e.
Qed.

Lemma main_loop_raises (v : variant) (st : loop_state)
    (pre post : list (list string)) (row : list string) :
  (forall st', exists e, process_row v st' row = Raise e) ->
  exists e, main_loop v st (pre ++ row :: post) = Raise e.
Proof.
  intros Hr. rewrite main_loop_app.
  destruct (main_loop v st pre) as [st'|e]; simpl; [|now exists e].
  destruct (Hr st') as [e ->]. now exists e.
Qed.

End RowLoop.

(** C1, as the code has it. For every source row whose day expression is
    none of the three recognized syntaxes, the day-letter field of the
    record emitted for the row is the empty string, whatever rows came
    before it: the variable is emptied at the end of every iteration, so
    the row finds it empty and leaves it empty. *)
Theorem unrecognized_day_field_empty `{FloatOps} (v : variant)
    (pre : list (list string)) (st : loop_state)
    (f0 f1 day itu ident lang target relay : string) (extra : list string)
    (khz : float) (be : string * string) :
  main_loop v ([], EmptyString) pre = Ok st ->
  py_float f0 = Ok khz ->
  unpack2 (Py.split "-" f1) = Ok be ->
  day_unrecognized v day ->
  exists rec,
    main_loop v ([], EmptyString)
      (pre ++ [f0 :: f1 :: day :: itu :: ident :: lang :: target :: relay :: extra])
    = Ok (fst st ++ [rec], EmptyString) /\
    List.length rec = 12%nat /\
    nth 9 rec "?" = EmptyString.
Proof.
  intros Hpre Hf Ht Hu.
  assert (D : snd st = EmptyString)
    by (apply (main_loop_resets v pre ([], EmptyString) st); [reflexivity | exact Hpre]).
  destruct st as [outrow DOW]. simpl in D. subst DOW.
  rewrite main_loop_app, Hpre. simpl.
  unfold process_row. simpl. rewrite Hf. simpl. rewrite Ht. simpl.
  rewrite (day_of_week_unrecognized v EmptyString day Hu). simpl.
  eexists. split; [reflexivity|]. split; reflexivity.
Qed.

Lemma unrecognized_day_field_empty_witness :
  main_loop Standalone ([], EmptyString) [sample_row_digits]
    = Ok ([[ "9400.0"; quoted "QAM"; quoted "Deutsche Welle";
             quoted "D.  Lang: E"; EmptyString; quoted "T3"; EmptyString;
             EmptyString; EmptyString; quoted "M_WTF__"; "0600"; "1800" ]],
          EmptyString) /\
  py_float "9500" = Ok (9500 # 1) /\
  unpack2 (Py.split "-" "0000-2400") = Ok ("0000", "2400") /\
  day_unrecognized Standalone "irr" /\
  exists rec,
    main_loop Standalone ([], EmptyString)
      ([sample_row_digits] ++ [sample_row_irregular])
    = Ok ([[ "9400.0"; quoted "QAM"; quoted "Deutsche Welle";
             quoted "D.  Lang: E"; EmptyString; quoted "T3"; EmptyString;
             EmptyString; EmptyString; quoted "M_WTF__"; "0600"; "1800" ]]
            ++ [rec], EmptyString) /\
    nth 9 rec "?" = EmptyString.
Proof.
  assert (H1 : main_loop Standalone ([], EmptyString) [sample_row_digits]
    = Ok ([[ "9400.0"; quoted "QAM"; quoted "Deutsche Welle";
             quoted "D.  Lang: E"; EmptyString; quoted "T3"; EmptyString;
             EmptyString; EmptyString; quoted "M_WTF__"; "0600"; "1800" ]],
          EmptyString)) by (vm_compute; reflexivity).
  assert (H2 : py_float "9500" = Ok (9500 # 1)) by (vm_compute; reflexivity).
  assert (H3 : unpack2 (Py.split "-" "0000-2400") = Ok ("0000", "2400"))
    by reflexivity.
  assert (H4 : day_unrecognized Standalone "irr") by (repeat split).
  split; [exact H1|]. split; [exact H2|]. split; [exact H3|]. split; [exact H4|].
  destruct (@unrecognized_day_field_empty DecFloat Standalone [sample_row_digits] _
              "9500" "0000-2400" "irr" "D" "Deutsche Welle" "E" "Eu" "/USA-g" []
              (9500 # 1) ("0000", "2400") H1 H2 H3 H4) as (rec & E & _ & F).
  exists rec. split; [exact E | exact F].
Defined.

(** C1, as the claim states it, fails: after a row with the digits 1345
    a row with the day field [irr] is emitted with an empty day-letter
    field, not with the letters of the row before it. *)
Lemma carry_over_counterexample :
  day_unrecognized Standalone "irr" /\
  day_unrecognized (Online []) "irr" /\
  (exists rec1 rec2,
     main_loop Standalone ([], EmptyString)
       [sample_row_digits; sample_row_irregular]
       = Ok ([rec1; rec2], EmptyString) /\
     nth 9 rec1 "?" = quoted "M_WTF__" /\
     nth 9 rec2 "?" = EmptyString /\
     nth 9 rec2 "?" <> nth 9 rec1 "?" /\
     nth 9 rec2 "?" <> "M_WTF__") /\
  (exists rec1 rec2,
     main_loop (Online []) ([], EmptyString)
       [sample_row_digits; sample_row_irregular]
       = Ok ([rec1; rec2], EmptyString) /\
     nth 9 rec1 "?" = quoted "M_WTF__" /\
     nth 9 rec2 "?" = EmptyString /\
     nth 9 rec2 "?" <> nth 9 rec1 "?" /\
     nth 9 rec2 "?" <> "M_WTF__").
Proof.
  split; [repeat split|]. split; [repeat split|].
  split; do 2 eexists;
    (split; [vm_compute; reflexivity|]);
    repeat split; vm_compute; discriminate.
Qed.

(** ** Errors of the range syntax *)

Lemma dow_of_range_canonical (day start end_ : string) :
  Py.split "-" day = [start; end_] ->
  In start weekdays -> In end_ weekdays ->
  exists letters, dow_of_range day = Ok letters.
Proof.
  intros Hsp Hs He. unfold dow_of_range, expand_weekday_range. rewrite Hsp.
  simpl in Hs, He.
  repeat (destruct Hs as [Hs|Hs]); try contradiction;
    repeat (destruct He as [He|He]); try contradiction; subst;
    eexists; vm_compute; reflexivity.
Qed.

Lemma expand_weekday_range_invalid (day start end_ : string) :
  Py.split "-" day = [start; end_] ->
  ~ In start weekdays \/ ~ In end_ weekdays ->
  expand_weekday_range day = Raise ValueError.
Proof.
  intros Hsp Hbad. unfold expand_weekday_range. rewrite Hsp.
  destruct (Py.index start weekdays) as [i|e] eqn:Ei.
  - destruct Hbad as [Hbad|Hbad].
    + exfalso. apply Hbad. apply index_In. now exists i.
    + apply index_not_In in Hbad. cbn [bind]. now rewrite Hbad.
  - cbn [bind]. destruct (In_dec string_dec start weekdays) as [I|I].
    + apply index_In in I. destruct I as [i Ei']. congruence.
    + apply index_not_In in I. congruence.
Qed.

(** C5. For a day field with exactly one hyphen, the range expansion and
    with it the range branch raise an exception exactly when one of the
    two endpoints is not one of the seven abbreviations; the exception is
    ValueError, raised by [list.index]. Nothing catches it: a run whose
    source holds a row that reaches the range branch with such a field
    ends in an exception whatever the other rows are, and in this
    ValueError when the rows before it and the first two columns of the
    row are well formed. *)
Theorem invalid_range_aborts_run `{FloatOps} (v : variant) (day : string) :
  count_char "-" day = 1%nat ->
  exists start end_,
    Py.split "-" day = [start; end_] /\
    ((exists e, expand_weekday_range day = Raise e)
     <-> (~ In start weekdays \/ ~ In end_ weekdays)) /\
    ((exists e, dow_of_range day = Raise e)
     <-> (~ In start weekdays \/ ~ In end_ weekdays)) /\
    (forall e, dow_of_range day = Raise e -> e = ValueError) /\
    (reaches_range v day ->
     (~ In start weekdays \/ ~ In end_ weekdays) ->
     (forall header pre row post,
        nth_error row 2 = Some day ->
        exists e, eibi2kiwi v (header :: pre ++ row :: post) = Raise e) /\
     (forall header pre st f0 khz f1 be cols post,
        main_loop v ([], EmptyString) pre = Ok st ->
        py_float f0 = Ok khz ->
        unpack2 (Py.split "-" f1) = Ok be ->
        eibi2kiwi v (header :: pre ++ (f0 :: f1 :: day :: cols) :: post)
        = Raise ValueError)).
Proof.
  intros Hc.
  assert (L : List.length (Py.split "-" day) = 2%nat)
    by (rewrite split_length, Hc; reflexivity).
  destruct (Py.split "-" day) as [|start [|end_ [|x xs]]] eqn:Hsp;
    try discriminate L.
  exists start, end_. split; [reflexivity|].
  assert (Good : In start weekdays -> In end_ weekdays ->
                 exists letters, dow_of_range day = Ok letters)
    by (apply dow_of_range_canonical; exact Hsp).
  assert (Bad : ~ In start weekdays \/ ~ In end_ weekdays ->
                expand_weekday_range day = Raise ValueError)
    by (apply expand_weekday_range_invalid; exact Hsp).
  assert (BadD : ~ In start weekdays \/ ~ In end_ weekdays ->
                 dow_of_range day = Raise ValueError).
  { intros B. unfold dow_of_range. now rewrite (Bad B). }
  assert (Dec : (In start weekdays /\ In end_ weekdays)
                \/ (~ In start weekdays \/ ~ In end_ weekdays)).
  { destruct (In_dec string_dec start weekdays);
      destruct (In_dec string_dec end_ weekdays); tauto. }
  split; [|split; [|split; [|]]].
  - split; [|intros B; exists ValueError; now apply Bad].
    intros [e E]. destruct Dec as [[Is Ie]|B]; [|exact B].
    destruct (Good Is Ie) as [letters G]. unfold dow_of_range in G.
    rewrite E in G. discriminate G.
  - split; [|intros B; exists ValueError; now apply BadD].
    intros [e E]. destruct Dec as [[Is Ie]|B]; [|exact B].
    destruct (Good Is Ie) as [letters G]. congruence.
  - intros e E. destruct Dec as [[Is Ie]|B].
    + destruct (Good Is Ie) as [letters G]. congruence.
    + rewrite (BadD B) in E. congruence.
  - intros Hr B.
    assert (Dw : forall DOW, day_of_week v DOW day = Raise ValueError).
    { intros DOW. rewrite (day_of_week_range v DOW day Hr). now apply BadD. }
    split.
    + intros header pre row post Hd. unfold eibi2kiwi.
      destruct (main_loop_raises v ([], EmptyString) pre post row) as [e E].
      * intros st'. apply (process_row_day_raises v st' row day Hd).
        intros DOW. exists ValueError. apply Dw.
      * rewrite E. now exists e.
    + intros header pre st f0 khz f1 be cols post Hpre Hf Ht.
      unfold eibi2kiwi. rewrite main_loop_app, Hpre. simpl.
      destruct st as [outrow DOW]. unfold process_row. simpl.
      rewrite Hf. simpl. rewrite Ht. simpl. rewrite Dw. reflexivity.
Qed.

Lemma invalid_range_aborts_run_witness :
  count_char "-" "Mo-Xx" = 1%nat /\
  reaches_range Standalone "Mo-Xx" /\
  ~ In "Xx" weekdays /\
  dow_of_range "Mo-Xx" = Raise ValueError /\
  eibi2kiwi Standalone
    ([] :: [sample_row_digits]
        ++ ["7200"; "0100-0200"; "Mo-Xx"; "D"; "DW"; "E"; "Eu"; "g"]
        :: [sample_row_irregular])
  = Raise ValueError.
Proof.
  assert (C : count_char "-" "Mo-Xx" = 1%nat) by reflexivity.
  assert (R : reaches_range Standalone "Mo-Xx") by (repeat split).
  assert (N : ~ In "Xx" weekdays) by (simpl; intuition discriminate).
  split; [exact C|]. split; [exact R|]. split; [exact N|].
  destruct (@invalid_range_aborts_run DecFloat Standalone "Mo-Xx" C)
    as (start & end_ & Hsp & _ & _ & Hv & Hrun).
  inversion Hsp; subst start end_.
  destruct (Hrun R (or_intror N)) as [_ Hrun2].
  split.
  - destruct (dow_of_range "Mo-Xx") as [l|e] eqn:E; [discriminate E|].
    now rewrite (Hv e eq_refl).
  - eapply Hrun2.
    + vm_compute. reflexivity.
    + vm_compute. reflexivity.
    + reflexivity.
Defined.

(** ** The frequency sort *)

Section SortFacts.

Context `{FloatOps}.

Lemma insert_keyed_perm (x : keyed) (l : list keyed) :
  Permutation (x :: l) (insert_keyed x l).
Proof.
  induction l as [|y l IH]; simpl; [apply Permutation_refl|].
  destruct (float_ltb (fst y) (fst x)); [|apply Permutation_refl].
  eapply Permutation_trans; [apply perm_swap|].
  now apply perm_skip.
Qed.

Lemma sort_keyed_perm (l : list keyed) : Permutation l (sort_keyed l).
Proof.
  induction l as [|x l IH]; simpl; [constructor|].
  eapply Permutation_trans; [|apply insert_keyed_perm].
  now apply perm_skip.
Qed.

(** The order [<] on the keys that occur: on floats that are numbers it
    is asymmetric and its complement is transitive. *)
Variable keys : list float.

Hypothesis ltb_asym :
  forall a b : float,
    In a keys -> In b keys -> float_ltb a b = true -> float_ltb b a = false.
Hypothesis geb_trans :
  forall a b c : float,
    In a keys -> In b keys -> In c keys ->
    float_ltb b a = false -> float_ltb c b = false -> float_ltb c a = false.

Lemma ordered_keys_true : ordered_keys keys = true.
Proof.
  unfold ordered_keys.
  apply forallb_forall. intros a Ia.
  apply forallb_forall. intros b Ib.
  apply andb_true_iff. split.
  - destruct (float_ltb a b) eqn:E; [|reflexivity].
    now rewrite (ltb_asym a b Ia Ib E).
  - apply forallb_forall. intros c Ic.
    destruct (float_ltb b a) eqn:E1; [reflexivity|].
    destruct (float_ltb c b) eqn:E2; [reflexivity|].
    now rewrite (geb_trans a b c Ia Ib Ic E1 E2).
Qed.

Lemma sort_keyed_within (l : list keyed) :
  Forall (fun p => In (fst p) keys) l ->
  Forall (fun p => In (fst p) keys) (sort_keyed l).
Proof.
  intros F. eapply Permutation_Forall; [apply sort_keyed_perm | exact F].
Qed.

Lemma insert_keyed_sorted (x : keyed) (l : list keyed) :
  In (fst x) keys ->
  Forall (fun p => In (fst p) keys) l ->
  StronglySorted key_le l -> StronglySorted key_le (insert_keyed x l).
Proof.
  intros Hx Hl S. induction S as [|y l Sl IH Hy]; simpl.
  - constructor; constructor.
  - inversion Hl as [|? ? Ky Kl]; subst.
    destruct (float_ltb (fst y) (fst x)) eqn:E.
    + constructor; [now apply IH|].
      eapply Permutation_Forall; [apply insert_keyed_perm|].
      constructor; [|exact Hy].
      unfold key_le. now apply ltb_asym.
    + constructor; [now constructor|].
      constructor; [exact E|].
      rewrite Forall_forall in *. intros z Hz. unfold key_le in *.
      apply (geb_trans _ (fst y)); auto.
Qed.

Lemma sort_keyed_sorted (l : list keyed) :
  Forall (fun p => In (fst p) keys) l -> StronglySorted key_le (sort_keyed l).
Proof.
  induction 1 as [|x l Hx Hl IH]; simpl; [constructor|].
  apply insert_keyed_sorted; [exact Hx | now apply sort_keyed_within | exact IH].
Qed.

(** Insertion never moves a record past a record with an equal key. *)
Lemma insert_keyed_stable (k : float) (x : keyed) (l : list keyed) :
  In k keys -> In (fst x) keys ->
  Forall (fun p => In (fst p) keys) l ->
  filter (fun p => same_float k (fst p)) (insert_keyed x l)
  = filter (fun p => same_float k (fst p)) (x :: l).
Proof.
  intros Hk Hx. induction 1 as [|y l Hy Hl IH]; [reflexivity|].
  cbn [insert_keyed].
  destruct (float_ltb (fst y) (fst x)) eqn:E; [|reflexivity].
  cbn [filter] in *. rewrite IH.
  destruct (same_float k (fst x)) eqn:Ex;
    destruct (same_float k (fst y)) eqn:Ey; try reflexivity.
  exfalso. unfold same_float in Ex, Ey.
  apply andb_true_iff in Ex, Ey. destruct Ex as [Ex _], Ey as [_ Ey].
  apply negb_true_iff in Ex, Ey.
  rewrite (geb_trans _ _ _ Hx Hk Hy Ex Ey) in E. discriminate E.
Qed.

Lemma sort_keyed_stable (k : float) (l : list keyed) :
  In k keys ->
  Forall (fun p => In (fst p) keys) l ->
  filter (fun p => same_float k (fst p)) (sort_keyed l)
  = filter (fun p => same_float k (fst p)) l.
Proof.
  intros Hk. induction 1 as [|x l Hx Hl IH]; [reflexivity|].
  cbn [sort_keyed fold_right]. fold (sort_keyed l).
  rewrite insert_keyed_stable by (auto using sort_keyed_within).
  cbn [filter]. now rewrite IH.
Qed.

End SortFacts.

Lemma mapM_combine {A B : Type} (f : A -> result B) (l : list A) (bs : list B) :
  mapM f l = Ok bs ->
  map snd (combine bs l) = l /\
  Forall (fun p => f (snd p) = Ok (fst p)) (combine bs l).
Proof.
  revert bs. induction l as [|a l IH]; intros bs E; simpl in E.
  - inversion E. split; [reflexivity | constructor].
  - apply bind_ok in E. destruct E as (b & Eb & E).
    apply bind_ok in E. destruct E as (bs' & Ebs & E).
    inversion E; subst bs. destruct (IH bs' Ebs) as [M F].
    simpl. split; [now rewrite M | now constructor].
Qed.

Lemma mapM_combine_fst {A B : Type} (f : A -> result B) (l : list A)
    (bs : list B) :
  mapM f l = Ok bs -> map fst (combine bs l) = bs.
Proof.
  revert bs. induction l as [|a l IH]; intros bs E; simpl in E.
  - now inversion E.
  - apply bind_ok in E. destruct E as (b & Eb & E).
    apply bind_ok in E. destruct E as (bs' & Ebs & E).
    inversion E; subst bs. simpl. now rewrite (IH bs' Ebs).
Qed.

Lemma StronglySorted_map {A B : Type} (R : A -> A -> Prop) (S : B -> B -> Prop)
    (g : A -> B) (l : list A) :
  (forall x y, In x l -> In y l -> R x y -> S (g x) (g y)) ->
  StronglySorted R l -> StronglySorted S (map g l).
Proof.
  intros HRS Hl. induction Hl as [|x l Hl IH Hx]; simpl; [constructor|].
  constructor.
  - apply IH. intros a b Ia Ib. apply HRS; now right.
  - rewrite Forall_forall in *. intros y Hy.
    apply in_map_iff in Hy. destruct Hy as (a & <- & Ia).
    apply HRS; [now left | now right | now apply Hx].
Qed.

Lemma filter_map_snd {A B : Type} (p : B -> bool) (q : A * B -> bool)
    (l : list (A * B)) :
  Forall (fun x => p (snd x) = q x) l ->
  filter p (map snd l) = map snd (filter q l).
Proof.
  induction 1 as [|x l Hx _ IH]; simpl; [reflexivity|].
  rewrite Hx, IH. now destruct (q x).
Qed.

(** What the sort returns is a rearrangement of the records, whatever
    the keys are. *)
Lemma list_sort_perm `{FloatOps} (l sorted : list keyed) :
  list_sort l = Ok sorted -> Permutation l sorted.
Proof.
  unfold list_sort. intros E.
  destruct (ordered_keys (map fst l)).
  - inversion E. apply sort_keyed_perm.
  - destruct (ascending_run (map fst l)); [|discriminate E].
    inversion E. apply Permutation_refl.
Qed.

(** C9, as the code has it. When [<] orders the frequencies of the
    records, which it does when none of them is a NaN, the script writes
    the records of the row loop rearranged so that the frequencies ascend
    as numbers, and records of equal frequency keep the order they had.
    So the source frequencies 15070, 9400 and 9400.5 are written in the
    order 9400, 9400.5, 15070, although as strings 15070.0 is below
    9400.0. *)
Theorem sort_by_frequency `{FloatOps} (v : variant) (header : list string)
    (rows outrow : list (list string)) (DOW : string) (keys : list float) :
  main_loop v ([], EmptyString) rows = Ok (outrow, DOW) ->
  mapM sort_key outrow = Ok keys ->
  (forall a b : float,
     In a keys -> In b keys -> float_ltb a b = true -> float_ltb b a = false) ->
  (forall a b c : float,
     In a keys -> In b keys -> In c keys ->
     float_ltb b a = false -> float_ltb c b = false -> float_ltb c a = false) ->
  (exists out,
     eibi2kiwi v (header :: rows) = Ok out /\
     Permutation outrow out /\
     StronglySorted frequency_le out /\
     forall k, In k keys ->
       filter (with_frequency k) out = filter (with_frequency k) outrow) /\
  (@eibi2kiwi DecFloat Standalone
     [ ["kHz"]; station_row "15070" "a"; station_row "9400" "b";
       station_row "9400.5" "c" ]
   = Ok [ station_record "9400.0" "b"; station_record "9400.5" "c";
          station_record "15070.0" "a" ] /\
   String.ltb "15070.0" "9400.0" = true).
Proof.
  intros Hloop K Hasym Htrans.
  split; [|split; vm_compute; reflexivity].
  destruct (mapM_combine sort_key outrow keys K) as [M F].
  pose proof (mapM_combine_fst sort_key outrow keys K) as Mf.
  assert (W : Forall (fun p : keyed => In (fst p) keys) (combine keys outrow)).
  { apply Forall_forall. intros p Ip. rewrite <- Mf. now apply in_map. }
  exists (map snd (sort_keyed (combine keys outrow))).
  split.
  { unfold eibi2kiwi. rewrite Hloop. cbn [bind fst].
    unfold sort_outrow. rewrite K. cbn [bind].
    unfold list_sort. rewrite Mf.
    now rewrite (ordered_keys_true keys Hasym Htrans). }
  pose proof (sort_keyed_perm (combine keys outrow)) as P.
  assert (F' : Forall (fun p => sort_key (snd p) = Ok (fst p))
                      (sort_keyed (combine keys outrow)))
    by (eapply Permutation_Forall; [exact P | exact F]).
  split; [|split].
  - rewrite <- M at 1. now apply Permutation_map.
  - apply (StronglySorted_map key_le);
      [|now apply (sort_keyed_sorted keys Hasym Htrans)].
    rewrite Forall_forall in F'.
    intros p q Ip Iq Hpq. exists (fst p), (fst q).
    split; [now apply F'|]. split; [now apply F' | exact Hpq].
  - intros k Hk.
    rewrite (filter_map_snd _ (fun p => same_float k (fst p))).
    + rewrite (sort_keyed_stable keys Htrans) by assumption.
      rewrite <- (filter_map_snd (with_frequency k)); [now rewrite M|].
      eapply Forall_impl; [|exact F].
      intros p Hp. unfold with_frequency. now rewrite Hp.
    + eapply Forall_impl; [|exact F'].
      intros p Hp. unfold with_frequency. now rewrite Hp.
Qed.

Lemma dec_ltb_asym (a b : Q) : Dec.ltb a b = true -> Dec.ltb b a = false.
Proof.
  unfold Dec.ltb. intros E. apply negb_true_iff in E. apply negb_false_iff.
  apply Qle_bool_iff.
  destruct (Qlt_le_dec b a) as [L|L]; [|exact L].
  exfalso. apply Qlt_le_weak in L. apply Qle_bool_iff in L. congruence.
Qed.

Lemma dec_geb_trans (a b c : Q) :
  Dec.ltb b a = false -> Dec.ltb c b = false -> Dec.ltb c a = false.
Proof.
  unfold Dec.ltb. intros E1 E2.
  apply negb_false_iff in E1, E2. apply negb_false_iff.
  apply Qle_bool_iff in E1, E2. apply Qle_bool_iff.
  now apply (Qle_trans _ b).
Qed.

Lemma sort_by_frequency_witness :
  @eibi2kiwi DecFloat Standalone
    [ ["kHz"]; station_row "15070" "a"; station_row "9400" "b";
      station_row "9400.5" "c"; station_row "9400" "d" ]
  = Ok [ station_record "9400.0" "b"; station_record "9400.0" "d";
         station_record "9400.5" "c"; station_record "15070.0" "a" ].
Proof.
  assert (L : @main_loop DecFloat Standalone ([], EmptyString)
                [ station_row "15070" "a"; station_row "9400" "b";
                  station_row "9400.5" "c"; station_row "9400" "d" ]
              = Ok ([ station_record "15070.0" "a"; station_record "9400.0" "b";
                      station_record "9400.5" "c"; station_record "9400.0" "d" ],
                    EmptyString))
    by (vm_compute; reflexivity).
  assert (K : mapM (@sort_key DecFloat)
                [ station_record "15070.0" "a"; station_record "9400.0" "b";
                  station_record "9400.5" "c"; station_record "9400.0" "d" ]
              = Ok [ 15070 # 1; 9400 # 1; 18801 # 2; 9400 # 1 ]%Q)
    by (vm_compute; reflexivity).
  destruct (@sort_by_frequency DecFloat Standalone ["kHz"] _ _ _ _ L K
              (fun a b _ _ => dec_ltb_asym a b)
              (fun a b c _ _ _ => dec_geb_trans a b c))
    as [(out & E & _) _].
  rewrite E. vm_compute in E. exact (eq_sym E).
Defined.

(** C9, as the claim states it, fails: on a source with the frequencies
    2.0, nan and 1.0, [float] accepts the text nan, no key is below the
    NaN and the NaN is below no key, so the three records are one
    ascending run for the sort and are written as they stand, the
    frequency 1.0 after the frequency 2.0. *)
Lemma nan_frequency_counterexample :
  @eibi2kiwi NanFloat Standalone
    [ ["kHz"]; station_row "2.0" "a"; station_row "nan" "b";
      station_row "1.0" "c" ]
  = Ok [ station_record "2.0" "a"; station_record "nan" "b";
         station_record "1.0" "c" ] /\
  @sort_key NanFloat (station_record "2.0" "a") = Ok (Some (2 # 1)%Q) /\
  @sort_key NanFloat (station_record "nan" "b") = Ok None /\
  @sort_key NanFloat (station_record "1.0" "c") = Ok (Some (1 # 1)%Q) /\
  @float_ltb NanFloat (Some (1 # 1)%Q) (Some (2 # 1)%Q) = true /\
  ~ StronglySorted (@frequency_le NanFloat)
      [ station_record "2.0" "a"; station_record "nan" "b";
        station_record "1.0" "c" ].
Proof.
  split; [vm_compute; reflexivity|].
  split; [vm_compute; reflexivity|].
  split; [vm_compute; reflexivity|].
  split; [vm_compute; reflexivity|].
  split; [vm_compute; reflexivity|].
  intros S. apply StronglySorted_inv in S. destruct S as [_ F].
  apply Forall_inv_tail in F. apply Forall_inv in F.
  destruct F as (kx & ky & Ex & Ey & L).
  vm_compute in Ex. vm_compute in Ey.
  inversion Ex; subst kx. inversion Ey; subst ky. discriminate L.
Qed.

(** ** The percent-encoder *)

Lemma is_hex_not_percent (a : ascii) : is_hex a = true -> a <> "%"%char.
Proof.
  intros E ->. discriminate E.
Qed.

Lemma concat_toks_concat (ts : list string) :
  String.concat EmptyString ts = concat_toks ts.
Proof.
  induction ts as [|t ts IH]; [reflexivity|].
  destruct ts as [|u ts]; simpl in *.
  - clear IH. induction t as [|c t IHt]; simpl; [reflexivity | now rewrite <- IHt].
  - now rewrite IH.
Qed.

Lemma prefix_cons (a b : ascii) (s1 s2 : string) :
  String.prefix (String a s1) (String b s2) = Ascii.eqb a b && String.prefix s1 s2.
Proof.
  cbn [String.prefix]. destruct (ascii_dec a b) as [->|N].
  - now rewrite Ascii.eqb_refl.
  - apply Ascii.eqb_neq in N. now rewrite N.
Qed.

Lemma prefix_nil (s : string) : String.prefix EmptyString s = true.
Proof. now destruct s. Qed.

Lemma replace_from_zero (pat rep : string) (c : ascii) (s : string) :
  Py.replace_from pat rep 0 (String c s)
  = if String.prefix pat (String c s)
    then (rep ++ Py.replace_from pat rep (String.length pat - 1) s)%string
    else String c (Py.replace_from pat rep 0 s).
Proof. reflexivity. Qed.

Lemma replace_from_skip (pat rep : string) (k : nat) (c : ascii) (s : string) :
  Py.replace_from pat rep (S k) (String c s) = Py.replace_from pat rep k s.
Proof. reflexivity. Qed.

Lemma replace_from_other (q rep : string) (c : ascii) (s : string) :
  c <> "%"%char ->
  Py.replace_from (String "%" q) rep 0 (String c s)
  = String c (Py.replace_from (String "%" q) rep 0 s).
Proof.
  intros N. rewrite replace_from_zero, prefix_cons.
  assert (E : Ascii.eqb "%" c = false) by (apply Ascii.eqb_neq; congruence).
  now rewrite E.
Qed.

Lemma string_app_assoc3 (a b c : ascii) (s : string) :
  (String a (String b (String c EmptyString)) ++ s)%string
  = String a (String b (String c s)).
Proof. reflexivity. Qed.

(** A replacement whose pattern is an escape acts token by token. *)
Lemma replace_tokens (x y : ascii) (rep : string) (ts : list string) :
  Forall (fun t => wf_tok t = true) ts ->
  Py.replace (String "%" (String x (String y EmptyString))) rep (concat_toks ts)
  = concat_toks
      (map (subst_tok (String "%" (String x (String y EmptyString))) rep) ts).
Proof.
  unfold Py.replace.
  induction 1 as [|t ts Ht _ IH]; [reflexivity|].
  cbn [map concat_toks].
  destruct t as [|c [|a [|b [|d t]]]]; try discriminate Ht.
  - (* one character *)
    cbn [wf_tok] in Ht. apply negb_true_iff in Ht.
    assert (N : c <> "%"%char) by (now apply Ascii.eqb_neq).
    change (String c EmptyString ++ concat_toks ts)%string
      with (String c (concat_toks ts)).
    rewrite replace_from_other by exact N. rewrite IH.
    unfold subst_tok. cbn [String.eqb]. rewrite Ht. reflexivity.
  - (* an escape *)
    cbn [wf_tok] in Ht. apply andb_true_iff in Ht. destruct Ht as [Ht Hb].
    apply andb_true_iff in Ht. destruct Ht as [Hp Ha].
    apply Ascii.eqb_eq in Hp. subst c.
    pose proof (is_hex_not_percent a Ha) as Na.
    pose proof (is_hex_not_percent b Hb) as Nb.
    rewrite string_app_assoc3.
    unfold subst_tok.
    assert (P : String.prefix (String "%" (String x (String y EmptyString)))
                  (String "%" (String a (String b (concat_toks ts))))
                = Ascii.eqb a x && Ascii.eqb b y).
    { rewrite !prefix_cons, prefix_nil.
      rewrite Ascii.eqb_refl, andb_true_r.
      now rewrite (Ascii.eqb_sym x a), (Ascii.eqb_sym y b). }
    assert (Q : String.eqb (String "%" (String a (String b EmptyString)))
                  (String "%" (String x (String y EmptyString)))
                = Ascii.eqb a x && Ascii.eqb b y).
    { cbn [String.eqb]. rewrite Ascii.eqb_refl.
      destruct (Ascii.eqb a x); [|reflexivity].
      now destruct (Ascii.eqb b y). }
    rewrite Q, replace_from_zero, P.
    destruct (Ascii.eqb a x && Ascii.eqb b y).
    + cbn [String.length Nat.sub]. rewrite !replace_from_skip. now rewrite IH.
    + rewrite replace_from_other by exact Na.
      rewrite replace_from_other by exact Nb.
      now rewrite IH.
Qed.

Lemma subst_tok_wf (pat rep t : string) :
  wf_tok rep = true -> wf_tok t = true -> wf_tok (subst_tok pat rep t) = true.
Proof.
  intros Hr Ht. unfold subst_tok. now destruct (String.eqb t pat).
Qed.

Lemma escape_at_other (c : ascii) (s : string) :
  c <> "%"%char -> escape_at (String c s) = false.
Proof.
  intros N. apply Ascii.eqb_neq in N.
  destruct s as [|a [|b s]]; try reflexivity.
  cbn [escape_at]. now rewrite N.
Qed.

(** The final substitution acts token by token. *)
Lemma lower_escapes_tokens (ts : list string) :
  Forall (fun t => wf_tok t = true) ts ->
  lower_escapes (concat_toks ts) = concat_toks (map lower_tok ts).
Proof.
  unfold lower_escapes.
  induction 1 as [|t ts Ht _ IH]; [reflexivity|].
  cbn [map concat_toks].
  destruct t as [|c [|a [|b [|d t]]]]; try discriminate Ht.
  - cbn [wf_tok] in Ht. apply negb_true_iff in Ht.
    assert (N : c <> "%"%char) by (now apply Ascii.eqb_neq).
    change (String c EmptyString ++ concat_toks ts)%string
      with (String c (concat_toks ts)).
    cbn [lower_escapes_from]. rewrite (escape_at_other c _ N).
    rewrite IH. reflexivity.
  - cbn [wf_tok] in Ht. apply andb_true_iff in Ht. destruct Ht as [Ht Hb].
    apply andb_true_iff in Ht. destruct Ht as [Hp Ha].
    apply Ascii.eqb_eq in Hp. subst c.
    rewrite string_app_assoc3.
    cbn [lower_escapes_from lower_tok].
    assert (E : escape_at (String "%" (String a (String b (concat_toks ts)))) = true)
      by (cbn [escape_at]; now rewrite Ha, Hb).
    rewrite E. rewrite IH. reflexivity.
Qed.

Lemma wf_map_subst (pat rep : string) (ts : list string) :
  wf_tok rep = true ->
  Forall (fun t => wf_tok t = true) ts ->
  Forall (fun t => wf_tok t = true) (map (subst_tok pat rep) ts).
Proof.
  intros Hr F. apply Forall_map. eapply Forall_impl; [|exact F].
  intros t Ht. now apply subst_tok_wf.
Qed.

Lemma quote_bytes_tokens (safe : ascii -> bool) (bs : list N) :
  Quote.quote_bytes safe bs = concat_toks (map (Quote.quote_byte safe) bs).
Proof.
  induction bs as [|b bs IH]; simpl; [reflexivity | now rewrite IH].
Qed.

(** The bytes of one character, after [quote], are tokens, and the rest
    of the encoder turns them into what the description says. *)
Lemma char_tokens (c : ascii) :
  forallb wf_tok (map (Quote.quote_byte (Ascii.eqb " ")) (Quote.utf8_char c)) = true
  /\ map cook (map (Quote.quote_byte (Ascii.eqb " ")) (Quote.utf8_char c))
     = map EncoderSpec.encode_byte (Quote.utf8_char c).
Proof.
  destruct c as [[] [] [] [] [] [] [] []]; vm_compute; split; reflexivity.
Qed.

Lemma text_tokens (text : string) :
  Forall (fun t => wf_tok t = true)
         (map (Quote.quote_byte (Ascii.eqb " ")) (Quote.utf8 text))
  /\ map cook (map (Quote.quote_byte (Ascii.eqb " ")) (Quote.utf8 text))
     = map EncoderSpec.encode_byte (Quote.utf8 text).
Proof.
  induction text as [|c text [IHw IHc]]; [split; [constructor | reflexivity]|].
  cbn [Quote.utf8]. rewrite !map_app.
  destruct (char_tokens c) as [W C].
  split.
  - apply Forall_app. split; [|exact IHw].
    apply Forall_forall. rewrite forallb_forall in W. exact W.
  - now rewrite C, IHc.
Qed.

(** The bytes of a text of the range, as the description lays them
    out. *)
Lemma utf8_points (text : string) :
  Quote.utf8 text = flat_map EncoderSpec.utf8_bytes (Unicode.points text).
Proof.
  induction text as [|c text IH]; [reflexivity|].
  cbn [Quote.utf8]. unfold Unicode.points.
  cbn [list_ascii_of_string map flat_map].
  fold (Unicode.points text). rewrite <- IH. f_equal.
  destruct c as [[] [] [] [] [] [] [] []]; reflexivity.
Qed.

(** A bit set above a number is an addition. *)
Lemma lor_high (h k lo : N) :
  (lo < 2 ^ k)%N -> N.lor (h * 2 ^ k) lo = (h * 2 ^ k + lo)%N.
Proof.
  intros L.
  assert (Z0 : N.land (h * 2 ^ k) lo = 0%N).
  { apply N.bits_inj. intros i. rewrite N.land_spec, N.bits_0.
    destruct (N.lt_ge_cases i k) as [Lt|Ge].
    - now rewrite N.mul_pow2_bits_low by exact Lt.
    - rewrite <- (N.mod_small lo (2 ^ k)) by exact L.
      rewrite N.mod_pow2_bits_high by exact Ge. apply andb_false_r. }
  rewrite (N.add_nocarry_lxor _ _ Z0). symmetry. now apply N.lxor_lor.
Qed.

Lemma lor_lead2 (x : N) : (x < 32)%N -> N.lor 192 x = (192 + x)%N.
Proof.
  intros L. apply (lor_high 3 6 x). change (2 ^ 6)%N with 64%N. lia.
Qed.

Lemma lor_lead3 (x : N) : (x < 16)%N -> N.lor 224 x = (224 + x)%N.
Proof.
  intros L. apply (lor_high 7 5 x). change (2 ^ 5)%N with 32%N. lia.
Qed.

Lemma lor_lead4 (x : N) : (x < 8)%N -> N.lor 240 x = (240 + x)%N.
Proof.
  intros L. apply (lor_high 15 4 x). change (2 ^ 4)%N with 16%N. lia.
Qed.

Lemma lor_trail (x : N) : N.lor 128 (N.land x 63) = (128 + x mod 64)%N.
Proof.
  change 63%N with (N.ones 6). rewrite N.land_ones.
  change (2 ^ 6)%N with 64%N.
  apply (lor_high 2 6 (x mod 64)). change (2 ^ 6)%N with 64%N.
  apply N.mod_lt. discriminate.
Qed.

(** The encoder of the interpreter writes the bytes of the description,
    for every code point that has a UTF-8 form. *)
Lemma utf8_char_scalar (c : N) :
  EncoderSpec.scalar c = true ->
  Unicode.utf8_char c = Ok (EncoderSpec.utf8_bytes c) /\
  Forall (fun b => (b < 256)%N) (EncoderSpec.utf8_bytes c).
Proof.
  unfold EncoderSpec.scalar. intros S.
  assert (B : (c < 55296 \/ 57343 < c <= 1114111)%N).
  { apply orb_true_iff in S. destruct S as [S|S].
    - left. now apply N.ltb_lt.
    - right. apply andb_true_iff in S. destruct S as [S1 S2].
      apply N.ltb_lt in S1. apply N.leb_le in S2. lia. }
  clear S.
  assert (M : forall x : N, (x mod 64 < 64)%N)
    by (intros x; apply N.mod_lt; discriminate).
  unfold Unicode.utf8_char, EncoderSpec.utf8_bytes, Unicode.is_surrogate.
  destruct (N.ltb_spec c 128) as [L1|L1].
  { split; [reflexivity|]. constructor; [lia | constructor]. }
  rewrite !lor_trail, !N.shiftr_div_pow2.
  change (2 ^ 6)%N with 64%N. change (2 ^ 12)%N with 4096%N.
  change (2 ^ 18)%N with 262144%N.
  destruct (N.ltb_spec c 2048) as [L2|L2].
  { assert (D : (c / 64 < 32)%N) by (apply N.Div0.div_lt_upper_bound; lia).
    rewrite (lor_lead2 _ D). split; [reflexivity|].
    pose proof (M c). repeat constructor; lia. }
  assert (E : (55296 <=? c)%N && (c <=? 57343)%N = false).
  { destruct (N.leb_spec 55296 c); destruct (N.leb_spec c 57343);
      try reflexivity. lia. }
  rewrite E.
  destruct (N.ltb_spec c 65536) as [L3|L3].
  { assert (D : (c / 4096 < 16)%N) by (apply N.Div0.div_lt_upper_bound; lia).
    rewrite (lor_lead3 _ D). split; [reflexivity|].
    pose proof (M c). pose proof (M (c / 64)%N). repeat constructor; lia. }
  assert (D : (c / 262144 < 8)%N) by (apply N.Div0.div_lt_upper_bound; lia).
  rewrite (lor_lead4 _ D). split; [reflexivity|].
  pose proof (M c). pose proof (M (c / 64)%N). pose proof (M (c / 4096)%N).
  repeat constructor; lia.
Qed.

Lemma utf8_scalar (text : Unicode.str) :
  forallb EncoderSpec.scalar text = true ->
  Unicode.utf8 text = Ok (flat_map EncoderSpec.utf8_bytes text) /\
  Forall (fun b => (b < 256)%N) (flat_map EncoderSpec.utf8_bytes text).
Proof.
  induction text as [|c text IH]; [split; [reflexivity | constructor]|].
  cbn [forallb Unicode.utf8 flat_map]. intros E.
  apply andb_true_iff in E. destruct E as [Ec Et].
  destruct (utf8_char_scalar c Ec) as [-> Fc].
  destruct (IH Et) as [-> Ft].
  split; [reflexivity | now apply Forall_app].
Qed.

Lemma utf8_surrogate (text : Unicode.str) :
  Forall (fun ch => (ch <= Unicode.MAX_UNICODE)%N) text ->
  forallb EncoderSpec.scalar text = false ->
  Unicode.utf8 text = Raise UnicodeEncodeError.
Proof.
  induction 1 as [|c text Hc _ IH]; [discriminate|].
  cbn [forallb Unicode.utf8]. intros E.
  destruct (EncoderSpec.scalar c) eqn:S.
  - destruct (utf8_char_scalar c S) as [-> _]. cbn [bind].
    now rewrite (IH E).
  - clear E IH. unfold EncoderSpec.scalar in S. unfold Unicode.MAX_UNICODE in Hc.
    apply orb_false_iff in S. destruct S as [S1 S2].
    apply N.ltb_ge in S1.
    assert (S3 : (c <= 57343)%N).
    { apply andb_false_iff in S2. destruct S2 as [S2|S2].
      - now apply N.ltb_ge in S2.
      - apply N.leb_gt in S2. lia. }
    unfold Unicode.utf8_char, Unicode.is_surrogate.
    destruct (N.ltb_spec c 128); [lia|].
    destruct (N.ltb_spec c 2048); [lia|].
    destruct (N.leb_spec 55296 c); [|lia].
    destruct (N.leb_spec c 57343); [|lia].
    reflexivity.
Qed.

(** One byte, after [quote], is a token, and the rest of the encoder
    turns it into what the description says. *)
Lemma byte_tokens (b : N) :
  (b < 256)%N ->
  wf_tok (Quote.quote_byte (Ascii.eqb " ") b) = true
  /\ cook (Quote.quote_byte (Ascii.eqb " ") b) = EncoderSpec.encode_byte b.
Proof.
  intros L. rewrite <- (N_ascii_embedding b L).
  generalize (ascii_of_N b). intros a.
  destruct a as [[] [] [] [] [] [] [] []]; vm_compute; split; reflexivity.
Qed.

Lemma bytes_tokens (bs : list N) :
  Forall (fun b => (b < 256)%N) bs ->
  Forall (fun t => wf_tok t = true) (map (Quote.quote_byte (Ascii.eqb " ")) bs)
  /\ map cook (map (Quote.quote_byte (Ascii.eqb " ")) bs)
     = map EncoderSpec.encode_byte bs.
Proof.
  induction 1 as [|b bs Hb _ [IHw IHc]]; [split; [constructor | reflexivity]|].
  destruct (byte_tokens b Hb) as [W C].
  cbn [map]. split; [now constructor | now rewrite C, IHc].
Qed.

(** C8. For every text that has a UTF-8 form, the output of the
    percent-encoder is the percent-encoding of that form in which the
    unreserved characters, the space and the characters colon, angle
    brackets, comma, parentheses and ampersand stand as they are, and
    every other byte is an escape whose two hexadecimal digits are in
    lower case. A [str] with a surrogate has no UTF-8 form, and for it
    the encoder raises UnicodeEncodeError. The function of the JSON stage
    on text of the range U+0000..U+00FF is this encoder. *)
Theorem encode_preserve_case_spec (text : Unicode.str) :
  (forallb EncoderSpec.scalar text = true ->
   Unicode.encode_preserve_case text = Ok (EncoderSpec.encode text)) /\
  (Forall (fun ch => (ch <= Unicode.MAX_UNICODE)%N) text ->
   forallb EncoderSpec.scalar text = false ->
   Unicode.encode_preserve_case text = Raise UnicodeEncodeError) /\
  (forall s : string,
     encode_preserve_case s = EncoderSpec.encode (Unicode.points s) /\
     Unicode.encode_preserve_case (Unicode.points s)
     = Ok (encode_preserve_case s)) /\
  encode_preserve_case "Radio / DW: 100%" = "Radio %2f DW: 100%25" /\
  encode_preserve_case "a<b>(c),d&e:f~g_h-i.j" = "a<b>(c),d&e:f~g_h-i.j" /\
  encode_preserve_case "%3A" = "%253A" /\
  encode_preserve_case (String "233" EmptyString) = "%c3%a9" /\
  Unicode.encode_preserve_case [8364; 128512]%N = Ok "%e2%82%ac%f0%9f%98%80" /\
  Unicode.encode_preserve_case [2047; 2048; 65535; 65536; 1114111]%N
  = Ok "%df%bf%e0%a0%80%ef%bf%bf%f0%90%80%80%f4%8f%bf%bf" /\
  Unicode.encode_preserve_case [97; 57343; 98]%N = Raise UnicodeEncodeError.
Proof.
  assert (Chain : forall bs : list N,
            Forall (fun b => (b < 256)%N) bs ->
            lower_escapes
              (Py.replace "%26" "&"
                (Py.replace "%29" ")"
                  (Py.replace "%28" "("
                    (Py.replace "%2C" ","
                      (Py.replace "%3E" ">"
                        (Py.replace "%3C" "<"
                          (Py.replace "%3A" ":"
                            (Py.replace "%20" " "
                              (Quote.quote_bytes (Ascii.eqb " ") bs)))))))))
            = String.concat EmptyString (map EncoderSpec.encode_byte bs)).
  { intros bs Hbs. destruct (bytes_tokens bs Hbs) as [W C].
    rewrite quote_bytes_tokens.
    rewrite !replace_tokens
      by (repeat (apply wf_map_subst; [reflexivity|]); exact W).
    rewrite lower_escapes_tokens
      by (repeat (apply wf_map_subst; [reflexivity|]); exact W).
    rewrite !map_map.
    change (concat_toks
              (map (fun t => cook (Quote.quote_byte (Ascii.eqb " ") t)) bs)
            = String.concat EmptyString (map EncoderSpec.encode_byte bs)).
    rewrite <- (map_map (Quote.quote_byte (Ascii.eqb " ")) cook), C.
    now rewrite concat_toks_concat. }
  assert (Scalar : forall t : Unicode.str,
            forallb EncoderSpec.scalar t = true ->
            Unicode.encode_preserve_case t = Ok (EncoderSpec.encode t)).
  { intros t S. destruct (utf8_scalar t S) as [U B].
    unfold Unicode.encode_preserve_case, Unicode.quote. rewrite U. cbn [bind].
    unfold EncoderSpec.encode. now rewrite (Chain _ B). }
  assert (Range : forall s : string,
            forallb EncoderSpec.scalar (Unicode.points s) = true).
  { intros s. induction s as [|c s IH]; [reflexivity|].
    unfold Unicode.points in *. cbn [list_ascii_of_string map forallb].
    rewrite IH, andb_true_r.
    destruct c as [[] [] [] [] [] [] [] []]; reflexivity. }
  assert (Same : forall s : string,
            encode_preserve_case s = EncoderSpec.encode (Unicode.points s)).
  { intros s. destruct (utf8_scalar _ (Range s)) as [_ B].
    unfold encode_preserve_case, Quote.quote, EncoderSpec.encode.
    rewrite utf8_points. now apply Chain. }
  split; [apply Scalar|].
  split.
  { intros Hmax S. unfold Unicode.encode_preserve_case, Unicode.quote.
    now rewrite (utf8_surrogate text Hmax S). }
  split.
  { intros s. split; [apply Same|].
    rewrite (Scalar _ (Range s)). now rewrite Same. }
  repeat split; vm_compute; reflexivity.
Qed.

Lemma encode_preserve_case_spec_witness :
  forallb EncoderSpec.scalar [8364; 128512]%N = true /\
  Unicode.encode_preserve_case [8364; 128512]%N
  = Ok (EncoderSpec.encode [8364; 128512]%N) /\
  EncoderSpec.encode [8364; 128512]%N = "%e2%82%ac%f0%9f%98%80" /\
  Forall (fun ch => (ch <= Unicode.MAX_UNICODE)%N) [97; 56832; 98]%N /\
  forallb EncoderSpec.scalar [97; 56832; 98]%N = false /\
  Unicode.encode_preserve_case [97; 56832; 98]%N = Raise UnicodeEncodeError.
Proof.
  assert (S : forallb EncoderSpec.scalar [8364; 128512]%N = true)
    by reflexivity.
  assert (M : Forall (fun ch => (ch <= Unicode.MAX_UNICODE)%N)
                [97; 56832; 98]%N)
    by (repeat constructor; discriminate).
  assert (T : forallb EncoderSpec.scalar [97; 56832; 98]%N = false)
    by reflexivity.
  split; [exact S|].
  split; [exact (proj1 (encode_preserve_case_spec [8364; 128512]%N) S)|].
  split; [vm_compute; reflexivity|].
  split; [exact M|]. split; [exact T|].
  exact (proj1 (proj2 (encode_preserve_case_spec [97; 56832; 98]%N)) M T).
Defined.

(** ** The relay column of the remote-fetch variant *)




(** ** The reader *)

Lemma bind_ret {A : Type} (c : result A) : (x <- c ;; Ok x) = c.
Proof. now destruct c. Qed.

(** Reading the rows one at a time in a loop is the loop over the rows
    of the file. *)
Lemma csv_fold_rows {S : Type} (d : ascii) (body : S -> list string -> result S)
    (lines : list string) :
  forall p s rows,
    Csv.rows_from d p lines = Ok rows ->
    Csv.fold d body p s lines = foldM body s rows.
Proof.
  induction lines as [|line rest IH]; intros p s rows E; simpl in *.
  - destruct (negb (is_empty (Csv.field p)) || negb (Csv.at_record_start p));
      inversion E; subst; simpl; [now rewrite bind_ret | reflexivity].
  - destruct (Csv.feed_line d p line) as [p'|e]; simpl in *; [|discriminate E].
    destruct (Csv.at_record_start p').
    + apply bind_ok in E. destruct E as (rs & Ers & E). inversion E; subst rows.
      simpl. destruct (body s (Csv.fields p')) as [s'|e]; simpl;
        [now apply IH | reflexivity].
    + now apply IH.
Qed.

Section JsonFacts.

Context `{FloatOps}.

(** Once the first row is consumed, every row that is not empty gives
    one element. *)
Lemma json_rows_after_header (rows : list (list string)) :
  forall acc,
    json_rows (true, acc) rows
    = (es <- mapM json_entry_of_row (filter nonempty_row rows) ;;
       Ok (true, acc ++ es)).
Proof.
  unfold json_rows.
  induction rows as [|row rows IH]; intros acc; simpl.
  - now rewrite app_nil_r.
  - destruct row as [|f row]; simpl; [apply IH|].
    destruct (json_entry_of_row (f :: row)) as [e|x]; simpl; [|reflexivity].
    rewrite IH.
    destruct (mapM json_entry_of_row (filter nonempty_row rows)) as [es|x];
      simpl; [|reflexivity].
    now rewrite <- app_assoc.
Qed.

(** The first row of the file never reaches the output. *)
Lemma csv_to_json_first_row (lines : list string)
    (first : list string) (rest : list (list string)) :
  Csv.rows ";" lines = Ok (first :: rest) ->
  csv_to_json lines = mapM json_entry_of_row (filter nonempty_row rest).
Proof.
  intros E. unfold csv_to_json.
  rewrite (csv_fold_rows ";" json_body lines Csv.reset (false, []) _ E).
  cbn [foldM json_body negb bind].
  change (foldM json_body (true, []) rest) with (json_rows (true, []) rest).
  rewrite json_rows_after_header.
  now destruct (mapM json_entry_of_row (filter nonempty_row rest)).
Qed.

End JsonFacts.

(** C6 fails on the code. The CSV stage writes no header line, and
    [csv_to_json] consumes the first row of its input before the loop:
    for the file of one line that the CSV stage writes for one source
    row, a line that is not empty and that the loop body converts, the
    array has no element; for a file of two such lines it has one. *)
Theorem csv_to_json_drops_first_line :
  @eibi2kiwi DecFloat Standalone [["kHz"]; sample_row_digits] = Ok [sample_record] /\
  is_empty (csv_line sample_record) = false /\
  Csv.rows ";" [csv_line sample_record] = Ok [sample_parsed] /\
  is_ok (@json_entry_of_row DecFloat sample_parsed) = true /\
  @csv_to_json DecFloat [csv_line sample_record] = Ok [] /\
  exists e,
    @csv_to_json DecFloat [csv_line sample_record; csv_line sample_record]
    = Ok [e].
Proof.
  split; [vm_compute; reflexivity|].
  split; [reflexivity|].
  split; [vm_compute; reflexivity|].
  split; [vm_compute; reflexivity|].
  split; [reflexivity|].
  eexists. reflexivity.
Qed.

(** ** Reading back a line of the CSV stage *)

Lemma string_app_assoc (a b c : string) :
  ((a ++ b) ++ c)%string = (a ++ (b ++ c))%string.
Proof.
  induction a as [|x a IH]; simpl; [reflexivity | now rewrite IH].
Qed.

Lemma string_app_nil_r (a : string) : (a ++ EmptyString)%string = a.
Proof.
  induction a as [|x a IH]; simpl; [reflexivity | now rewrite IH].
Qed.

Lemma plain_char_inv (c : ascii) :
  plain_char c = true ->
  Ascii.eqb c ";" = false /\ Ascii.eqb c dquote = false /\ Csv.is_newline c = false.
Proof.
  unfold plain_char. intros E. apply negb_true_iff in E.
  apply orb_false_iff in E. destruct E as [E E3].
  apply orb_false_iff in E. destruct E as [E1 E2]. auto.
Qed.

Lemma feed_in_field (s : string) :
  forall fld flds,
    Py.forallb_string plain_char s = true ->
    Csv.feed ";" {| Csv.st := Csv.IN_FIELD; Csv.field := fld; Csv.fields := flds |} s
    = Ok {| Csv.st := Csv.IN_FIELD; Csv.field := (fld ++ s)%string;
            Csv.fields := flds |}.
Proof.
  induction s as [|c s IH]; intros fld flds Hs; cbn [Csv.feed].
  - now rewrite string_app_nil_r.
  - cbn [Py.forallb_string] in Hs. apply andb_true_iff in Hs.
    destruct Hs as [Hc Hs].
    destruct (plain_char_inv c Hc) as (E1 & E2 & E3).
    unfold Csv.process_char. cbn [Csv.st]. rewrite E3, E1. cbn [bind].
    unfold Csv.add_char. cbn [Csv.field Csv.fields].
    rewrite (IH _ _ Hs), string_app_assoc. reflexivity.
Qed.

Lemma feed_in_quoted (s : string) :
  forall fld flds,
    Py.contains dquote s = false ->
    Csv.feed ";" {| Csv.st := Csv.IN_QUOTED_FIELD; Csv.field := fld;
                    Csv.fields := flds |} s
    = Ok {| Csv.st := Csv.IN_QUOTED_FIELD; Csv.field := (fld ++ s)%string;
            Csv.fields := flds |}.
Proof.
  induction s as [|c s IH]; intros fld flds Hs; cbn [Csv.feed].
  - now rewrite string_app_nil_r.
  - cbn [Py.contains] in Hs. apply orb_false_iff in Hs. destruct Hs as [Hc Hs].
    unfold Csv.process_char. cbn [Csv.st]. rewrite Hc. cbn [bind].
    unfold Csv.add_char. cbn [Csv.field Csv.fields].
    rewrite (IH _ _ Hs), string_app_assoc. reflexivity.
Qed.

Lemma feed_app (d : ascii) (a b : string) :
  forall p, Csv.feed d p (a ++ b) = (p' <- Csv.feed d p a ;; Csv.feed d p' b).
Proof.
  induction a as [|c a IH]; intros p; cbn [Csv.feed append]; [reflexivity|].
  destruct (Csv.process_char d p (Some c)) as [p'|e]; cbn [bind];
    [apply IH | reflexivity].
Qed.

(** An unquoted field and the delimiter after it, at the start of a
    field. *)
Lemma feed_plain_field (s rest : string) (flds : list string) (st0 : Csv.state) :
  st0 = Csv.START_RECORD \/ st0 = Csv.START_FIELD ->
  Py.forallb_string plain_char s = true ->
  Csv.feed ";" {| Csv.st := st0; Csv.field := EmptyString; Csv.fields := flds |}
           (s ++ String ";" rest)
  = Csv.feed ";" {| Csv.st := Csv.START_FIELD; Csv.field := EmptyString;
                    Csv.fields := flds ++ [s] |} rest.
Proof.
  intros Hst Hs. destruct s as [|c s].
  - cbn [append Csv.feed]. destruct Hst as [-> | ->]; reflexivity.
  - cbn [Py.forallb_string] in Hs. apply andb_true_iff in Hs.
    destruct Hs as [Hc Hs].
    destruct (plain_char_inv c Hc) as (E1 & E2 & E3).
    cbn [append Csv.feed].
    assert (P : Csv.process_char ";"
                  {| Csv.st := st0; Csv.field := EmptyString; Csv.fields := flds |}
                  (Some c)
                = Ok {| Csv.st := Csv.IN_FIELD;
                        Csv.field := String c EmptyString;
                        Csv.fields := flds |}).
    { destruct Hst as [-> | ->]; unfold Csv.process_char, Csv.start_field;
        cbn [Csv.st]; rewrite E3, E2, E1; reflexivity. }
    rewrite P. cbn [bind].
    rewrite feed_app, (feed_in_field s _ _ Hs). reflexivity.
Qed.

(** A quoted field and the delimiter after it, at the start of a field. *)
Lemma feed_quoted_field (s rest : string) (flds : list string) (st0 : Csv.state) :
  st0 = Csv.START_RECORD \/ st0 = Csv.START_FIELD ->
  Py.contains dquote s = false ->
  Csv.feed ";" {| Csv.st := st0; Csv.field := EmptyString; Csv.fields := flds |}
           (quoted s ++ String ";" rest)
  = Csv.feed ";" {| Csv.st := Csv.START_FIELD; Csv.field := EmptyString;
                    Csv.fields := flds ++ [s] |} rest.
Proof.
  intros Hst Hs. unfold quoted. cbn [append Csv.feed].
  assert (P : Csv.process_char ";"
                {| Csv.st := st0; Csv.field := EmptyString; Csv.fields := flds |}
                (Some dquote)
              = Ok {| Csv.st := Csv.IN_QUOTED_FIELD; Csv.field := EmptyString;
                      Csv.fields := flds |})
    by (destruct Hst as [-> | ->]; reflexivity).
  rewrite P. cbn [bind].
  rewrite string_app_assoc, feed_app, (feed_in_quoted s _ _ Hs).
  reflexivity.
Qed.

Lemma contains_app (c : ascii) (a b : string) :
  Py.contains c (a ++ b) = Py.contains c a || Py.contains c b.
Proof.
  induction a as [|x a IH]; simpl; [reflexivity|].
  now rewrite IH, orb_assoc.
Qed.

Lemma contains_lstrip (c : ascii) (p : ascii -> bool) (s : string) :
  Py.contains c s = false -> Py.contains c (Py.lstrip p s) = false.
Proof.
  induction s as [|x s IH]; simpl; [reflexivity|].
  intros E. destruct (p x); [|exact E].
  apply orb_false_iff in E. now apply IH.
Qed.

Lemma contains_rstrip (c : ascii) (p : ascii -> bool) (s : string) :
  Py.contains c s = false -> Py.contains c (Py.rstrip p s) = false.
Proof.
  induction s as [|x s IH]; simpl; [reflexivity|].
  intros E. apply orb_false_iff in E. destruct E as [Ex Es].
  specialize (IH Es).
  destruct (Py.rstrip p s) as [|y r].
  - destruct (p x); simpl; [reflexivity | now rewrite Ex].
  - cbn [Py.contains]. rewrite Ex. exact IH.
Qed.

Lemma contains_strip (c : ascii) (s : string) :
  Py.contains c s = false -> Py.contains c (Py.strip s) = false.
Proof.
  intros E. unfold Py.strip. now apply contains_rstrip, contains_lstrip.
Qed.

(** The reader on the line of a record of the CSV stage whose frequency
    field is plain and whose identifier and notes hold no double quote. *)
Lemma read_record_line (a i n : string) :
  Py.forallb_string plain_char a = true ->
  Py.contains dquote i = false ->
  Py.contains dquote n = false ->
  Csv.feed_line ";" Csv.reset
    (csv_line [ a; quoted "QAM"; quoted i; quoted n; EmptyString; quoted "T3";
                EmptyString; EmptyString; EmptyString; quoted "M_WTF__";
                "0600"; "1800" ])
  = Ok {| Csv.st := Csv.START_RECORD; Csv.field := EmptyString;
          Csv.fields := [ a; "QAM"; i; n; EmptyString; "T3"; EmptyString;
                          EmptyString; EmptyString; "M_WTF__"; "0600"; "1800" ] |}.
Proof.
  intros Ha Hi Hn.
  set (tail := csv_line [ EmptyString; quoted "T3"; EmptyString; EmptyString;
                          EmptyString; quoted "M_WTF__"; "0600"; "1800" ]).
  change (csv_line [ a; quoted "QAM"; quoted i; quoted n; EmptyString; quoted "T3";
                     EmptyString; EmptyString; EmptyString; quoted "M_WTF__";
                     "0600"; "1800" ])
    with (a ++ String ";" (quoted "QAM" ++ String ";" (quoted i ++ String ";"
            (quoted n ++ String ";" tail))))%string.
  unfold Csv.feed_line, Csv.reset.
  rewrite feed_plain_field by (auto; exact Ha).
  rewrite feed_quoted_field by (auto; reflexivity).
  rewrite feed_quoted_field by (auto; exact Hi).
  rewrite feed_quoted_field by (auto; exact Hn).
  reflexivity.
Qed.

(** C3, as the code has it. A source row with day field 1345, time
    0600-1800, language E, empty target and empty relay gives a record of
    the CSV stage with the day letters M_WTF__ in quotes, begin 0600, end
    1800 and tag T3 in quotes; the reader of the JSON stage makes of its
    line a row with the letters M_WTF__, and the loop body makes of that
    row an element whose metadata are T3 = 1, b0 = 600, e0 = 1800 and
    d0 = 92, in this order: begin and end are present, and the letters
    read as the binary number 1011100. *)
Theorem digits_row_end_to_end `{FloatOps} (f0 itu ident : string)
    (khz khz' : float) (outrow : list (list string)) (DOW : string) :
  py_float f0 = Ok khz ->
  Py.forallb_string plain_char (py_str khz) = true ->
  py_float (py_str khz) = Ok khz' ->
  Py.contains dquote itu = false ->
  Py.contains dquote ident = false ->
  exists rec row e,
    process_row Standalone (outrow, DOW)
      [f0; "0600-1800"; "1345"; itu; ident; "E"; EmptyString; EmptyString]
    = Ok (outrow ++ [rec], EmptyString) /\
    List.length rec = 12%nat /\
    nth 9 rec "?" = quoted "M_WTF__" /\
    nth 10 rec "?" = "0600" /\
    nth 11 rec "?" = "1800" /\
    nth 5 rec "?" = quoted "T3" /\
    Csv.rows ";" [csv_line rec] = Ok [row] /\
    nth 9 row "?" = "M_WTF__" /\
    json_entry_of_row row = Ok e /\
    metadata e = [("T3", 1); ("b0", 600); ("e0", 1800); ("d0", 92)] /\
    day_schedule_to_int "M_WTF__" = Ok 92 /\
    binary_representation "M_WTF__" = "1011100" /\
    csv_to_json [csv_line rec; csv_line rec] = Ok [e].
Proof.
  intros Hf Hplain Hrt Hitu Hident.
  set (notes := Py.strip (itu ++ ".  Lang: E")).
  assert (Hnotes : Py.contains dquote notes = false).
  { apply contains_strip. rewrite contains_app, Hitu. reflexivity. }
  set (rec := [ py_str khz; quoted "QAM"; quoted ident; quoted notes;
                EmptyString; quoted "T3"; EmptyString; EmptyString; EmptyString;
                quoted "M_WTF__"; "0600"; "1800" ]).
  set (row := [ py_str khz; "QAM"; ident; notes; EmptyString; "T3"; EmptyString;
                EmptyString; EmptyString; "M_WTF__"; "0600"; "1800" ]).
  assert (Hline : Csv.feed_line ";" Csv.reset (csv_line rec)
                  = Ok {| Csv.st := Csv.START_RECORD; Csv.field := EmptyString;
                          Csv.fields := row |})
    by (apply read_record_line; assumption).
  assert (Hrows1 : Csv.rows ";" [csv_line rec] = Ok [row]).
  { unfold Csv.rows. cbn [Csv.rows_from]. rewrite Hline. reflexivity. }
  assert (Hrows2 : Csv.rows ";" [csv_line rec; csv_line rec] = Ok [row; row]).
  { unfold Csv.rows. cbn [Csv.rows_from]. rewrite !Hline. reflexivity. }
  assert (Hentry : exists e,
             json_entry_of_row row = Ok e /\
             metadata e = [("T3", 1); ("b0", 600); ("e0", 1800); ("d0", 92)]).
  { unfold json_entry_of_row, row. cbn [Py.getnat nth_error bind].
    rewrite Hrt. cbn [bind]. eexists. split; reflexivity. }
  destruct Hentry as (e & He & Hm).
  exists rec, row, e.
  split.
  { unfold process_row. cbn [Py.getnat nth_error bind]. rewrite Hf.
    cbn [bind]. reflexivity. }
  repeat (split; [reflexivity|]).
  split; [exact Hrows1|].
  split; [reflexivity|].
  split; [exact He|].
  split; [exact Hm|].
  split; [reflexivity|].
  split; [reflexivity|].
  rewrite (csv_to_json_first_row _ _ _ Hrows2).
  cbn [filter nonempty_row row mapM]. fold row. rewrite He. reflexivity.
Qed.

Lemma digits_row_end_to_end_witness :
  py_float "9400" = Ok (9400 # 1) /\
  Py.forallb_string plain_char (py_str (9400 # 1)) = true /\
  py_float (py_str (9400 # 1)) = Ok (9400 # 1) /\
  Py.contains dquote "D" = false /\
  Py.contains dquote "Deutsche Welle" = false /\
  exists e,
    @csv_to_json DecFloat [csv_line sample_record; csv_line sample_record] = Ok [e] /\
    metadata e = [("T3", 1); ("b0", 600); ("e0", 1800); ("d0", 92)].
Proof.
  assert (H1 : py_float "9400" = Ok (9400 # 1)) by (vm_compute; reflexivity).
  assert (H2 : Py.forallb_string plain_char (py_str (9400 # 1)) = true)
    by (vm_compute; reflexivity).
  assert (H3 : py_float (py_str (9400 # 1)) = Ok (9400 # 1))
    by (vm_compute; reflexivity).
  assert (H4 : Py.contains dquote "D" = false) by reflexivity.
  assert (H5 : Py.contains dquote "Deutsche Welle" = false) by reflexivity.
  split; [exact H1|]. split; [exact H2|]. split; [exact H3|].
  split; [exact H4|]. split; [exact H5|].
  destruct (@digits_row_end_to_end DecFloat "9400" "D" "Deutsche Welle"
              (9400 # 1) (9400 # 1) [] EmptyString H1 H2 H3 H4 H5)
    as (rec & row & e & Hrec & _ & _ & _ & _ & _ & _ & _ & _ & Hm & _ & _ & Hjson).
  exists e. split; [|exact Hm].
  assert (R : rec = sample_record).
  { assert (P : @process_row DecFloat Standalone ([], EmptyString)
                  ["9400"; "0600-1800"; "1345"; "D"; "Deutsche Welle"; "E";
                   EmptyString; EmptyString]
                = Ok ([sample_record], EmptyString)) by (vm_compute; reflexivity).
    rewrite P in Hrec. now inversion Hrec. }
  rewrite <- R. exact Hjson.
Defined.

(** C3, as the claim states it, fails: for the row of the claim the
    metadata of the element hold the begin and the end under b0 and e0,
    and the day letters M_WTF__ give 92, not 90. *)
Lemma end_to_end_metadata_counterexample :
  exists row e,
    @process_row DecFloat Standalone ([], EmptyString)
      ["9400"; "0600-1800"; "1345"; "D"; "Deutsche Welle"; "E";
       EmptyString; EmptyString]
    = Ok ([sample_record], EmptyString) /\
    Csv.rows ";" [csv_line sample_record] = Ok [row] /\
    @json_entry_of_row DecFloat row = Ok e /\
    Py.lookup (metadata e) "b0" = Some 600 /\
    Py.lookup (metadata e) "e0" = Some 1800 /\
    Py.lookup (metadata e) "d0" = Some 92 /\
    metadata e <> [("T3", 1); ("d0", 90)].
Proof.
  exists sample_parsed. eexists.
  split; [vm_compute; reflexivity|].
  split; [vm_compute; reflexivity|].
  split; [reflexivity|].
  cbn [metadata].
  repeat (split; [reflexivity|]).
  discriminate.
Qed.

(** * Further properties of the scripts *)

(** ** The bitmask combiner *)

Lemma string_of_list_ascii_length (l : list ascii) :
  String.length (string_of_list_ascii l) = List.length l.
Proof.
  induction l as [|c l IH]; simpl; [reflexivity | now rewrite IH].
Qed.

Lemma string_of_list_ascii_get (l : list ascii) (i : nat) :
  String.get i (string_of_list_ascii l) = nth_error l i.
Proof.
  revert i. induction l as [|c l IH]; intros [|i]; simpl; auto.
Qed.

Lemma heads_of_nonempty (others : list string) (n : nat) :
  Forall (fun t => String.length t = S n) others ->
  exists hs,
    Py.heads others = Some hs /\
    existsb (Ascii.eqb "1") hs = existsb (has_one_at 0) others /\
    Forall (fun t => String.length t = n) (Py.tails others).
Proof.
  induction 1 as [|t others Ht _ (hs & Eh & Ee & Ft)].
  - exists []. repeat split. constructor.
  - destruct t as [|c t]; [discriminate Ht|].
    exists (c :: hs). simpl. rewrite Eh. split; [reflexivity|].
    split.
    + now rewrite Ee.
    + constructor; [simpl in Ht; congruence | exact Ft].
Qed.

Lemma column_or_tails (others : list string) (i : nat) :
  existsb (has_one_at (S i)) others = existsb (has_one_at i) (Py.tails others).
Proof.
  induction others as [|t others IH]; simpl; [reflexivity|].
  rewrite IH. f_equal. now destruct t.
Qed.

Lemma zip_columns_union (s : string) :
  forall others n,
    String.length s = n ->
    Forall (fun t => String.length t = n) others ->
    map (fun bits => if existsb (Ascii.eqb "1") bits then "1"%char else "0"%char)
        (Py.zip_columns s others)
    = map (fun i => if column_or (s :: others) i then "1"%char else "0"%char)
          (seq 0 n).
Proof.
  induction s as [|c s IH]; intros others n Hn Ho; simpl in Hn; subst n.
  - reflexivity.
  - destruct (heads_of_nonempty others _ Ho) as (hs & Eh & Ee & Ft).
    cbn [Py.zip_columns]. rewrite Eh. cbn [map seq].
    rewrite <- seq_shift, map_map, (IH (Py.tails others) _ eq_refl Ft).
    f_equal.
    + unfold column_or. cbn [existsb]. rewrite <- Ee. reflexivity.
    + apply map_ext. intros i. unfold column_or. cbn [existsb].
      now rewrite column_or_tails.
Qed.

Lemma create_union_bits (l : list string) (n : nat) :
  l <> [] ->
  Forall (fun s => String.length s = n) l ->
  create_weekly_binstring l = union_bits n l.
Proof.
  intros Hne Hl. destruct l as [|s others]; [congruence|].
  inversion Hl as [|? ? Hs Ho]; subst.
  unfold create_weekly_binstring, union_bits, Py.zip_star.
  now rewrite (zip_columns_union s others _ eq_refl Ho).
Qed.

(** X1. The combined weekly string of strings of one length [n] has
    that length, and its digit at each position is 1 exactly when one of
    the strings has a 1 there; for no string at all it is empty. *)
Theorem weekly_binstring_union (l : list string) (n : nat) :
  l <> [] ->
  Forall (fun s => String.length s = n) l ->
  create_weekly_binstring l = union_bits n l /\
  String.length (create_weekly_binstring l) = n /\
  (forall i, (i < n)%nat ->
     String.get i (create_weekly_binstring l)
     = Some (if column_or l i then "1"%char else "0"%char)) /\
  create_weekly_binstring [] = EmptyString.
Proof.
  intros Hne Hl.
  pose proof (create_union_bits l n Hne Hl) as E.
  split; [exact E|]. rewrite E. unfold union_bits.
  split; [now rewrite string_of_list_ascii_length, length_map, length_seq|].
  split; [|reflexivity].
  intros i Hi. rewrite string_of_list_ascii_get.
  rewrite nth_error_map, nth_error_seq.
  destruct (Nat.ltb_spec i n) as [_|C]; [reflexivity | lia].
Qed.

Lemma weekly_binstring_union_witness :
  ["1000000"; "0010000"] <> [] /\
  Forall (fun s => String.length s = 7%nat) ["1000000"; "0010000"] /\
  create_weekly_binstring ["1000000"; "0010000"] = "1010000".
Proof.
  assert (N : ["1000000"; "0010000"] <> []) by discriminate.
  assert (F : Forall (fun s => String.length s = 7%nat) ["1000000"; "0010000"])
    by (repeat constructor).
  split; [exact N|]. split; [exact F|].
  destruct (weekly_binstring_union _ 7 N F) as (E & _). rewrite E. reflexivity.
Defined.

Lemma column_or_same_elements (l l' : list string) (i : nat) :
  (forall s, In s l <-> In s l') -> column_or l i = column_or l' i.
Proof.
  intros H. unfold column_or.
  destruct (existsb (has_one_at i) l) eqn:E; symmetry.
  - apply existsb_exists in E. destruct E as (s & Is & Hs).
    apply existsb_exists. exists s. split; [now apply H | exact Hs].
  - destruct (existsb (has_one_at i) l') eqn:E'; [|reflexivity].
    apply existsb_exists in E'. destruct E' as (s & Is & Hs).
    assert (X : existsb (has_one_at i) l = true)
      by (apply existsb_exists; exists s; split; [now apply H | exact Hs]).
    congruence.
Qed.

(** X2. The combined weekly string depends only on which strings are
    in the list: lists of strings of one length with the same elements,
    in any order and with any repetitions, give the same result. *)
Theorem weekly_binstring_order_free (l l' : list string) (n : nat) :
  l <> [] ->
  Forall (fun s => String.length s = n) l ->
  (forall s, In s l <-> In s l') ->
  create_weekly_binstring l = create_weekly_binstring l'.
Proof.
  intros Hne Hl Hsame.
  assert (Hne' : l' <> []).
  { destruct l as [|s l]; [congruence|].
    intros ->. apply (Hsame s). now left. }
  assert (Hl' : Forall (fun s => String.length s = n) l').
  { rewrite Forall_forall in *. intros s Hs. apply Hl. now apply Hsame. }
  rewrite (create_union_bits l n Hne Hl), (create_union_bits l' n Hne' Hl'). unfold union_bits. f_equal. apply map_ext.
  intros i. now rewrite (column_or_same_elements l l' i Hsame).
Qed.

Lemma weekly_binstring_order_free_witness :
  ["1000000"; "0010000"] <> [] /\
  Forall (fun s => String.length s = 7%nat) ["1000000"; "0010000"] /\
  (forall s, In s ["1000000"; "0010000"]
             <-> In s ["0010000"; "1000000"; "0010000"]) /\
  create_weekly_binstring ["1000000"; "0010000"]
  = create_weekly_binstring ["0010000"; "1000000"; "0010000"].
Proof.
  assert (N : ["1000000"; "0010000"] <> []) by discriminate.
  assert (F : Forall (fun s => String.length s = 7%nat) ["1000000"; "0010000"])
    by (repeat constructor).
  assert (S : forall s, In s ["1000000"; "0010000"]
                        <-> In s ["0010000"; "1000000"; "0010000"])
    by (intros s; simpl; tauto).
  split; [exact N|]. split; [exact F|]. split; [exact S|].
  exact (weekly_binstring_order_free _ _ 7 N F S).
Defined.

(** ** From a set of weekdays to letters and to the integer *)

Lemma seven_bits (b0 b1 b2 b3 b4 b5 b6 : bool) :
  exists letters mask,
    binstring_to_dowstring
      (string_of_list_ascii
         (map (fun b : bool => if b then "1"%char else "0"%char)
              [b0; b1; b2; b3; b4; b5; b6])) = Ok letters /\
    String.length letters = 7%nat /\
    (forall i, (i < 7)%nat ->
       String.get i letters
       = Some (if nth i [b0; b1; b2; b3; b4; b5; b6] false
               then nth i dow_letters "_"%char else "_"%char)) /\
    day_schedule_to_int letters = Ok mask /\
    0 <= mask < 128 /\
    (forall i, (i < 7)%nat ->
       Z.testbit mask (6 - Z.of_nat i) = nth i [b0; b1; b2; b3; b4; b5; b6] false).
Proof.
  destruct b0, b1, b2, b3, b4, b5, b6;
    do 2 eexists;
    (split; [vm_compute; reflexivity|]);
    (split; [reflexivity|]);
    (split; [intros i Hi; do 7 (destruct i as [|i]; [reflexivity|]); lia|]);
    (split; [reflexivity|]);
    (split; [lia|]);
    intros i Hi; do 7 (destruct i as [|i]; [reflexivity|]); lia.
Qed.

Lemma day_bits_length (ds : list string) :
  Forall (fun d => In d weekdays) ds ->
  Forall (fun s => String.length s = 7%nat) (map day_bits ds).
Proof.
  induction 1 as [|d ds Hd _ IH]; simpl; constructor; [|exact IH].
  simpl in Hd. repeat (destruct Hd as [Hd|Hd]); try contradiction; subst d;
    reflexivity.
Qed.

Lemma column_or_day_bits (ds : list string) (i : nat) :
  (i < 7)%nat ->
  Forall (fun d => In d weekdays) ds ->
  column_or (map day_bits ds) i = day_listed ds i.
Proof.
  intros Hi. induction 1 as [|d ds Hd _ IH]; [reflexivity|].
  unfold column_or, day_listed in *. cbn [map existsb]. rewrite IH. f_equal.
  simpl in Hd.
  repeat (destruct Hd as [Hd|Hd]); try contradiction; subst d;
    do 7 (destruct i as [|i]; [reflexivity|]); lia.
Qed.

Lemma dow_of_day_set (ds : list string) :
  ds <> [] ->
  Forall (fun d => In d weekdays) ds ->
  exists letters mask,
    dow_of_binstrings (map day_bits ds) = Ok letters /\
    String.length letters = 7%nat /\
    (forall i, (i < 7)%nat ->
       String.get i letters
       = Some (if day_listed ds i then nth i dow_letters "_"%char else "_"%char)) /\
    day_schedule_to_int letters = Ok mask /\
    0 <= mask < 128 /\
    (forall i, (i < 7)%nat ->
       Z.testbit mask (6 - Z.of_nat i) = day_listed ds i).
Proof.
  intros Hne Hds.
  assert (Hne' : map day_bits ds <> []) by (destruct ds; [congruence | discriminate]).
  unfold dow_of_binstrings.
  rewrite (create_union_bits _ 7 Hne' (day_bits_length ds Hds)).
  unfold union_bits. cbn [seq map].
  rewrite !(column_or_day_bits ds) by (try lia; exact Hds).
  destruct (seven_bits (day_listed ds 0) (day_listed ds 1) (day_listed ds 2)
              (day_listed ds 3) (day_listed ds 4) (day_listed ds 5)
              (day_listed ds 6))
    as (letters & mask & E1 & E2 & E3 & E4 & E5 & E6).
  exists letters, mask. cbn [map] in E1.
  split; [exact E1|]. split; [exact E2|].
  split.
  { intros i Hi. rewrite (E3 i Hi).
    do 7 (destruct i as [|i]; [reflexivity|]); lia. }
  split; [exact E4|]. split; [exact E5|].
  intros i Hi. rewrite (E6 i Hi).
  do 7 (destruct i as [|i]; [reflexivity|]); lia.
Qed.

(** X3. For a list of canonical weekday abbreviations that is not
    empty, the bit strings of the days combine to seven letters: position
    [i] holds the letter of weekday [i] when that weekday is in the list
    and the placeholder otherwise; [day_schedule_to_int] reads them as an
    integer below 128 whose bit of weight [2^(6-i)] is set exactly for
    the weekdays in the list. *)
Theorem weekday_set_encoding (ds : list string) :
  ds <> [] ->
  Forall (fun d => In d weekdays) ds ->
  exists letters mask,
    weekdays_to_binstrings (Py.join "," ds) days = Ok (map day_bits ds) /\
    dow_of_binstrings (map day_bits ds) = Ok letters /\
    String.length letters = 7%nat /\
    (forall i, (i < 7)%nat ->
       String.get i letters
       = Some (if day_listed ds i then nth i dow_letters "_"%char else "_"%char)) /\
    day_schedule_to_int letters = Ok mask /\
    0 <= mask < 128 /\
    (forall i, (i < 7)%nat ->
       Z.testbit mask (6 - Z.of_nat i) = true
       <-> In (nth i weekdays EmptyString) ds).
Proof.
  intros Hne Hds.
  destruct (dow_of_day_set ds Hne Hds)
    as (letters & mask & E1 & E2 & E3 & E4 & E5 & E6).
  exists letters, mask.
  split; [now apply weekdays_to_binstrings_join|].
  split; [exact E1|]. split; [exact E2|]. split; [exact E3|].
  split; [exact E4|]. split; [exact E5|].
  intros i Hi. rewrite (E6 i Hi). unfold day_listed.
  rewrite existsb_exists. split.
  - intros (d & Id & Ed). apply String.eqb_eq in Ed. now subst d.
  - intros I. exists (nth i weekdays EmptyString). split; [exact I|].
    apply String.eqb_refl.
Qed.

Lemma weekday_set_encoding_witness :
  ["We"; "Mo"; "We"] <> [] /\
  Forall (fun d => In d weekdays) ["We"; "Mo"; "We"] /\
  dow_of_binstrings (map day_bits ["We"; "Mo"; "We"]) = Ok "M_W____" /\
  day_schedule_to_int "M_W____" = Ok 80.
Proof.
  assert (N : ["We"; "Mo"; "We"] <> []) by discriminate.
  assert (F : Forall (fun d => In d weekdays) ["We"; "Mo"; "We"])
    by (repeat constructor; simpl; tauto).
  split; [exact N|]. split; [exact F|].
  destruct (weekday_set_encoding _ N F) as (letters & mask & _ & E & _).
  split; [|reflexivity].
  rewrite E. vm_compute in E. now inversion E.
Defined.

(** ** The three day syntaxes *)

Lemma getkey_days_cases (d : string) :
  (In d weekdays /\ Py.getkey days d = Ok (day_bits d))
  \/ (~ In d weekdays /\ Py.getkey days d = Raise KeyError).
Proof.
  unfold Py.getkey, day_bits, days. cbn [Py.lookup].
  destruct (String.eqb_spec "Mo" d) as [<-|N1]; [left; split; [simpl; tauto | reflexivity]|].
  destruct (String.eqb_spec "Tu" d) as [<-|N2]; [left; split; [simpl; tauto | reflexivity]|].
  destruct (String.eqb_spec "We" d) as [<-|N3]; [left; split; [simpl; tauto | reflexivity]|].
  destruct (String.eqb_spec "Th" d) as [<-|N4]; [left; split; [simpl; tauto | reflexivity]|].
  destruct (String.eqb_spec "Fr" d) as [<-|N5]; [left; split; [simpl; tauto | reflexivity]|].
  destruct (String.eqb_spec "Sa" d) as [<-|N6]; [left; split; [simpl; tauto | reflexivity]|].
  destruct (String.eqb_spec "Su" d) as [<-|N7]; [left; split; [simpl; tauto | reflexivity]|].
  right. split; [|reflexivity]. simpl. intuition congruence.
Qed.

Lemma mapM_getkey_missing (ds : list string) :
  ~ Forall (fun d => In d weekdays) ds ->
  mapM (fun day => Py.getkey days day) ds = Raise KeyError.
Proof.
  induction ds as [|d ds IH]; intros Hn.
  - exfalso. apply Hn. constructor.
  - cbn [mapM].
    destruct (getkey_days_cases d) as [[Id E]|[Nd E]]; rewrite E; cbn [bind];
      [|reflexivity].
    rewrite IH; [reflexivity|].
    intros F. apply Hn. now constructor.
Qed.

Lemma split_nonempty (sep : ascii) (s : string) : Py.split sep s <> [].
Proof.
  pose proof (split_length sep s) as L.
  destruct (Py.split sep s); [discriminate L | discriminate].
Qed.

(** X4. The list branch looks up the tokens between the commas, after
    the token SaSu is rewritten to Sa,Su and then a leading [1.] is
    dropped. When all tokens are canonical abbreviations the branch gives
    the seven letters of that set of days; otherwise it raises KeyError.
    A field [1.SaSu] is such an error: the rewriting comes before the
    prefix is dropped. *)
Theorem list_syntax_encoding (day : string) :
  (Forall (fun d => In d weekdays) (list_tokens day) ->
   exists letters,
     dow_of_list day = Ok letters /\
     String.length letters = 7%nat /\
     forall i, (i < 7)%nat ->
       String.get i letters
       = Some (if day_listed (list_tokens day) i
               then nth i dow_letters "_"%char else "_"%char)) /\
  (~ Forall (fun d => In d weekdays) (list_tokens day) ->
   dow_of_list day = Raise KeyError) /\
  list_tokens "SaSu" = ["Sa"; "Su"] /\
  list_tokens "1.Mo,We" = ["Mo"; "We"] /\
  dow_of_list "1.SaSu" = Raise KeyError /\
  dow_of_list EmptyString = Raise KeyError.
Proof.
  assert (U : dow_of_list day
              = (r <- mapM (fun d => Py.getkey days d) (list_tokens day) ;;
                 dow_of_binstrings r)) by reflexivity.
  split; [|split; [|repeat split]].
  - intros F. rewrite U, (mapM_getkey_days _ F). cbn [bind].
    destruct (dow_of_day_set (list_tokens day)) as (letters & mask & E1 & E2 & E3 & _).
    + apply split_nonempty.
    + exact F.
    + exists letters. auto.
  - intros N. rewrite U, (mapM_getkey_missing _ N). reflexivity.
Qed.

Lemma list_syntax_encoding_witness :
  Forall (fun d => In d weekdays) (list_tokens "1.Mo,We") /\
  ~ Forall (fun d => In d weekdays) (list_tokens "Mo,Xx") /\
  dow_of_list "1.Mo,We" = Ok "M_W____" /\
  dow_of_list "Mo,Xx" = Raise KeyError.
Proof.
  assert (F : Forall (fun d => In d weekdays) (list_tokens "1.Mo,We"))
    by (repeat constructor; simpl; tauto).
  assert (N : ~ Forall (fun d => In d weekdays) (list_tokens "Mo,Xx")).
  { intros C. inversion C as [|? ? _ C1]; subst.
    inversion C1 as [|? ? I _]; subst. simpl in I. intuition discriminate. }
  split; [exact F|]. split; [exact N|].
  destruct (list_syntax_encoding "1.Mo,We") as ((letters & E & _) & _); [exact F|].
  destruct (list_syntax_encoding "Mo,Xx") as (_ & K & _).
  split; [|exact (K N)].
  rewrite E. vm_compute in E. now inversion E.
Defined.

Lemma digit_days_canonical (s : string) :
  Py.forallb_string is_octal s = true ->
  Forall (fun d => In d weekdays) (map digit_day (list_ascii_of_string s)).
Proof.
  induction s as [|c s IH]; simpl; [constructor|].
  intros E. apply andb_true_iff in E. destruct E as [Ec Es].
  constructor; [now apply digit_day_In | now apply IH].
Qed.

(** X5. For a field of the digits 0 to 7 that is not empty, the digit
    branch gives the seven letters of the set of days its digits select:
    the order of the digits and repeated digits make no difference. *)
Theorem digit_syntax_encoding (s : string) :
  s <> EmptyString ->
  Py.forallb_string is_octal s = true ->
  exists letters,
    dow_of_digits s = Ok letters /\
    String.length letters = 7%nat /\
    forall i, (i < 7)%nat ->
      String.get i letters
      = Some (if day_listed (map digit_day (list_ascii_of_string s)) i
              then nth i dow_letters "_"%char else "_"%char).
Proof.
  intros Hne Ho.
  pose proof (digit_days_canonical s Ho) as F.
  assert (N : map digit_day (list_ascii_of_string s) <> [])
    by (destruct s; [congruence | discriminate]).
  unfold dow_of_digits, weekdaynumbers_to_binstrings.
  rewrite (weekdays_list_of_octal s Ho). cbn [bind].
  rewrite (weekdays_to_binstrings_join _ N F). cbn [bind].
  destruct (dow_of_day_set _ N F) as (letters & mask & E1 & E2 & E3 & _).
  exists letters. auto.
Qed.

Lemma digit_syntax_encoding_witness :
  "5103" <> EmptyString /\
  Py.forallb_string is_octal "5103" = true /\
  dow_of_digits "5103" = Ok "M_W_F_S" /\
  dow_of_digits "1357" = Ok "M_W_F_S".
Proof.
  assert (N : "5103" <> EmptyString) by discriminate.
  assert (O : Py.forallb_string is_octal "5103" = true) by reflexivity.
  split; [exact N|]. split; [exact O|].
  destruct (digit_syntax_encoding "5103" N O) as (letters & E & _).
  split; [|reflexivity].
  rewrite E. vm_compute in E. now inversion E.
Defined.

(** X6. For canonical endpoints the range branch gives the seven
    letters of the days from start around the week to end: weekday [k]
    has its letter exactly when it is no further from start, going
    forward around the week, than end is. *)
Theorem range_syntax_encoding (start end_ : string) :
  In start weekdays -> In end_ weekdays ->
  exists i j letters,
    Py.index start weekdays = Ok i /\ Py.index end_ weekdays = Ok j /\
    dow_of_range (start ++ "-" ++ end_) = Ok letters /\
    String.length letters = 7%nat /\
    forall k, (k < 7)%nat ->
      String.get k letters
      = Some (if ((k + 7 - i) mod 7 <=? (j + 7 - i) mod 7)%nat
              then nth k dow_letters "_"%char else "_"%char).
Proof.
  intros Hs He. simpl in Hs, He.
  repeat (destruct Hs as [Hs|Hs]); try contradiction;
    repeat (destruct He as [He|He]); try contradiction; subst;
    do 3 eexists;
    (split; [reflexivity|]); (split; [reflexivity|]);
    (split; [vm_compute; reflexivity|]); (split; [reflexivity|]);
    intros k Hk; do 7 (destruct k as [|k]; [reflexivity|]); lia.
Qed.

Lemma range_syntax_encoding_witness :
  In "Sa" weekdays /\ In "Tu" weekdays /\ dow_of_range "Sa-Tu" = Ok "MT___SS".
Proof.
  assert (Hs : In "Sa" weekdays) by (simpl; tauto).
  assert (He : In "Tu" weekdays) by (simpl; tauto).
  split; [exact Hs|]. split; [exact He|].
  destruct (range_syntax_encoding "Sa" "Tu" Hs He) as (i & j & letters & _ & _ & E & _).
  change ("Sa" ++ "-" ++ "Tu")%string with "Sa-Tu" in E.
  rewrite E. vm_compute in E. now inversion E.
Defined.

Lemma ends_with_hyphen_split (s : string) :
  ends_with_hyphen s = true ->
  exists p pre, Py.split "-" s = p :: pre ++ [EmptyString].
Proof.
  unfold ends_with_hyphen.
  induction s as [|c s IH]; [discriminate|].
  cbn [Py.last_char Py.split]. destruct s as [|c' s'].
  - intros E. rewrite E. exists EmptyString, []. reflexivity.
  - intros E. destruct (IH E) as (p & pre & Hsp). rewrite Hsp.
    destruct (Ascii.eqb c "-").
    + exists EmptyString, (p :: pre). reflexivity.
    + exists (String c p), pre. reflexivity.
Qed.

Lemma ends_with_hyphen_not_digit (s : string) :
  ends_with_hyphen s = true -> Py.isdigit s = false.
Proof.
  unfold ends_with_hyphen, Py.isdigit.
  destruct s as [|c s]; [reflexivity|].
  revert c. induction s as [|c' s IH]; intros c.
  - cbn [Py.last_char Py.forallb_string]. intros E.
    apply Ascii.eqb_eq in E. subst c. reflexivity.
  - intros E. cbn [Py.forallb_string] in *.
    change (Py.last_char (String c (String c' s)))
      with (Py.last_char (String c' s)) in E.
    rewrite (IH c' E). apply andb_false_r.
Qed.

(** X7. A field that reaches the range branch without exactly one
    hyphen raises ValueError: the split does not give two parts. A field
    that ends in a hyphen and is not a list or token is where the two
    scripts differ: the standalone script raises ValueError on it, the
    remote-fetch script takes it as unrecognized and leaves the
    day-of-week value as it was. *)
Theorem range_field_malformed (day : string) :
  (count_char "-" day <> 1%nat -> expand_weekday_range day = Raise ValueError) /\
  (ends_with_hyphen day = true -> is_list_or_token day = false ->
   forall DOW,
     day_of_week Standalone DOW day = Raise ValueError /\
     forall location_dict, day_of_week (Online location_dict) DOW day = Ok DOW).
Proof.
  assert (A : count_char "-" day <> 1%nat ->
              expand_weekday_range day = Raise ValueError).
  { intros Hc. unfold expand_weekday_range.
    pose proof (split_length "-" day) as L.
    destruct (Py.split "-" day) as [|a [|b [|c r]]]; try reflexivity.
    simpl in L. congruence. }
  split; [exact A|].
  intros He Hl DOW.
  pose proof (ends_with_hyphen_not_digit day He) as Hd.
  assert (Hc : Py.contains "-" day = true).
  { destruct (Py.contains "-" day) eqn:C; [reflexivity|].
    destruct (ends_with_hyphen_split day He) as (p & pre & Hsp).
    rewrite (split_no_sep _ _ C) in Hsp.
    destruct pre; discriminate Hsp. }
  split.
  - unfold day_of_week. rewrite Hd, Hl. cbn [is_range]. rewrite Hc.
    unfold dow_of_range.
    destruct (Nat.eq_dec (count_char "-" day) 1) as [C1|C1].
    + destruct (ends_with_hyphen_split day He) as (p & pre & Hsp).
      assert (L : List.length (Py.split "-" day) = 2%nat)
        by (rewrite split_length, C1; reflexivity).
      rewrite Hsp in L. destruct pre as [|q pre]; [|destruct pre; discriminate L].
      rewrite (expand_weekday_range_invalid day p EmptyString Hsp); [reflexivity|].
      right. simpl. intuition discriminate.
    + now rewrite (A C1).
  - intros location_dict. unfold day_of_week. rewrite Hd, Hl.
    cbn [is_range]. rewrite Hc, He. reflexivity.
Qed.

Lemma range_field_malformed_witness :
  count_char "-" "Mo-We-Fr" <> 1%nat /\
  ends_with_hyphen "Mo-" = true /\ is_list_or_token "Mo-" = false /\
  expand_weekday_range "Mo-We-Fr" = Raise ValueError /\
  day_of_week Standalone "M______" "Mo-" = Raise ValueError /\
  day_of_week (Online []) "M______" "Mo-" = Ok "M______".
Proof.
  assert (C : count_char "-" "Mo-We-Fr" <> 1%nat) by discriminate.
  assert (E : ends_with_hyphen "Mo-" = true) by reflexivity.
  assert (L : is_list_or_token "Mo-" = false) by reflexivity.
  split; [exact C|]. split; [exact E|]. split; [exact L|].
  destruct (range_field_malformed "Mo-We-Fr") as [A _].
  destruct (range_field_malformed "Mo-") as [_ B].
  destruct (B E L "M______") as [B1 B2].
  split; [exact (A C)|]. split; [exact B1 | exact (B2 [])].
Defined.

(** ** The serializers at their edges *)

Lemma dowstring_from_ok (b : string) :
  forall k,
    (forall i, has_one_at i b = true -> (k + i < 7)%nat) ->
    exists letters,
      binstring_to_dowstring_from k b = Ok letters /\
      String.length letters = String.length b /\
      forall i, (i < String.length b)%nat ->
        String.get i letters
        = Some (if has_one_at i b then nth (k + i) dow_letters "_"%char
                else "_"%char).
Proof.
  induction b as [|c b IH]; intros k Hk.
  - exists EmptyString. repeat split. intros i Hi. simpl in Hi. lia.
  - destruct (IH (S k)) as (letters & E & L & G).
    { intros i Hi. specialize (Hk (S i) Hi). lia. }
    cbn [binstring_to_dowstring_from]. rewrite E.
    assert (H0 : has_one_at 0 (String c b) = Ascii.eqb c "1")
      by (unfold has_one_at; cbn [String.get]; apply Ascii.eqb_sym).
    destruct (Ascii.eqb c "1") eqn:Ec.
    + assert (K : (k < 7)%nat) by (specialize (Hk 0%nat H0); lia).
      assert (X : exists a, Py.getnat dow_letters k = Ok a
                            /\ a = nth k dow_letters "_"%char)
        by (do 7 (destruct k as [|k]; [eexists; split; reflexivity|]); lia).
      destruct X as (a & Ea & Ha). rewrite Ea. cbn [bind].
      eexists. split; [reflexivity|]. split; [simpl; now rewrite L|].
      intros [|i] Hi.
      * rewrite H0, Nat.add_0_r. simpl. now rewrite Ha.
      * cbn [String.get]. rewrite (G i) by (simpl in Hi; lia).
        now replace (k + S i)%nat with (S k + i)%nat by lia.
    + cbn [bind]. eexists. split; [reflexivity|].
      split; [simpl; now rewrite L|].
      intros [|i] Hi.
      * rewrite H0. reflexivity.
      * cbn [String.get]. rewrite (G i) by (simpl in Hi; lia).
        now replace (k + S i)%nat with (S k + i)%nat by lia.
Qed.

Lemma dowstring_from_overflow (b : string) :
  forall k i, (7 <= k + i)%nat -> has_one_at i b = true ->
    binstring_to_dowstring_from k b = Raise IndexError.
Proof.
  induction b as [|c b IH]; intros k i Hk Hi.
  - destruct i; discriminate Hi.
  - cbn [binstring_to_dowstring_from].
    destruct i as [|i].
    + unfold has_one_at in Hi. cbn [String.get] in Hi.
      rewrite Ascii.eqb_sym in Hi. rewrite Hi.
      assert (X : Py.getnat dow_letters k = Raise IndexError).
      { unfold Py.getnat.
        destruct (nth_error dow_letters k) eqn:N; [|reflexivity].
        assert (L : (k < List.length dow_letters)%nat)
          by (apply nth_error_Some; congruence).
        simpl in L. lia. }
      now rewrite X.
    + assert (R : binstring_to_dowstring_from (S k) b = Raise IndexError)
        by (apply (IH (S k) i); [lia | exact Hi]).
      rewrite R.
      destruct (Ascii.eqb c "1"); [|reflexivity].
      unfold Py.getnat. destruct (nth_error dow_letters k); reflexivity.
Qed.

(** X8. [binstring_to_dowstring] keeps the length of its argument: a
    character 1 becomes the day letter of its position and any other
    character the placeholder. The letters are looked up only for the
    character 1, so a string may be longer than seven characters as long
    as it has no 1 from position seven on; with a 1 there the function
    raises IndexError. *)
Theorem binstring_to_dowstring_positions (b : string) :
  ((forall i, has_one_at i b = true -> (i < 7)%nat) ->
   exists letters,
     binstring_to_dowstring b = Ok letters /\
     String.length letters = String.length b /\
     forall i, (i < String.length b)%nat ->
       String.get i letters
       = Some (if has_one_at i b then nth i dow_letters "_"%char else "_"%char)) /\
  ((exists i, (7 <= i)%nat /\ has_one_at i b = true) ->
   binstring_to_dowstring b = Raise IndexError).
Proof.
  split.
  - intros H. apply (dowstring_from_ok b 0). exact H.
  - intros (i & Hi & H1). now apply (dowstring_from_overflow b 0 i).
Qed.

Lemma binstring_to_dowstring_positions_witness :
  (forall i, has_one_at i "1x100000000" = true -> (i < 7)%nat) /\
  binstring_to_dowstring "1x100000000" = Ok "M_W________" /\
  (exists i, (7 <= i)%nat /\ has_one_at i "00000001" = true) /\
  binstring_to_dowstring "00000001" = Raise IndexError.
Proof.
  assert (A : forall i, has_one_at i "1x100000000" = true -> (i < 7)%nat).
  { intros i. do 11 (destruct i as [|i]; [vm_compute; intros; (lia || discriminate)|]).
    vm_compute. discriminate. }
  assert (B : exists i, (7 <= i)%nat /\ has_one_at i "00000001" = true)
    by (exists 7%nat; split; [lia | reflexivity]).
  destruct (binstring_to_dowstring_positions "1x100000000") as [P _].
  destruct (binstring_to_dowstring_positions "00000001") as [_ Q].
  destruct (P A) as (letters & E & _).
  split; [exact A|]. split.
  - rewrite E. vm_compute in E. now inversion E.
  - split; [exact B | exact (Q B)].
Defined.

Lemma bits_value_bound (zero : ascii) (s : string) :
  0 <= bits_value zero s < 2 ^ Z.of_nat (String.length s).
Proof.
  induction s as [|c s IH]; [simpl; lia|].
  cbn [bits_value String.length].
  rewrite Nat2Z.inj_succ, Z.pow_succ_r by lia.
  destruct (Ascii.eqb c zero); lia.
Qed.

Lemma int_base2_from_value (s : string) :
  forall acc,
    int_base2_from acc (binary_representation s)
    = Ok (acc * 2 ^ Z.of_nat (String.length s) + bits_value "_" s).
Proof.
  induction s as [|c s IH]; intros acc.
  - simpl. f_equal. lia.
  - cbn [binary_representation int_base2_from bits_value String.length].
    rewrite Nat2Z.inj_succ, Z.pow_succ_r by lia.
    destruct (Ascii.eqb c "_"); cbn [Ascii.eqb Bool.eqb]; rewrite IH; f_equal; lia.
Qed.

Lemma bits_value_testbit (zero : ascii) (s : string) :
  forall i c, String.get i s = Some c ->
    Z.testbit (bits_value zero s) (Z.of_nat (String.length s) - 1 - Z.of_nat i)
    = negb (Ascii.eqb c zero).
Proof.
  induction s as [|a s IH]; intros i c Hg; [discriminate Hg|].
  cbn [bits_value String.length]. rewrite Nat2Z.inj_succ.
  pose proof (bits_value_bound zero s) as B.
  set (n := Z.of_nat (String.length s)) in *.
  destruct i as [|i].
  - cbn [String.get] in Hg. inversion Hg; subst a.
    replace (Z.succ n - 1 - Z.of_nat 0) with n by lia.
    assert (Hn : 0 <= n) by (unfold n; lia).
    destruct (Ascii.eqb c zero); cbn [negb].
    + rewrite Z.add_0_l.
      destruct (Z.eq_dec (bits_value zero s) 0) as [->|N]; [apply Z.bits_0|].
      apply Z.bits_above_log2; [lia|].
      apply Z.log2_lt_pow2; lia.
    + assert (T : Z.testbit (2 ^ n + bits_value zero s) n
                  = Z.testbit ((2 ^ n + bits_value zero s) / 2 ^ n) 0)
        by (rewrite Z.div_pow2_bits by lia; f_equal; lia).
      rewrite T.
      replace ((2 ^ n + bits_value zero s) / 2 ^ n) with 1; [reflexivity|].
      apply Z.div_unique with (r := bits_value zero s); lia.
  - cbn [String.get] in Hg.
    assert (Li : (i < String.length s)%nat).
    { clear -Hg. revert i Hg. induction s as [|x s IHs]; intros i Hg;
        [destruct i; discriminate|].
      destruct i as [|i]; [simpl; lia|]. simpl in Hg. apply IHs in Hg. simpl. lia. }
    replace (Z.succ n - 1 - Z.of_nat (S i)) with (n - 1 - Z.of_nat i) by lia.
    rewrite <- (IH i c Hg).
    rewrite <- (Z.mod_pow2_bits_low _ n) by (unfold n; lia).
    f_equal.
    destruct (Ascii.eqb a zero).
    + rewrite Z.add_0_l. apply Z.mod_small. lia.
    + replace (2 ^ n + bits_value zero s)
        with (bits_value zero s + 1 * 2 ^ n) by lia.
      rewrite Z.mod_add by lia.
      apply Z.mod_small. lia.
Qed.

(** X9. [day_schedule_to_int] raises ValueError on the empty string.
    On a string of [n] characters, [n] at least one, it returns an
    integer from 0 to [2^n - 1] whose bit of weight [2^(n-1-i)] is set
    exactly when character [i] is not the placeholder, whatever else the
    character is. *)
Theorem day_schedule_to_int_bits (schedule : string) :
  day_schedule_to_int EmptyString = Raise ValueError /\
  (schedule <> EmptyString ->
   exists n,
     day_schedule_to_int schedule = Ok n /\
     0 <= n < 2 ^ Z.of_nat (String.length schedule) /\
     forall i c, String.get i schedule = Some c ->
       Z.testbit n (Z.of_nat (String.length schedule) - 1 - Z.of_nat i)
       = negb (Ascii.eqb c "_")).
Proof.
  split; [reflexivity|].
  intros Hne. exists (bits_value "_" schedule).
  split.
  - unfold day_schedule_to_int, int_base2.
    destruct schedule as [|c s]; [congruence|].
    change (match binary_representation (String c s) with
            | EmptyString => Raise ValueError
            | String _ _ => int_base2_from 0 (binary_representation (String c s))
            end)
      with (int_base2_from 0 (binary_representation (String c s))).
    rewrite int_base2_from_value. f_equal.
  - split; [apply bits_value_bound | apply bits_value_testbit].
Qed.

Lemma day_schedule_to_int_bits_witness :
  "x_ T_" <> EmptyString /\ day_schedule_to_int "x_ T_" = Ok 22.
Proof.
  assert (N : "x_ T_" <> EmptyString) by discriminate.
  split; [exact N|].
  destruct (day_schedule_to_int_bits "x_ T_") as [_ H].
  destruct (H N) as (n & E & _).
  rewrite E. vm_compute in E. now inversion E.
Defined.

Lemma binary_digit_cases (c : ascii) :
  Py.contains c "01" = true -> c = "0"%char \/ c = "1"%char.
Proof.
  cbn [Py.contains]. intros E.
  apply orb_true_iff in E. destruct E as [E|E];
    [left; apply Ascii.eqb_eq in E; congruence|].
  apply orb_true_iff in E. destruct E as [E|E]; [|discriminate E].
  right. apply Ascii.eqb_eq in E. congruence.
Qed.

Lemma binstring_sum_value (rest : string) :
  forall len i decimal,
    Py.forallb_string (fun c => Py.contains c "01") rest = true ->
    len = i + Z.of_nat (String.length rest) ->
    binstring_sum len i decimal rest = Ok (decimal + bits_value "0" rest).
Proof.
  induction rest as [|c rest IH]; intros len i decimal Hb Hl.
  - simpl. f_equal. lia.
  - cbn [Py.forallb_string] in Hb. apply andb_true_iff in Hb.
    destruct Hb as [Hc Hb].
    cbn [String.length] in Hl. rewrite Nat2Z.inj_succ in Hl.
    cbn [binstring_sum bits_value].
    replace (len - i - 1) with (Z.of_nat (String.length rest)) by lia.
    destruct (binary_digit_cases c Hc) as [-> | ->].
    + change (Py.int_char "0") with (@Ok Z 0). cbn [bind].
      rewrite (IH len (i + 1)) by (try exact Hb; lia).
      change (Ascii.eqb "0" "0") with true. f_equal. lia.
    + change (Py.int_char "1") with (@Ok Z 1). cbn [bind].
      rewrite (IH len (i + 1)) by (try exact Hb; lia).
      change (Ascii.eqb "1" "0") with false. f_equal. lia.
Qed.

Lemma int_base2_from_digits (s : string) :
  forall acc,
    Py.forallb_string (fun c => Py.contains c "01") s = true ->
    int_base2_from acc s
    = Ok (acc * 2 ^ Z.of_nat (String.length s) + bits_value "0" s).
Proof.
  induction s as [|c s IH]; intros acc Hb.
  - simpl. f_equal. lia.
  - cbn [Py.forallb_string] in Hb. apply andb_true_iff in Hb.
    destruct Hb as [Hc Hb].
    cbn [int_base2_from bits_value String.length].
    rewrite Nat2Z.inj_succ, Z.pow_succ_r by lia.
    destruct (binary_digit_cases c Hc) as [-> | ->];
      cbn [Ascii.eqb Bool.eqb]; rewrite (IH _ Hb); f_equal; lia.
Qed.

Lemma dowstring_from_representation (b : string) :
  forall k letters,
    Py.forallb_string (fun c => Py.contains c "01") b = true ->
    binstring_to_dowstring_from k b = Ok letters ->
    binary_representation letters = b.
Proof.
  induction b as [|c b IH]; intros k letters Hb E.
  - simpl in E. now inversion E.
  - cbn [Py.forallb_string] in Hb. apply andb_true_iff in Hb.
    destruct Hb as [Hc Hb].
    cbn [binstring_to_dowstring_from] in E.
    apply bind_ok in E. destruct E as (a & Ea & E).
    apply bind_ok in E. destruct E as (r & Er & E).
    inversion E; subst letters. cbn [binary_representation].
    rewrite (IH _ _ Hb Er). f_equal.
    destruct (binary_digit_cases c Hc) as [-> | ->].
    + cbn in Ea. inversion Ea. reflexivity.
    + change (Ascii.eqb "1" "1") with true in Ea. cbv iota in Ea.
      unfold Py.getnat in Ea.
      destruct (nth_error dow_letters k) as [x|] eqn:N; [|discriminate Ea].
      inversion Ea; subst a.
      do 7 (destruct k as [|k];
            [cbn in N; inversion N; reflexivity|]).
      destruct k; discriminate N.
Qed.

(** X10. [binstring_to_decimal] never raises. For a string of the digits
    0 and 1 it returns the value of the string as a binary number, which
    is what [int(s, 2)] of the JSON stage returns when the string is not
    empty; for the empty string it returns 0, where [int(s, 2)] raises
    ValueError; any other string is returned as it is. For a weekly string
    the value is the integer that the JSON stage reads from the letters. *)
Theorem binstring_to_decimal_cases (b : string) :
  (Py.forallb_string (fun c => Py.contains c "01") b = true ->
   binstring_to_decimal b = Ok (inl (bits_value "0" b)) /\
   (b <> EmptyString -> int_base2 b = Ok (bits_value "0" b)) /\
   (forall letters,
      b <> EmptyString -> binstring_to_dowstring b = Ok letters ->
      day_schedule_to_int letters = Ok (bits_value "0" b))) /\
  (Py.forallb_string (fun c => Py.contains c "01") b = false ->
   binstring_to_decimal b = Ok (inr b)) /\
  binstring_to_decimal EmptyString = Ok (inl 0) /\
  int_base2 EmptyString = Raise ValueError.
Proof.
  split; [|split; [|split; reflexivity]].
  - intros Hb.
    assert (I : b <> EmptyString -> int_base2 b = Ok (bits_value "0" b)).
    { intros Hne. unfold int_base2. destruct b as [|c s]; [congruence|].
      rewrite (int_base2_from_digits _ 0 Hb). f_equal. }
    split; [|split; [exact I|]].
    + unfold binstring_to_decimal. rewrite Hb.
      rewrite (binstring_sum_value b _ 0 0 Hb) by lia. reflexivity.
    + intros letters Hne E. unfold day_schedule_to_int.
      rewrite (dowstring_from_representation b 0 letters Hb E). now apply I.
  - intros Hb. unfold binstring_to_decimal. now rewrite Hb.
Qed.

Lemma binstring_to_decimal_cases_witness :
  Py.forallb_string (fun c => Py.contains c "01") "1011100" = true /\
  Py.forallb_string (fun c => Py.contains c "01") "10x" = false /\
  binstring_to_decimal "1011100" = Ok (inl 92) /\
  binstring_to_decimal "10x" = Ok (inr "10x").
Proof.
  assert (A : Py.forallb_string (fun c => Py.contains c "01") "1011100" = true)
    by reflexivity.
  assert (B : Py.forallb_string (fun c => Py.contains c "01") "10x" = false)
    by reflexivity.
  split; [exact A|]. split; [exact B|].
  destruct (binstring_to_decimal_cases "1011100") as [P _].
  destruct (binstring_to_decimal_cases "10x") as (_ & Q & _).
  destruct (P A) as [E _].
  split; [exact E | exact (Q B)].
Defined.

(** ** What the row loop emits *)

Lemma seven_bits_ok (b0 b1 b2 b3 b4 b5 b6 : bool) (letters : string) :
  b0 || b1 || b2 || b3 || b4 || b5 || b6 = true ->
  binstring_to_dowstring
    (string_of_list_ascii
       (map (fun b : bool => if b then "1"%char else "0"%char)
            [b0; b1; b2; b3; b4; b5; b6])) = Ok letters ->
  dow_letters_ok letters = true.
Proof.
  destruct b0, b1, b2, b3, b4, b5, b6; intros Hb E;
    try discriminate Hb; vm_compute in E; inversion E; reflexivity.
Qed.

Lemma day_listed_some (ds : list string) :
  ds <> [] -> Forall (fun d => In d weekdays) ds ->
  day_listed ds 0 || day_listed ds 1 || day_listed ds 2 || day_listed ds 3
  || day_listed ds 4 || day_listed ds 5 || day_listed ds 6 = true.
Proof.
  intros Hne F. destruct ds as [|d ds]; [congruence|].
  inversion F as [|? ? Hd _]; subst. unfold day_listed. cbn [existsb].
  simpl in Hd.
  repeat (destruct Hd as [Hd|Hd]); try contradiction; subst d;
    cbn [nth weekdays String.eqb Ascii.eqb Bool.eqb andb orb];
    rewrite ?orb_true_r; reflexivity.
Qed.

Lemma dow_of_day_set_ok (ds : list string) (letters : string) :
  ds <> [] -> Forall (fun d => In d weekdays) ds ->
  dow_of_binstrings (map day_bits ds) = Ok letters ->
  dow_letters_ok letters = true.
Proof.
  intros Hne F E.
  assert (Hne' : map day_bits ds <> []) by (destruct ds; [congruence | discriminate]).
  unfold dow_of_binstrings in E.
  rewrite (create_union_bits _ 7 Hne' (day_bits_length ds F)) in E.
  unfold union_bits in E. cbn [seq map] in E.
  rewrite !(column_or_day_bits ds) in E by (try lia; exact F).
  exact (seven_bits_ok _ _ _ _ _ _ _ letters (day_listed_some ds Hne F) E).
Qed.

Lemma getitem_daylist_In (i : Z) (d : string) :
  Py.getitem daylist i = Ok d -> In d weekdays.
Proof.
  unfold Py.getitem. cbv zeta. intros E.
  match type of E with
  | (if ?c then _ else _) = _ => destruct c; [discriminate E|]
  end.
  match type of E with
  | match ?x with _ => _ end = _ => destruct x as [a|] eqn:N; [|discriminate E]
  end.
  inversion E; subst a. exact (nth_error_In _ _ N).
Qed.

Lemma weekdays_list_of_canonical (s : string) :
  forall ds, weekdays_list_of s = Ok ds ->
    Forall (fun d => In d weekdays) ds /\ (s <> EmptyString -> ds <> []).
Proof.
  induction s as [|c s IH]; intros ds E.
  - simpl in E. inversion E. split; [constructor | congruence].
  - cbn [weekdays_list_of] in E.
    apply bind_ok in E. destruct E as (n & En & E).
    apply bind_ok in E. destruct E as (d & Ed & E).
    apply bind_ok in E. destruct E as (ds' & Eds & E).
    inversion E; subst ds. split; [|discriminate].
    constructor; [exact (getitem_daylist_In _ _ Ed) | exact (proj1 (IH _ Eds))].
Qed.

Lemma mapM_getkey_ok (ds : list string) (r : list string) :
  mapM (fun day => Py.getkey days day) ds = Ok r ->
  Forall (fun d => In d weekdays) ds /\ r = map day_bits ds.
Proof.
  intros E.
  destruct (Forall_dec (fun d => In d weekdays)
              (fun d => In_dec string_dec d weekdays) ds) as [F|N].
  - split; [exact F|]. rewrite (mapM_getkey_days _ F) in E. now inversion E.
  - rewrite (mapM_getkey_missing _ N) in E. discriminate E.
Qed.

Lemma dow_of_digits_ok (day letters : string) :
  dow_of_digits day = Ok letters -> dow_letters_ok letters = true.
Proof.
  unfold dow_of_digits, weekdaynumbers_to_binstrings. intros E.
  apply bind_ok in E. destruct E as (r & Er & E).
  apply bind_ok in Er. destruct Er as (ds & Eds & Er).
  destruct (weekdays_list_of_canonical day ds Eds) as [F Hne].
  destruct ds as [|d ds]; [discriminate Er|].
  rewrite (weekdays_to_binstrings_join (d :: ds)) in Er by (try discriminate; exact F).
  inversion Er; subst r.
  apply (dow_of_day_set_ok (d :: ds)); [discriminate | exact F | exact E].
Qed.

Lemma dow_of_list_ok (day letters : string) :
  dow_of_list day = Ok letters -> dow_letters_ok letters = true.
Proof.
  intros E.
  change (dow_of_list day)
    with (r <- mapM (fun d => Py.getkey days d) (list_tokens day) ;;
          dow_of_binstrings r) in E.
  apply bind_ok in E. destruct E as (r & Er & E).
  destruct (mapM_getkey_ok _ _ Er) as [F ->].
  apply (dow_of_day_set_ok (list_tokens day));
    [apply split_nonempty | exact F | exact E].
Qed.

Lemma dow_of_range_ok (day letters : string) :
  dow_of_range day = Ok letters -> dow_letters_ok letters = true.
Proof.
  unfold dow_of_range, expand_weekday_range. intros E.
  destruct (Py.split "-" day) as [|start [|end_ [|x xs]]]; try discriminate E.
  destruct (In_dec string_dec start weekdays) as [Is|Ns];
    [|apply index_not_In in Ns; rewrite Ns in E; discriminate E].
  destruct (In_dec string_dec end_ weekdays) as [Ie|Ne].
  - simpl in Is, Ie.
    repeat (destruct Is as [Is|Is]); try contradiction;
      repeat (destruct Ie as [Ie|Ie]); try contradiction; subst;
      vm_compute in E; inversion E; reflexivity.
  - apply index_In in Is. destruct Is as [i Ei]. rewrite Ei in E.
    apply index_not_In in Ne. cbn [bind] in E. rewrite Ne in E. discriminate E.
Qed.

Lemma day_of_week_ok (v : variant) (day dow : string) :
  day_of_week v EmptyString day = Ok dow ->
  dow = EmptyString \/ dow_letters_ok dow = true.
Proof.
  unfold day_of_week.
  destruct (Py.isdigit day); [right; now apply (dow_of_digits_ok day)|].
  destruct (is_list_or_token day); [right; now apply (dow_of_list_ok day)|].
  destruct (is_range v day); [right; now apply (dow_of_range_ok day)|].
  intros E. inversion E. now left.
Qed.

Lemma getnat_nth {A : Type} (l : list A) (i : nat) (a d : A) :
  Py.getnat l i = Ok a -> (i < List.length l)%nat /\ nth i l d = a.
Proof.
  unfold Py.getnat. destruct (nth_error l i) as [x|] eqn:N; [|discriminate].
  intros E. inversion E; subst x. split.
  - apply nth_error_Some. congruence.
  - now apply nth_error_nth.
Qed.

Lemma unpack2_count (s : string) :
  (exists be, unpack2 (Py.split "-" s) = Ok be) <-> count_char "-" s = 1%nat.
Proof.
  pose proof (split_length "-" s) as L. unfold unpack2.
  destruct (Py.split "-" s) as [|a [|b [|c r]]]; simpl in L.
  - discriminate L.
  - split; [intros [be E]; discriminate E | intros C; lia].
  - split; [intros _; lia | intros _; now exists (a, b)].
  - split; [intros [be E]; discriminate E | intros C; lia].
Qed.

Lemma clamp_begin_not_0000 (s : string) : clamp_begin s <> "0000".
Proof.
  unfold clamp_begin. destruct (String.eqb_spec s "0000"); [discriminate | exact n].
Qed.

Lemma clamp_end_not_2400 (s : string) : clamp_end s <> "2400".
Proof.
  unfold clamp_end. destruct (String.eqb_spec s "2400"); [discriminate | exact n].
Qed.

(** X11. A source row is converted exactly when it has at least eight
    columns, its frequency is accepted by [float], its time range has
    exactly one hyphen and the day-of-week step succeeds on its day
    column; further columns are ignored. The new state then holds one
    more record and an empty day-of-week variable. *)
Theorem process_row_succeeds_iff `{FloatOps} (v : variant)
    (outrow : list (list string)) (DOW : string) (row : list string) :
  ((exists st', process_row v (outrow, DOW) row = Ok st')
   <-> ((8 <= List.length row)%nat /\
        (exists khz, py_float (nth 0 row EmptyString) = Ok khz) /\
        count_char "-" (nth 1 row EmptyString) = 1%nat /\
        exists dow, day_of_week v DOW (nth 2 row EmptyString) = Ok dow)) /\
  (forall st', process_row v (outrow, DOW) row = Ok st' ->
     exists rec, st' = (outrow ++ [rec], EmptyString)
                 /\ List.length rec = 12%nat).
Proof.
  split; [split|].
  - intros [st' E]. unfold process_row in E.
    apply bind_ok in E. destruct E as (f0 & E0 & E).
    apply bind_ok in E. destruct E as (khz & Ek & E).
    apply bind_ok in E. destruct E as (f1 & E1 & E).
    apply bind_ok in E. destruct E as (be & Eb & E).
    apply bind_ok in E. destruct E as (day & E2 & E).
    apply bind_ok in E. destruct E as (dow & Ed & E).
    apply bind_ok in E. destruct E as (itu & E3 & E).
    apply bind_ok in E. destruct E as (ident & E4 & E).
    apply bind_ok in E. destruct E as (f5 & E5 & E).
    apply bind_ok in E. destruct E as (f6 & E6 & E).
    apply bind_ok in E. destruct E as (f7 & E7 & E).
    destruct (getnat_nth row 0 f0 EmptyString E0) as [_ N0].
    destruct (getnat_nth row 1 f1 EmptyString E1) as [_ N1].
    destruct (getnat_nth row 2 day EmptyString E2) as [_ N2].
    destruct (getnat_nth row 7 f7 EmptyString E7) as [L7 _].
    split; [lia|]. rewrite N0, N1, N2.
    split; [now exists khz|].
    split; [apply unpack2_count; now exists be | now exists dow].
  - intros (L & [khz Ek] & Hc & [dow Ed]).
    apply unpack2_count in Hc. destruct Hc as [be Eb].
    destruct row as [|f0 [|f1 [|day [|itu [|ident [|f5 [|f6 [|f7 extra]]]]]]]];
      simpl in L; try lia.
    cbn [nth] in Ek, Eb, Ed. unfold process_row.
    cbn [Py.getnat nth_error bind]. rewrite Ek. cbn [bind]. rewrite Eb.
    cbn [bind]. rewrite Ed. cbn [bind]. eexists. reflexivity.
  - intros st' E. unfold process_row in E.
    repeat (apply bind_ok in E; destruct E as (? & _ & E)).
    inversion E. eexists. split; reflexivity.
Qed.

Lemma process_row_succeeds_iff_witness :
  (8 <= List.length sample_row_digits)%nat /\
  (exists khz, py_float (nth 0 sample_row_digits EmptyString) = Ok khz) /\
  count_char "-" (nth 1 sample_row_digits EmptyString) = 1%nat /\
  (exists dow, day_of_week Standalone EmptyString
                 (nth 2 sample_row_digits EmptyString) = Ok dow) /\
  exists st', @process_row DecFloat Standalone ([], EmptyString) sample_row_digits
              = Ok st'.
Proof.
  assert (A : (8 <= List.length sample_row_digits)%nat) by (simpl; lia).
  assert (B : exists khz, py_float (nth 0 sample_row_digits EmptyString) = Ok khz)
    by (eexists; vm_compute; reflexivity).
  assert (C : count_char "-" (nth 1 sample_row_digits EmptyString) = 1%nat)
    by reflexivity.
  assert (D : exists dow, day_of_week Standalone EmptyString
                            (nth 2 sample_row_digits EmptyString) = Ok dow)
    by (eexists; vm_compute; reflexivity).
  split; [exact A|]. split; [exact B|]. split; [exact C|]. split; [exact D|].
  destruct (@process_row_succeeds_iff DecFloat Standalone [] EmptyString
              sample_row_digits) as [[_ S] _].
  exact (S (conj A (conj B (conj C D)))).
Defined.

Section RecordFacts.

Context `{FloatOps}.

Lemma process_row_record_ok (v : variant) (outrow : list (list string))
    (row : list string) (st' : loop_state) :
  process_row v (outrow, EmptyString) row = Ok st' ->
  exists rec, st' = (outrow ++ [rec], EmptyString) /\ record_ok rec.
Proof.
  intros E. unfold process_row in E.
  apply bind_ok in E. destruct E as (f0 & _ & E).
  apply bind_ok in E. destruct E as (khz & _ & E).
  apply bind_ok in E. destruct E as (f1 & _ & E).
  apply bind_ok in E. destruct E as (be & _ & E).
  apply bind_ok in E. destruct E as (day & _ & E).
  apply bind_ok in E. destruct E as (dow & Ed & E).
  apply bind_ok in E. destruct E as (itu & _ & E).
  apply bind_ok in E. destruct E as (ident & _ & E).
  apply bind_ok in E. destruct E as (f5 & _ & E).
  apply bind_ok in E. destruct E as (f6 & _ & E).
  apply bind_ok in E. destruct E as (f7 & _ & E).
  inversion E. eexists. split; [reflexivity|].
  unfold record_ok. cbn [nth List.length].
  split; [reflexivity|]. split; [reflexivity|]. split; [reflexivity|].
  split.
  { unfold type_tag.
    destruct (Py.startswith "-" (Py.strip f5) || is_empty (Py.strip f5)); auto. }
  split; [reflexivity|]. split; [reflexivity|]. split; [reflexivity|].
  split.
  { destruct (day_of_week_ok v day dow Ed) as [-> | Hok]; [now left|].
    right. exists dow. split; [|exact Hok].
    unfold quote_dow. destruct dow; [discriminate Hok | reflexivity]. }
  split; [apply clamp_begin_not_0000 | apply clamp_end_not_2400].
Qed.

Lemma main_loop_records (v : variant) (rows : list (list string)) :
  forall out0 out D,
    main_loop v (out0, EmptyString) rows = Ok (out, D) ->
    D = EmptyString /\
    exists recs, out = out0 ++ recs
                 /\ List.length recs = List.length rows
                 /\ Forall record_ok recs.
Proof.
  induction rows as [|row rows IH]; intros out0 out D E.
  - simpl in E. inversion E; subst. split; [reflexivity|].
    exists []. rewrite app_nil_r. repeat split. constructor.
  - cbn [main_loop] in E. apply bind_ok in E. destruct E as (st1 & E1 & E).
    destruct (process_row_record_ok v out0 row st1 E1) as (rec & -> & Hrec).
    destruct (IH _ _ _ E) as (HD & recs & Hout & Hlen & Hall).
    split; [exact HD|].
    exists (rec :: recs). rewrite Hout, <- app_assoc.
    split; [reflexivity|]. split; [simpl; now rewrite Hlen|].
    now constructor.
Qed.

Lemma sort_outrow_perm (outrow out : list (list string)) :
  sort_outrow outrow = Ok out -> Permutation outrow out.
Proof.
  unfold sort_outrow. intros E.
  apply bind_ok in E. destruct E as (keys & K & E).
  apply bind_ok in E. destruct E as (sorted & L & E). inversion E.
  destruct (mapM_combine sort_key outrow keys K) as [M _].
  rewrite <- M at 1. apply Permutation_map. now apply list_sort_perm.
Qed.

End RecordFacts.

(** X12. When the row loop runs through, it has appended exactly one
    record per row and left the day-of-week variable empty. Every record
    has twelve fields: the mode QAM in quotes, the tag T3 or T4 in
    quotes, four empty placeholders, a day field that is empty or seven
    letters in quotes (each the letter of its position or the
    placeholder, at least one a letter), a begin that is not 0000 and an
    end that is not 2400. *)
Theorem main_loop_emits_records `{FloatOps} (v : variant)
    (rows outrow : list (list string)) (DOW : string) :
  main_loop v ([], EmptyString) rows = Ok (outrow, DOW) ->
  DOW = EmptyString /\
  List.length outrow = List.length rows /\
  Forall record_ok outrow.
Proof.
  intros E.
  destruct (main_loop_records v rows [] outrow DOW E)
    as (HD & recs & Hout & Hlen & Hall).
  simpl in Hout. subst outrow. auto.
Qed.

Lemma main_loop_emits_records_witness :
  @main_loop DecFloat Standalone ([], EmptyString)
    [sample_row_digits; sample_row_irregular]
  = Ok ([sample_record;
         [ "9500.0"; quoted "QAM"; quoted "Deutsche Welle";
           quoted "D via /USA-g. Target: Eu. Lang: E"; EmptyString;
           quoted "T3"; EmptyString; EmptyString; EmptyString; EmptyString;
           "0001"; "2359" ]], EmptyString) /\
  record_ok sample_record.
Proof.
  assert (E : @main_loop DecFloat Standalone ([], EmptyString)
                [sample_row_digits; sample_row_irregular]
              = Ok ([sample_record;
                     [ "9500.0"; quoted "QAM"; quoted "Deutsche Welle";
                       quoted "D via /USA-g. Target: Eu. Lang: E"; EmptyString;
                       quoted "T3"; EmptyString; EmptyString; EmptyString;
                       EmptyString; "0001"; "2359" ]], EmptyString))
    by (vm_compute; reflexivity).
  split; [exact E|].
  destruct (@main_loop_emits_records DecFloat _ _ _ _ E) as (_ & _ & F).
  now inversion F.
Defined.

(** X13. The script raises StopIteration on a source without any row,
    and writes nothing for a source of the header row alone. When it
    succeeds, the records it writes are the records of the row loop in
    another order: one per source row after the header, each of the
    shape above. *)
Theorem eibi2kiwi_output `{FloatOps} (v : variant) (header : list string)
    (rows out : list (list string)) :
  eibi2kiwi v [] = Raise StopIteration /\
  eibi2kiwi v [header] = Ok [] /\
  (eibi2kiwi v (header :: rows) = Ok out ->
   exists outrow,
     main_loop v ([], EmptyString) rows = Ok (outrow, EmptyString) /\
     sort_outrow outrow = Ok out /\
     Permutation outrow out /\
     List.length out = List.length rows /\
     Forall record_ok out).
Proof.
  split; [reflexivity|]. split; [reflexivity|].
  intros E. unfold eibi2kiwi in E.
  apply bind_ok in E. destruct E as ([outrow D] & Em & Es). cbn [fst] in Es.
  destruct (main_loop_records v rows [] outrow D Em)
    as (-> & recs & Hout & Hlen & Hall).
  simpl in Hout. subst recs.
  pose proof (sort_outrow_perm outrow out Es) as P.
  exists outrow. split; [exact Em|]. split; [exact Es|]. split; [exact P|].
  split.
  - rewrite <- Hlen. symmetry. now apply Permutation_length.
  - eapply Permutation_Forall; [exact P | exact Hall].
Qed.

Lemma eibi2kiwi_output_witness :
  @eibi2kiwi DecFloat Standalone
    [["kHz"]; sample_row_irregular; sample_row_digits]
  = Ok [sample_record;
        [ "9500.0"; quoted "QAM"; quoted "Deutsche Welle";
          quoted "D via /USA-g. Target: Eu. Lang: E"; EmptyString;
          quoted "T3"; EmptyString; EmptyString; EmptyString; EmptyString;
          "0001"; "2359" ]] /\
  List.length [sample_record;
        [ "9500.0"; quoted "QAM"; quoted "Deutsche Welle";
          quoted "D via /USA-g. Target: Eu. Lang: E"; EmptyString;
          quoted "T3"; EmptyString; EmptyString; EmptyString; EmptyString;
          "0001"; "2359" ]] = 2%nat.
Proof.
  assert (E : @eibi2kiwi DecFloat Standalone
                [["kHz"]; sample_row_irregular; sample_row_digits]
              = Ok [sample_record;
                    [ "9500.0"; quoted "QAM"; quoted "Deutsche Welle";
                      quoted "D via /USA-g. Target: Eu. Lang: E"; EmptyString;
                      quoted "T3"; EmptyString; EmptyString; EmptyString;
                      EmptyString; "0001"; "2359" ]])
    by (vm_compute; reflexivity).
  split; [exact E|].
  match type of E with
  | _ = Ok ?o =>
      destruct (@eibi2kiwi_output DecFloat Standalone ["kHz"]
                  [sample_row_irregular; sample_row_digits] o) as (_ & _ & P)
  end.
  destruct (P E) as (outrow & _ & _ & _ & L & _). exact L.
Defined.

(** ** The elements of the JSON stage *)

Lemma day_schedule_to_int_value (schedule : string) :
  schedule <> EmptyString ->
  day_schedule_to_int schedule = Ok (bits_value "_" schedule).
Proof.
  intros Hne. unfold day_schedule_to_int, int_base2.
  destruct schedule as [|c s]; [congruence|].
  change (match binary_representation (String c s) with
          | EmptyString => Raise ValueError
          | String _ _ => int_base2_from 0 (binary_representation (String c s))
          end)
    with (int_base2_from 0 (binary_representation (String c s))).
  rewrite int_base2_from_value. f_equal.
Qed.

Lemma truthy_strip_nonempty (s : string) :
  truthy (Py.strip s) = true -> s <> EmptyString.
Proof.
  intros E ->. discriminate E.
Qed.

(** X14. The metadata of an element start with T3 = 1 whatever the tag
    column of the row is. The keys b0 and e0 come together: both are
    present when the begin column or the end column is not blank, with 0
    for a blank one, and both are absent when both columns are blank. The
    key d0 is present exactly when the day column is not blank. The keys
    stand in the order T3, b0, e0, d0. *)
Theorem json_metadata_keys `{FloatOps} (row : list string) (e : json_entry) :
  json_entry_of_row row = Ok e ->
  exists b0 e0 d0,
    let f9 := nth 9 row EmptyString in
    let f10 := nth 10 row EmptyString in
    let f11 := nth 11 row EmptyString in
    (if truthy (Py.strip f10)
     then py_int (Py.strip (Py.replace "'" EmptyString f10)) = Ok b0
     else b0 = 0) /\
    (if truthy (Py.strip f11)
     then py_int (Py.strip (Py.replace "'" EmptyString f11)) = Ok e0
     else e0 = 0) /\
    (if truthy (Py.strip f9) then day_schedule_to_int f9 = Ok d0 else d0 = 0) /\
    metadata e
    = ("T3", 1)
      :: (if truthy (Py.strip f10) || truthy (Py.strip f11)
          then [("b0", b0); ("e0", e0)] else [])
      ++ (if truthy (Py.strip f9) then [("d0", d0)] else []).
Proof.
  intros E. unfold json_entry_of_row in E.
  apply bind_ok in E. destruct E as (f0 & _ & E).
  apply bind_ok in E. destruct E as (x & _ & E).
  apply bind_ok in E. destruct E as (f1 & _ & E).
  apply bind_ok in E. destruct E as (f2 & _ & E).
  apply bind_ok in E. destruct E as (f3 & _ & E).
  apply bind_ok in E. destruct E as (f10 & E10 & E).
  apply bind_ok in E. destruct E as (m1 & Em1 & E).
  apply bind_ok in E. destruct E as (f11 & E11 & E).
  apply bind_ok in E. destruct E as (m2 & Em2 & E).
  apply bind_ok in E. destruct E as (f9 & E9 & E).
  apply bind_ok in E. destruct E as (m3 & Em3 & E).
  destruct (getnat_nth row 9 f9 EmptyString E9) as [_ ->].
  destruct (getnat_nth row 10 f10 EmptyString E10) as [_ ->].
  destruct (getnat_nth row 11 f11 EmptyString E11) as [_ ->].
  inversion E; subst e. cbn [metadata]. clear E E9 E10 E11.
  cbv zeta.
  destruct (truthy (Py.strip f10)) eqn:T10;
    destruct (truthy (Py.strip f11)) eqn:T11;
    destruct (truthy (Py.strip f9)) eqn:T9;
    cbn [negb andb orb] in *;
    repeat match goal with
      | E : bind _ _ = Ok _ |- _ =>
          apply bind_ok in E; let n := fresh "n" in let En := fresh "En" in
          destruct E as (n & En & E)
      | E : Ok _ = Ok _ |- _ => inversion E; clear E
      end; subst;
    do 3 eexists; repeat split; try eassumption; try reflexivity.
Qed.

Lemma json_metadata_keys_witness :
  exists e,
    @json_entry_of_row DecFloat
      [ "9400.0"; "QAM"; "X"; "n"; EmptyString; "T4"; EmptyString; EmptyString;
        EmptyString; EmptyString; "'0600"; " " ] = Ok e /\
    metadata e = [("T3", 1); ("b0", 600); ("e0", 0)].
Proof.
  eexists. split; [reflexivity|].
  match goal with
  | |- @metadata _ ?x = _ =>
      destruct (@json_metadata_keys DecFloat
                  [ "9400.0"; "QAM"; "X"; "n"; EmptyString; "T4"; EmptyString;
                    EmptyString; EmptyString; EmptyString; "'0600"; " " ] x
                  eq_refl) as (b0 & e0 & d0 & Hb & He & _ & M)
  end.
  rewrite M. cbn in Hb, He |- *.
  inversion Hb. subst e0. reflexivity.
Defined.

(** X15. A row that is not empty is converted exactly when it has at
    least twelve columns, its frequency is accepted by [float], and its
    begin and end columns are each blank or, with apostrophes removed,
    accepted by [int]. The day column never makes the conversion fail. *)
Theorem json_entry_succeeds_iff `{FloatOps} (row : list string) :
  (exists e, json_entry_of_row row = Ok e)
  <-> ((12 <= List.length row)%nat /\
       (exists x, py_float (nth 0 row EmptyString) = Ok x) /\
       (truthy (Py.strip (nth 10 row EmptyString)) = true ->
        exists n, py_int (Py.strip (Py.replace "'" EmptyString
                                      (nth 10 row EmptyString))) = Ok n) /\
       (truthy (Py.strip (nth 11 row EmptyString)) = true ->
        exists n, py_int (Py.strip (Py.replace "'" EmptyString
                                      (nth 11 row EmptyString))) = Ok n)).
Proof.
  split.
  - intros [e E]. unfold json_entry_of_row in E.
    apply bind_ok in E. destruct E as (f0 & E0 & E).
    apply bind_ok in E. destruct E as (x & Ex & E).
    apply bind_ok in E. destruct E as (f1 & _ & E).
    apply bind_ok in E. destruct E as (f2 & _ & E).
    apply bind_ok in E. destruct E as (f3 & _ & E).
    apply bind_ok in E. destruct E as (f10 & E10 & E).
    apply bind_ok in E. destruct E as (m1 & Em1 & E).
    apply bind_ok in E. destruct E as (f11 & E11 & E).
    apply bind_ok in E. destruct E as (m2 & Em2 & _).
    destruct (getnat_nth row 0 f0 EmptyString E0) as [_ ->].
    destruct (getnat_nth row 10 f10 EmptyString E10) as [_ ->].
    destruct (getnat_nth row 11 f11 EmptyString E11) as [L ->].
    split; [lia|]. split; [now exists x|].
    split.
    + intros T. rewrite T in Em1. apply bind_ok in Em1.
      destruct Em1 as (n & En & _). now exists n.
    + intros T. rewrite T in Em2. apply bind_ok in Em2.
      destruct Em2 as (n & En & _). now exists n.
  - intros (L & [x Ex] & H10 & H11).
    destruct row as [|f0 [|f1 [|f2 [|f3 [|f4 [|f5 [|f6 [|f7 [|f8 [|f9 [|f10
                    [|f11 extra]]]]]]]]]]]]; simpl in L; try lia.
    cbn [nth] in Ex, H10, H11. unfold json_entry_of_row.
    cbn [Py.getnat nth_error bind]. rewrite Ex. cbn [bind].
    destruct (truthy (Py.strip f10)) eqn:T10.
    + destruct (H10 eq_refl) as [n10 ->]. cbn [bind negb andb].
      destruct (truthy (Py.strip f11)) eqn:T11.
      * destruct (H11 eq_refl) as [n11 ->]. cbn [bind negb andb].
        destruct (truthy (Py.strip f9)) eqn:T9.
        -- rewrite (day_schedule_to_int_value f9 (truthy_strip_nonempty _ T9)).
           eexists. reflexivity.
        -- eexists. reflexivity.
      * cbn [bind negb andb].
        destruct (truthy (Py.strip f9)) eqn:T9.
        -- rewrite (day_schedule_to_int_value f9 (truthy_strip_nonempty _ T9)).
           eexists. reflexivity.
        -- eexists. reflexivity.
    + cbn [bind negb andb].
      destruct (truthy (Py.strip f11)) eqn:T11.
      * destruct (H11 eq_refl) as [n11 ->]. cbn [bind negb andb].
        destruct (truthy (Py.strip f9)) eqn:T9.
        -- rewrite (day_schedule_to_int_value f9 (truthy_strip_nonempty _ T9)).
           eexists. reflexivity.
        -- eexists. reflexivity.
      * cbn [bind negb andb].
        destruct (truthy (Py.strip f9)) eqn:T9.
        -- rewrite (day_schedule_to_int_value f9 (truthy_strip_nonempty _ T9)).
           eexists. reflexivity.
        -- eexists. reflexivity.
Qed.

Lemma json_entry_succeeds_iff_witness :
  exists e, @json_entry_of_row DecFloat sample_parsed = Ok e.
Proof.
  apply (@json_entry_succeeds_iff DecFloat sample_parsed).
  split; [simpl; lia|].
  split; [eexists; vm_compute; reflexivity|].
  split; intros _; eexists; vm_compute; reflexivity.
Defined.

(** X16. The array that [csv_to_json] writes has one element for each
    row of the file after the first that is not empty, in the order of
    the file; the first row is consumed whatever it holds, and a file of
    no line or of one row gives an empty array. *)
Theorem csv_to_json_elements `{FloatOps} (lines : list string)
    (rows : list (list string)) :
  Csv.rows ";" lines = Ok rows ->
  csv_to_json lines = mapM json_entry_of_row (filter nonempty_row (tl rows)) /\
  (forall out, csv_to_json lines = Ok out ->
     List.length out = List.length (filter nonempty_row (tl rows))) /\
  ((List.length rows <= 1)%nat -> csv_to_json lines = Ok []).
Proof.
  intros E.
  assert (A : csv_to_json lines
              = mapM json_entry_of_row (filter nonempty_row (tl rows))).
  { destruct rows as [|first rest]; [|now apply (csv_to_json_first_row lines first)].
    unfold csv_to_json.
    rewrite (csv_fold_rows ";" json_body lines Csv.reset (false, []) _ E).
    reflexivity. }
  split; [exact A|]. split.
  - intros out Eo. rewrite A in Eo. clear A E.
    revert out Eo. generalize (filter nonempty_row (tl rows)).
    induction l as [|r l IH]; intros out Eo; simpl in Eo.
    + now inversion Eo.
    + apply bind_ok in Eo. destruct Eo as (b & _ & Eo).
      apply bind_ok in Eo. destruct Eo as (bs & Ebs & Eo).
      inversion Eo. simpl. now rewrite (IH bs Ebs).
  - intros L. rewrite A. destruct rows as [|r [|r' rows]]; simpl in L;
      try reflexivity. lia.
Qed.

Lemma csv_to_json_elements_witness :
  Csv.rows ";" [csv_line sample_record; EmptyString; csv_line sample_record]
  = Ok [sample_parsed; []; sample_parsed] /\
  exists e,
    @csv_to_json DecFloat
      [csv_line sample_record; EmptyString; csv_line sample_record] = Ok [e].
Proof.
  assert (R : Csv.rows ";" [csv_line sample_record; EmptyString;
                            csv_line sample_record]
              = Ok [sample_parsed; []; sample_parsed]) by (vm_compute; reflexivity).
  split; [exact R|].
  destruct (@csv_to_json_elements DecFloat _ _ R) as (A & _ & _).
  rewrite A. eexists. reflexivity.
Defined.

(** ** The percent-encoder: what its output looks like *)

Lemma encode_preserve_case_bytes (text : string) :
  encode_preserve_case text
  = concat_toks (map EncoderSpec.encode_byte (Quote.utf8 text)).
Proof.
  destruct (text_tokens text) as [W C].
  unfold encode_preserve_case, Quote.quote.
  rewrite quote_bytes_tokens.
  rewrite !replace_tokens
    by (repeat (apply wf_map_subst; [reflexivity|]); exact W).
  rewrite lower_escapes_tokens
    by (repeat (apply wf_map_subst; [reflexivity|]); exact W).
  rewrite !map_map.
  change (concat_toks
            (map (fun t => cook (Quote.quote_byte (Ascii.eqb " ") t))
                 (Quote.utf8 text))
          = concat_toks (map EncoderSpec.encode_byte (Quote.utf8 text))).
  now rewrite <- (map_map (Quote.quote_byte (Ascii.eqb " ")) cook), C.
Qed.

Lemma forallb_string_app (p : ascii -> bool) (a b : string) :
  Py.forallb_string p (a ++ b) = Py.forallb_string p a && Py.forallb_string p b.
Proof.
  induction a as [|c a IH]; simpl; [reflexivity|].
  now rewrite IH, andb_assoc.
Qed.

Lemma char_encoding_facts (c : ascii) (rest : string) :
  Py.forallb_string printable
    (concat_toks (map EncoderSpec.encode_byte (Quote.utf8_char c))) = true /\
  unescape (concat_toks (map EncoderSpec.encode_byte (Quote.utf8_char c)) ++ rest)
  = Quote.utf8_char c ++ unescape rest.
Proof.
  destruct c as [[] [] [] [] [] [] [] []]; split; reflexivity.
Qed.

Lemma concat_toks_app (a b : list string) :
  concat_toks (a ++ b) = (concat_toks a ++ concat_toks b)%string.
Proof.
  induction a as [|t a IH]; simpl; [reflexivity|].
  now rewrite IH, string_app_assoc.
Qed.

Lemma utf8_decode_char (c : ascii) (bs : list N) :
  utf8_decode (Quote.utf8_char c ++ bs) = String c (utf8_decode bs).
Proof.
  destruct c as [[] [] [] [] [] [] [] []]; reflexivity.
Qed.

Lemma utf8_decode_utf8 (text : string) : utf8_decode (Quote.utf8 text) = text.
Proof.
  induction text as [|c text IH]; [reflexivity|].
  cbn [Quote.utf8]. now rewrite utf8_decode_char, IH.
Qed.

Lemma unescape_encoded (text : string) :
  unescape (concat_toks (map EncoderSpec.encode_byte (Quote.utf8 text)))
  = Quote.utf8 text.
Proof.
  induction text as [|c text IH]; [reflexivity|].
  cbn [Quote.utf8]. rewrite map_app, concat_toks_app.
  destruct (char_encoding_facts c
              (concat_toks (map EncoderSpec.encode_byte (Quote.utf8 text))))
    as [_ U].
  now rewrite U, IH.
Qed.

(** X17. The output of the percent-encoder holds only printable ASCII
    characters, from the space to the tilde, whatever the text is; the
    empty text gives the empty string. *)
Theorem encode_preserve_case_printable (text : string) :
  Py.forallb_string printable (encode_preserve_case text) = true /\
  encode_preserve_case EmptyString = EmptyString.
Proof.
  split; [|reflexivity].
  rewrite encode_preserve_case_bytes.
  induction text as [|c text IH]; [reflexivity|].
  cbn [Quote.utf8]. rewrite map_app, concat_toks_app, forallb_string_app, IH.
  destruct (char_encoding_facts c EmptyString) as [P _].
  now rewrite P.
Qed.

(** X18. The percent-encoder loses nothing: two texts with the same
    output are the same text. *)
Theorem encode_preserve_case_injective (a b : string) :
  encode_preserve_case a = encode_preserve_case b -> a = b.
Proof.
  intros E. rewrite !encode_preserve_case_bytes in E.
  apply (f_equal unescape) in E. rewrite !unescape_encoded in E.
  apply (f_equal utf8_decode) in E. now rewrite !utf8_decode_utf8 in E.
Qed.

Lemma encode_preserve_case_injective_witness :
  encode_preserve_case "a%2Fb" = encode_preserve_case "a%2Fb" /\
  "a%2Fb" = "a%2Fb" /\
  encode_preserve_case "a%2Fb" = "a%252Fb" /\
  encode_preserve_case "a/b" = "a%2fb".
Proof.
  split; [reflexivity|].
  split; [exact (encode_preserve_case_injective "a%2Fb" "a%2Fb" eq_refl)|].
  split; reflexivity.
Defined.

(** ** The season of the remote-fetch script *)

Module PreambleFacts.

Import Preamble.

Lemma days_before_year_bounds (year : Z) :
  1 <= year <= 9999 -> 0 <= days_before_year year <= 3651695.
Proof.
  intros Hy. unfold days_before_year. cbv zeta.
  assert (A : (year - 1) / 100 <= (year - 1) / 4)
    by (apply Z.div_le_compat_l; lia).
  Z.div_mod_to_equations. lia.
Qed.

Lemma days_before_next_year (year : Z) :
  days_before_year (year + 1)
  = days_before_year year + 365 + (if is_leap year then 1 else 0).
Proof.
  unfold days_before_year, is_leap. cbv zeta.
  replace (year + 1 - 1) with year by lia.
  destruct (Z.eqb_spec (year mod 4) 0) as [E4|E4];
    destruct (Z.eqb_spec (year mod 100) 0) as [E100|E100];
    destruct (Z.eqb_spec (year mod 400) 0) as [E400|E400];
    cbn [negb andb orb]; Z.div_mod_to_equations; lia.
Qed.

Lemma minus_days_done (d n : Z) :
  0 < d - n <= MAXORDINAL -> minus_days d n = Done (d - n).
Proof.
  intros H. unfold minus_days. cbv zeta.
  destruct (Z.ltb_spec 0 (d - n)); [|lia].
  destruct (Z.leb_spec (d - n) MAXORDINAL); [reflexivity | lia].
Qed.

Lemma month_cases (month : Z) :
  1 <= month <= 11 ->
  month = 1 \/ month = 2 \/ month = 3 \/ month = 4 \/ month = 5 \/ month = 6
  \/ month = 7 \/ month = 8 \/ month = 9 \/ month = 10 \/ month = 11.
Proof. lia. Qed.

Lemma first_of_next_month (year month : Z) :
  1 <= year <= 9999 -> 1 <= month <= 11 ->
  date year (month + 1) 1 = Done (ymd2ord year (month + 1) 1) /\
  ymd2ord year (month + 1) 1 - 1 = ymd2ord year month (days_in_month year month) /\
  28 <= days_in_month year month <= 31 /\
  31 <= ymd2ord year month (days_in_month year month) <= 3652030.
Proof.
  intros Hy Hm. pose proof (days_before_year_bounds year Hy) as B.
  assert (Y : (1 <=? year) && (year <=? 9999) = true).
  { destruct (Z.leb_spec 1 year); [|lia].
    destruct (Z.leb_spec year 9999); [reflexivity | lia]. }
  unfold date, ymd2ord, days_in_month, days_before_month. rewrite Y.
  destruct (month_cases month Hm)
    as [M|[M|[M|[M|[M|[M|[M|[M|[M|[M|M]]]]]]]]]]; subst month;
    destruct (is_leap year);
    repeat match goal with
      | |- context [Z.to_nat ?z] =>
          let n := eval vm_compute in (Z.to_nat z) in
          change (Z.to_nat z) with n
      end; cbn; repeat split; lia.
Qed.

Lemma last_sunday_done (year month : Z) :
  1 <= year <= 9999 -> 1 <= month <= 11 ->
  exists d,
    last_sunday year month = Done d /\
    weekday d = 6 /\
    ymd2ord year month (days_in_month year month) - 6 <= d
    <= ymd2ord year month (days_in_month year month).
Proof.
  intros Hy Hm.
  destruct (first_of_next_month year month Hy Hm) as (D & L & _ & R).
  unfold last_sunday. rewrite D. cbn [then_].
  rewrite minus_days_done by (unfold MAXORDINAL; lia). cbn [then_].
  rewrite L. set (last := ymd2ord year month (days_in_month year month)) in *.
  unfold weekday.
  destruct (Z.eqb_spec ((last + 6) mod 7) 6) as [E|E].
  - exists last. split; [reflexivity|]. split; [exact E | lia].
  - assert (W : 0 <= (last + 6) mod 7 < 7) by (apply Z.mod_pos_bound; lia).
    rewrite minus_days_done by (unfold MAXORDINAL; lia).
    eexists. split; [reflexivity|].
    split; [Z.div_mod_to_equations; lia | lia].
Qed.

End PreambleFacts.

(** X19. For a year from 1 to 9999 and a month from January to
    November, [last_sunday] returns a day that is a Sunday and is one of
    the last seven days of that month. For December it raises the
    ValueError of [date], which is asked for a thirteenth month. *)
Theorem last_sunday_in_last_week (year month : Z) :
  1 <= year <= 9999 ->
  (1 <= month <= 11 ->
   exists d,
     Preamble.last_sunday year month = Preamble.Done d /\
     Preamble.weekday d = 6 /\
     Preamble.date year month (Preamble.days_in_month year month)
     = Preamble.Done (Preamble.ymd2ord year month
                        (Preamble.days_in_month year month)) /\
     Preamble.ymd2ord year month (Preamble.days_in_month year month) - 6 <= d
     <= Preamble.ymd2ord year month (Preamble.days_in_month year month)) /\
  Preamble.last_sunday year 12 = Preamble.Stop Preamble.DateValueError.
Proof.
  intros Hy. split.
  - intros Hm.
    destruct (PreambleFacts.last_sunday_done year month Hy Hm) as (d & E & W & B).
    exists d. split; [exact E|]. split; [exact W|]. split; [|exact B].
    destruct (PreambleFacts.first_of_next_month year month Hy Hm) as (_ & _ & Dm & _).
    unfold Preamble.date.
    destruct (Z.leb_spec 1 year); [|lia].
    destruct (Z.leb_spec year 9999); [|lia].
    destruct (Z.leb_spec 1 month); [|lia].
    destruct (Z.leb_spec month 12); [|lia].
    destruct (Z.leb_spec 1 (Preamble.days_in_month year month)); [|lia].
    destruct (Z.leb_spec (Preamble.days_in_month year month)
                (Preamble.days_in_month year month)); [reflexivity | lia].
  - unfold Preamble.last_sunday, Preamble.date.
    destruct (Z.leb_spec 1 year); [|lia].
    destruct (Z.leb_spec year 9999); [reflexivity | lia].
Qed.

Lemma last_sunday_in_last_week_witness :
  1 <= 2025 <= 9999 /\ 1 <= 3 <= 11 /\
  Preamble.last_sunday 2025 3 = Preamble.date 2025 3 30 /\
  Preamble.date 2025 3 31 = Preamble.Done 739341.
Proof.
  assert (Y : 1 <= 2025 <= 9999) by lia.
  assert (M : 1 <= 3 <= 11) by lia.
  split; [exact Y|]. split; [exact M|].
  destruct (last_sunday_in_last_week 2025 3 Y) as [H _].
  destruct (H M) as (d & E & _ & D & _).
  split; [rewrite E; vm_compute in E; now inversion E | exact D].
Defined.

Module SeasonFacts.

Import Preamble.

Lemma end_of_march (year : Z) :
  ymd2ord year 3 (days_in_month year 3)
  = days_before_year year + 90 + (if is_leap year then 1 else 0).
Proof.
  unfold ymd2ord, days_in_month, days_before_month.
  destruct (is_leap year);
    repeat match goal with
      | |- context [Z.to_nat ?z] =>
          let n := eval vm_compute in (Z.to_nat z) in
          change (Z.to_nat z) with n
      end; cbn; lia.
Qed.

Lemma end_of_october (year : Z) :
  ymd2ord year 10 (days_in_month year 10)
  = days_before_year year + 304 + (if is_leap year then 1 else 0).
Proof.
  unfold ymd2ord, days_in_month, days_before_month.
  destruct (is_leap year);
    repeat match goal with
      | |- context [Z.to_nat ?z] =>
          let n := eval vm_compute in (Z.to_nat z) in
          change (Z.to_nat z) with n
      end; cbn; lia.
Qed.

(** The two ends of season A of a year, as [last_sunday] gives them. *)
Lemma season_a (year : Z) :
  1 <= year <= 9999 ->
  exists a_start a_end,
    last_sunday year 3 = Done a_start /\
    last_sunday year 10 = Done a_end /\
    days_before_year year + 84 <= a_start <= days_before_year year + 91 /\
    days_before_year year + 298 <= a_end <= days_before_year year + 305.
Proof.
  intros Hy.
  destruct (PreambleFacts.last_sunday_done year 3 Hy) as (s & Es & _ & Bs); [lia|].
  destruct (PreambleFacts.last_sunday_done year 10 Hy) as (e & Ee & _ & Be); [lia|].
  rewrite end_of_march in Bs. rewrite end_of_october in Be.
  exists s, e. split; [exact Es|]. split; [exact Ee|].
  destruct (is_leap year); lia.
Qed.

End SeasonFacts.

(** X20. For a year from 2 to 9998 and a day of that year, the choice of
    the season file never ends the run: the name is sked-a with the last
    digits of the year when today lies from the last Sunday of March to
    the last Sunday of October, and otherwise sked-b with the last digits
    of the year before. This holds before the last Sunday of March and
    also after the last Sunday of October, where the season B that has
    just begun is still named after the year before; the branch that
    names season B after this year is never taken. In the year 9999 the
    choice raises the ValueError of [date]. *)
Theorem season_file_choice (year today : Z) :
  2 <= year <= 9998 ->
  Preamble.days_before_year year < today <= Preamble.days_before_year (year + 1) ->
  (exists a_start a_end,
     Preamble.last_sunday year 3 = Preamble.Done a_start /\
     Preamble.last_sunday year 10 = Preamble.Done a_end /\
     a_start < a_end /\
     Preamble.season_file year today
     = Preamble.Done
         (if (a_start <=? today) && (today <=? a_end)
          then ("sked-a" ++ Py.drop 2 (Preamble.str_int year) ++ ".csv")%string
          else ("sked-b" ++ Py.drop 2 (Preamble.str_int (year - 1)) ++ ".csv")%string)) /\
  Preamble.season_file 9999 today = Preamble.Stop Preamble.DateValueError.
Proof.
  intros Hy Ht. split.
  - destruct (SeasonFacts.season_a year) as (s & e & Es & Ee & Bs & Be); [lia|].
    destruct (SeasonFacts.season_a (year + 1)) as (s1 & e1 & Es1 & _ & Bs1 & _); [lia|].
    destruct (SeasonFacts.season_a (year - 1)) as (s0 & e0 & Es0 & Ee0 & Bs0 & Be0); [lia|].
    pose proof (PreambleFacts.days_before_next_year year) as N1.
    pose proof (PreambleFacts.days_before_next_year (year - 1)) as N0.
    replace (year - 1 + 1) with year in N0 by lia.
    assert (L1 : 0 <= (if Preamble.is_leap year then 1 else 0) <= 1)
      by (destruct (Preamble.is_leap year); lia).
    assert (L0 : 0 <= (if Preamble.is_leap (year - 1) then 1 else 0) <= 1)
      by (destruct (Preamble.is_leap (year - 1)); lia).
    exists s, e. split; [exact Es|]. split; [exact Ee|]. split; [lia|].
    unfold Preamble.season_file. rewrite Es, Ee, Es1. cbn [Preamble.then_].
    destruct (Z.ltb_spec today s) as [Lt|Ge].
    + rewrite Es0, Ee0. cbn [Preamble.then_].
      destruct (Z.leb_spec s0 today); [|lia].
      destruct (Z.leb_spec today e0); [lia|].
      destruct (Z.ltb_spec e0 today); [|lia].
      destruct (Z.ltb_spec today s); [|lia].
      destruct (Z.leb_spec s today); [lia|].
      reflexivity.
    + cbn [Preamble.then_].
      destruct (Z.leb_spec s today); [|lia].
      destruct (Z.leb_spec today e); [reflexivity|].
      destruct (Z.ltb_spec e today); [|lia].
      destruct (Z.ltb_spec today s1); [|lia].
      reflexivity.
  - reflexivity.
Qed.

Lemma season_file_choice_witness :
  2 <= 2025 <= 9998 /\
  Preamble.days_before_year 2025 < 739570 <= Preamble.days_before_year (2025 + 1) /\
  Preamble.date 2025 11 15 = Preamble.Done 739570 /\
  Preamble.season_file 2025 739570 = Preamble.Done "sked-b24.csv".
Proof.
  assert (Y : 2 <= 2025 <= 9998) by lia.
  assert (T : Preamble.days_before_year 2025 < 739570
              <= Preamble.days_before_year (2025 + 1)) by (vm_compute; split; congruence).
  split; [exact Y|]. split; [exact T|]. split; [reflexivity|].
  destruct (season_file_choice 2025 739570 Y T) as [(s & e & Es & Ee & _ & F) _].
  rewrite F. vm_compute in Es, Ee. inversion Es; inversion Ee; subst.
  reflexivity.
Defined.

(** ** The location dictionary *)

Lemma lookup_setkey_same {V : Type} (d : list (string * V)) (k : string) (v : V) :
  Py.lookup (Py.setkey d k v) k = Some v.
Proof.
  induction d as [|[k' v'] d IH]; simpl.
  - now rewrite String.eqb_refl.
  - destruct (String.eqb k' k) eqn:E; simpl; rewrite E; [reflexivity | exact IH].
Qed.

Lemma lookup_setkey_other {V : Type} (d : list (string * V)) (k k' : string) (v : V) :
  k <> k' -> Py.lookup (Py.setkey d k v) k' = Py.lookup d k'.
Proof.
  intros N. induction d as [|[k0 v0] d IH]; simpl.
  - apply String.eqb_neq in N. now rewrite N.
  - destruct (String.eqb k0 k) eqn:E; simpl.
    + apply String.eqb_eq in E. subst k0.
      apply String.eqb_neq in N. now rewrite N.
    + destruct (String.eqb k0 k'); [reflexivity | exact IH].
Qed.

Lemma location_lookup_insert (d : loc_dict) (cc lc name cc' lc' : string) :
  let d1 := if Py.haskey d cc then d else Py.setkey d cc [] in
  let sites := match Py.lookup d1 cc with Some sites => sites | None => [] end in
  location_lookup (Py.setkey d1 cc (Py.setkey sites lc name)) cc' lc'
  = if String.eqb cc cc' && String.eqb lc lc' then Some name
    else location_lookup d cc' lc'.
Proof.
  cbv zeta. unfold location_lookup.
  destruct (String.eqb_spec cc cc') as [<-|Ncc]; cbn [andb].
  - rewrite lookup_setkey_same.
    destruct (String.eqb_spec lc lc') as [<-|Nlc].
    + apply lookup_setkey_same.
    + rewrite lookup_setkey_other by exact Nlc.
      unfold Py.haskey. destruct (Py.lookup d cc) as [sites|] eqn:L.
      * now rewrite L.
      * now rewrite lookup_setkey_same.
  - rewrite lookup_setkey_other by exact Ncc.
    unfold Py.haskey. destruct (Py.lookup d cc) eqn:L; [reflexivity|].
    now rewrite lookup_setkey_other by exact Ncc.
Qed.

Lemma load_rows_lookup (rows : list (list string)) :
  forall s,
    (forall cc lc name, Preamble.bound s = Some (cc, lc, name) ->
       location_lookup (Preamble.location_dict s) cc lc = Some name) ->
    (Preamble.bound s <> None
     \/ match rows with [] => True | row :: _ => three_columns row = true end) ->
    exists s',
      Preamble.load_rows s rows = Preamble.Done s' /\
      Preamble.reported s'
      = Preamble.reported s ++ filter (fun r => negb (three_columns r)) rows /\
      forall cc lc,
        location_lookup (Preamble.location_dict s') cc lc
        = match last_site_name rows cc lc with
          | Some name => Some name
          | None => location_lookup (Preamble.location_dict s) cc lc
          end.
Proof.
  induction rows as [|row rows IH]; intros s Inv Hb.
  - exists s. cbn. rewrite app_nil_r. auto.
  - assert (Step : exists cc lc name,
               (if three_columns row then row = [cc; lc; name]
                else Preamble.bound s = Some (cc, lc, name)) /\
               Preamble.load_row s row
               = Preamble.Done
                   {| Preamble.location_dict :=
                        Py.setkey
                          (if Py.haskey (Preamble.location_dict s) cc
                           then Preamble.location_dict s
                           else Py.setkey (Preamble.location_dict s) cc [])
                          cc
                          (Py.setkey
                             match Py.lookup
                                     (if Py.haskey (Preamble.location_dict s) cc
                                      then Preamble.location_dict s
                                      else Py.setkey (Preamble.location_dict s) cc [])
                                     cc with
                             | Some sites => sites
                             | None => []
                             end lc name);
                      Preamble.bound := Some (cc, lc, name);
                      Preamble.reported :=
                        Preamble.reported s
                        ++ (if three_columns row then [] else [row]) |}).
    { destruct row as [|a [|b [|c [|x row]]]].
      - destruct Hb as [Hb|Hb]; [|discriminate Hb].
        destruct (Preamble.bound s) as [[[cc lc] name]|] eqn:B; [|congruence].
        exists cc, lc, name. split; [reflexivity|].
        unfold Preamble.load_row. cbn [fst snd]. now rewrite B.
      - destruct Hb as [Hb|Hb]; [|discriminate Hb].
        destruct (Preamble.bound s) as [[[cc lc] name]|] eqn:B; [|congruence].
        exists cc, lc, name. split; [reflexivity|].
        unfold Preamble.load_row. cbn [fst snd]. now rewrite B.
      - destruct Hb as [Hb|Hb]; [|discriminate Hb].
        destruct (Preamble.bound s) as [[[cc lc] name]|] eqn:B; [|congruence].
        exists cc, lc, name. split; [reflexivity|].
        unfold Preamble.load_row. cbn [fst snd]. now rewrite B.
      - exists a, b, c. split; [reflexivity|].
        unfold Preamble.load_row. cbn [fst snd three_columns List.length Nat.eqb].
        now rewrite app_nil_r.
      - destruct Hb as [Hb|Hb]; [|discriminate Hb].
        destruct (Preamble.bound s) as [[[cc lc] name]|] eqn:B; [|congruence].
        exists cc, lc, name. split; [reflexivity|].
        unfold Preamble.load_row. cbn [fst snd]. now rewrite B. }
    destruct Step as (cc & lc & name & Hrow & Eload).
    cbn [Preamble.load_rows]. rewrite Eload. cbn [Preamble.then_].
    match goal with
    | |- context [Preamble.load_rows ?s1 rows] =>
        destruct (IH s1) as (s' & E' & R' & L')
    end.
    + cbn [Preamble.bound Preamble.location_dict].
      intros cc0 lc0 name0 Eb. inversion Eb; subst cc0 lc0 name0.
      eapply eq_trans;
        [exact (location_lookup_insert (Preamble.location_dict s) cc lc name cc lc)|].
      now rewrite !String.eqb_refl.
    + left. cbn [Preamble.bound]. discriminate.
    + exists s'. split; [exact E'|]. split.
      * rewrite R'. cbn [Preamble.reported filter].
        destruct (three_columns row); cbn [negb];
          now rewrite <- app_assoc.
      * intros cc' lc'. rewrite L'. cbn [last_site_name Preamble.location_dict].
        destruct (last_site_name rows cc' lc') as [n|]; [reflexivity|].
        eapply eq_trans;
          [exact (location_lookup_insert (Preamble.location_dict s) cc lc name cc' lc')|].
        destruct (three_columns row) eqn:T.
        -- subst row.
           now destruct (String.eqb cc cc' && String.eqb lc lc').
        -- assert (X : match row with
                        | [a; b; c] =>
                            if String.eqb a cc' && String.eqb b lc' then Some c
                            else None
                        | _ => None
                        end = None).
           { destruct row as [|a [|b [|c [|x row]]]]; try reflexivity.
             discriminate T. }
           rewrite X.
           destruct (String.eqb_spec cc cc') as [<-|N]; [|reflexivity].
           destruct (String.eqb_spec lc lc') as [<-|N]; [|reflexivity].
           cbn [andb]. symmetry. now apply Inv.
Qed.

(** X21. Loading eibisites.csv. When the first row has not three
    columns the loop raises NameError: the row is reported, and the
    assignment then uses variables that were never bound. Otherwise the
    loop runs through: the rows that have not three columns are the rows
    reported, in their order, and they leave the dictionary as it was;
    the lookup of a country code and a site code gives the name of the
    last row of three columns with these codes, and nothing when there is
    no such row. *)
Theorem load_locations_lookup (rows : list (list string)) :
  (match rows with
   | [] => False
   | row :: _ => three_columns row = false
   end -> Preamble.load_locations rows = Preamble.Stop Preamble.NameError) /\
  (match rows with
   | [] => True
   | row :: _ => three_columns row = true
   end ->
   exists s,
     Preamble.load_locations rows = Preamble.Done s /\
     Preamble.reported s = filter (fun r => negb (three_columns r)) rows /\
     forall cc lc,
       location_lookup (Preamble.location_dict s) cc lc
       = last_site_name rows cc lc).
Proof.
  split.
  - destruct rows as [|row rows]; [tauto|]. intros T.
    unfold Preamble.load_locations. cbn [Preamble.load_rows].
    destruct row as [|a [|b [|c [|x row]]]]; try reflexivity.
    discriminate T.
  - intros Hfirst.
    destruct (load_rows_lookup rows Preamble.load_start) as (s & E & R & L).
    + intros cc lc name B. discriminate B.
    + right. exact Hfirst.
    + exists s. split; [exact E|]. split; [exact R|].
      intros cc lc. rewrite L. cbn.
      now destruct (last_site_name rows cc lc).
Qed.

Lemma load_locations_lookup_witness :
  three_columns ["bad"] = false /\
  three_columns ["USA"; "g"; "Greenville"] = true /\
  Preamble.load_locations [["bad"]; ["USA"; "g"; "Greenville"]]
  = Preamble.Stop Preamble.NameError /\
  exists s,
    Preamble.load_locations
      [["USA"; "g"; "Greenville"]; ["bad"]; ["D"; "n"; "Nauen"];
       ["USA"; "g"; "Greenville NC"]] = Preamble.Done s /\
    Preamble.reported s = [["bad"]] /\
    location_lookup (Preamble.location_dict s) "USA" "g" = Some "Greenville NC".
Proof.
  split; [reflexivity|]. split; [reflexivity|].
  destruct (load_locations_lookup [["bad"]; ["USA"; "g"; "Greenville"]]) as [A _].
  destruct (load_locations_lookup
              [["USA"; "g"; "Greenville"]; ["bad"]; ["D"; "n"; "Nauen"];
               ["USA"; "g"; "Greenville NC"]]) as [_ B].
  split; [exact (A eq_refl)|].
  destruct (B eq_refl) as (s & E & R & L).
  exists s. split; [exact E|]. split; [exact R|].
  now rewrite L.
Defined.

(** ** The download loop *)

Lemma fetch_from_retry (server : nat -> Preamble.reply)
    (attempt remaining requests sleeps : nat) (local : option string) :
  retryable (server attempt) = true ->
  Preamble.fetch_from server attempt (S remaining) requests sleeps local
  = Preamble.fetch_from server (S attempt) remaining (S requests) (S sleeps) local.
Proof.
  intros R. cbn [Preamble.fetch_from].
  destruct (server attempt) as [status_code text|]; [|reflexivity].
  cbn [retryable] in R. apply andb_true_iff in R. destruct R as [R1 R2].
  rewrite R1. apply negb_true_iff in R2. now rewrite R2.
Qed.

(** X22. The download makes at most three requests. It pauses after
    every failed request that is not a 404, also after the third. When
    the first reply that is not such a failure is a 404, the loop stops
    there without writing, and when it is a good response the loop stops
    there and the file holds the text with every CR LF replaced by CR.
    After three failures the message of failure is printed and the file
    is as it was. The run ends after the loop only when there is no file:
    a file left by an earlier run lets the script go on with old data. *)
Theorem fetch_attempts (server : nat -> Preamble.reply) (local : option string) :
  (Preamble.requests (Preamble.fetch server local) <= 3)%nat /\
  (forall k,
     (k < 3)%nat ->
     (forall j, (j < k)%nat -> retryable (server j) = true) ->
     (forall text,
        server k = Preamble.Response 404 text ->
        Preamble.fetch server local
        = {| Preamble.requests := S k; Preamble.sleeps := k;
             Preamble.file := local; Preamble.gave_up := false |}) /\
     (forall status_code text,
        server k = Preamble.Response status_code text ->
        Preamble.is_http_error status_code = false ->
        Preamble.fetch server local
        = {| Preamble.requests := S k; Preamble.sleeps := k;
             Preamble.file := Some (Py.replace Preamble.CRLF Preamble.CR text);
             Preamble.gave_up := false |})) /\
  ((forall j, (j < 3)%nat -> retryable (server j) = true) ->
   Preamble.fetch server local
   = {| Preamble.requests := 3; Preamble.sleeps := 3;
        Preamble.file := local; Preamble.gave_up := true |}) /\
  (Preamble.file_or_exit (Preamble.fetch server local)
   = Preamble.Stop Preamble.SystemExit
   <-> Preamble.file (Preamble.fetch server local) = None) /\
  (forall old, local = Some old ->
     exists content,
       Preamble.file_or_exit (Preamble.fetch server local) = Preamble.Done content).
Proof.
  assert (Stop404 : forall a rem rq sl text,
             server a = Preamble.Response 404 text ->
             Preamble.fetch_from server a (S rem) rq sl local
             = {| Preamble.requests := S rq; Preamble.sleeps := sl;
                  Preamble.file := local; Preamble.gave_up := false |}).
  { intros a rem rq sl text E. cbn [Preamble.fetch_from]. now rewrite E. }
  assert (Good : forall a rem rq sl status_code text,
             server a = Preamble.Response status_code text ->
             Preamble.is_http_error status_code = false ->
             Preamble.fetch_from server a (S rem) rq sl local
             = {| Preamble.requests := S rq; Preamble.sleeps := sl;
                  Preamble.file :=
                    Some (Py.replace Preamble.CRLF Preamble.CR text);
                  Preamble.gave_up := false |}).
  { intros a rem rq sl status_code text E H. cbn [Preamble.fetch_from].
    now rewrite E, H. }
  split; [|split; [|split; [|split]]].
  - unfold Preamble.fetch, Preamble.max_attempts. cbn [Preamble.fetch_from].
    destruct (server 0%nat) as [s0 t0|];
      [destruct (Preamble.is_http_error s0); [destruct (s0 =? 404)|]|];
      cbn [Preamble.requests]; try lia;
      (destruct (server 1%nat) as [s1 t1|];
       [destruct (Preamble.is_http_error s1); [destruct (s1 =? 404)|]|];
       cbn [Preamble.requests]; try lia;
       (destruct (server 2%nat) as [s2 t2|];
        [destruct (Preamble.is_http_error s2); [destruct (s2 =? 404)|]|];
        cbn [Preamble.requests]; lia)).
  - intros k Hk Hretry. unfold Preamble.fetch, Preamble.max_attempts.
    destruct k as [|[|[|k]]]; try lia.
    + split; [intros text E; now apply (Stop404 _ _ _ _ text)
             | intros st text E H; now apply (Good _ _ _ _ st text)].
    + rewrite fetch_from_retry by (apply Hretry; lia).
      split; [intros text E; now apply (Stop404 _ _ _ _ text)
             | intros st text E H; now apply (Good _ _ _ _ st text)].
    + rewrite fetch_from_retry by (apply Hretry; lia).
      rewrite fetch_from_retry by (apply Hretry; lia).
      split; [intros text E; now apply (Stop404 _ _ _ _ text)
             | intros st text E H; now apply (Good _ _ _ _ st text)].
  - intros Hretry. unfold Preamble.fetch, Preamble.max_attempts.
    rewrite !fetch_from_retry by (apply Hretry; lia). reflexivity.
  - unfold Preamble.file_or_exit.
    destruct (Preamble.file (Preamble.fetch server local));
      split; congruence.
  - intros old ->. unfold Preamble.file_or_exit, Preamble.fetch,
      Preamble.max_attempts. cbn [Preamble.fetch_from].
    destruct (server 0%nat) as [s0 t0|];
      [destruct (Preamble.is_http_error s0); [destruct (s0 =? 404)|]|];
      cbn [Preamble.file]; try (eexists; reflexivity);
      (destruct (server 1%nat) as [s1 t1|];
       [destruct (Preamble.is_http_error s1); [destruct (s1 =? 404)|]|];
       cbn [Preamble.file]; try (eexists; reflexivity);
       (destruct (server 2%nat) as [s2 t2|];
        [destruct (Preamble.is_http_error s2); [destruct (s2 =? 404)|]|];
        cbn [Preamble.file]; eexists; reflexivity)).
Qed.

Lemma fetch_attempts_witness :
  (1 < 3)%nat /\
  (forall j, (j < 1)%nat ->
     retryable ((fun n => match n with
                          | O => Preamble.Response 503 "busy"
                          | _ => Preamble.Response 404 "gone"
                          end) j) = true) /\
  Preamble.fetch (fun n => match n with
                           | O => Preamble.Response 503 "busy"
                           | _ => Preamble.Response 404 "gone"
                           end) (Some "old")
  = {| Preamble.requests := 2; Preamble.sleeps := 1;
       Preamble.file := Some "old"; Preamble.gave_up := false |}.
Proof.
  assert (K : (1 < 3)%nat) by lia.
  assert (R : forall j, (j < 1)%nat ->
     retryable ((fun n => match n with
                          | O => Preamble.Response 503 "busy"
                          | _ => Preamble.Response 404 "gone"
                          end) j) = true)
    by (intros [|j] Hj; [reflexivity | lia]).
  split; [exact K|]. split; [exact R|].
  destruct (fetch_attempts (fun n => match n with
                                     | O => Preamble.Response 503 "busy"
                                     | _ => Preamble.Response 404 "gone"
                                     end) (Some "old")) as (_ & H & _).
  destruct (H 1%nat K R) as [H404 _].
  exact (H404 "gone" eq_refl).
Defined.

(** ** From the line of the CSV stage to the row of the JSON stage *)

Lemma feed_last_plain_field (s : string) (flds : list string) :
  Py.forallb_string plain_char s = true ->
  (p1 <- Csv.feed ";" {| Csv.st := Csv.START_FIELD; Csv.field := EmptyString;
                         Csv.fields := flds |} s ;;
   p2 <- Csv.process_char ";" p1 (Some "010"%char) ;;
   Csv.process_char ";" p2 None)
  = Ok {| Csv.st := Csv.START_RECORD; Csv.field := EmptyString;
          Csv.fields := flds ++ [s] |}.
Proof.
  intros Hs. destruct s as [|c s]; [reflexivity|].
  cbn [Py.forallb_string] in Hs. apply andb_true_iff in Hs. destruct Hs as [Hc Hs].
  destruct (plain_char_inv c Hc) as (E1 & E2 & E3).
  cbn [Csv.feed].
  assert (P : Csv.process_char ";"
                {| Csv.st := Csv.START_FIELD; Csv.field := EmptyString;
                   Csv.fields := flds |} (Some c)
              = Ok {| Csv.st := Csv.IN_FIELD; Csv.field := String c EmptyString;
                      Csv.fields := flds |}).
  { unfold Csv.process_char, Csv.start_field. cbn [Csv.st].
    rewrite E3, E2, E1. reflexivity. }
  rewrite P. cbn [bind]. rewrite (feed_in_field s _ _ Hs). reflexivity.
Qed.

Lemma lstrip_head (p : ascii -> bool) (c : ascii) (s : string) :
  p c = false -> Py.lstrip p (String c s) = String c s.
Proof. intros E. cbn [Py.lstrip]. now rewrite E. Qed.

Lemma rstrip_none (q : ascii) (s : string) :
  Py.contains q s = false -> Py.rstrip (Ascii.eqb q) s = s.
Proof.
  induction s as [|c s IH]; [reflexivity|].
  cbn [Py.contains Py.rstrip]. intros E. apply orb_false_iff in E.
  destruct E as [Ec Es]. rewrite (IH Es).
  destruct s; [|reflexivity].
  rewrite Ascii.eqb_sym, Ec. reflexivity.
Qed.

Lemma lstrip_none (q : ascii) (s : string) :
  Py.contains q s = false -> Py.lstrip (Ascii.eqb q) s = s.
Proof.
  destruct s as [|c s]; [reflexivity|].
  cbn [Py.contains]. intros E. apply orb_false_iff in E. destruct E as [Ec _].
  apply lstrip_head. now rewrite Ascii.eqb_sym.
Qed.

Lemma rstrip_closing_quote (q : ascii) (s : string) :
  Py.contains q s = false ->
  Py.rstrip (Ascii.eqb q) (s ++ String q EmptyString) = s.
Proof.
  induction s as [|c s IH].
  - intros _. cbn. now rewrite Ascii.eqb_refl.
  - cbn [Py.contains append Py.rstrip]. intros E. apply orb_false_iff in E.
    destruct E as [Ec Es]. rewrite (IH Es).
    destruct s; [|reflexivity].
    rewrite Ascii.eqb_sym, Ec. reflexivity.
Qed.

(** Stripping the quote character from a quoted value gives the value
    back, and leaves a value without quote characters as it is. *)
Lemma strip_char_quoted (s : string) :
  Py.contains dquote s = false -> Py.strip_char dquote (quoted s) = s.
Proof.
  intros E. unfold Py.strip_char, quoted.
  cbn [Py.lstrip]. rewrite Ascii.eqb_refl.
  destruct s as [|c s].
  - cbn. reflexivity.
  - assert (Hc : Ascii.eqb dquote c = false).
    { cbn [Py.contains] in E. apply orb_false_iff in E.
      rewrite Ascii.eqb_sym. tauto. }
    cbn [append]. rewrite lstrip_head by exact Hc.
    change (String c (s ++ String dquote EmptyString))
      with (String c s ++ String dquote EmptyString)%string.
    now apply rstrip_closing_quote.
Qed.

Lemma strip_char_none (s : string) :
  Py.contains dquote s = false -> Py.strip_char dquote s = s.
Proof.
  intros E. unfold Py.strip_char. now rewrite lstrip_none, rstrip_none.
Qed.

Lemma plain_no_dquote (s : string) :
  Py.forallb_string plain_char s = true -> Py.contains dquote s = false.
Proof.
  induction s as [|c s IH]; [reflexivity|].
  cbn [Py.forallb_string Py.contains]. intros E.
  apply andb_true_iff in E. destruct E as [Ec Es].
  destruct (plain_char_inv c Ec) as (_ & E2 & _). now rewrite E2, (IH Es).
Qed.

Lemma split_forallb (p : ascii -> bool) (sep : ascii) (s : string) :
  Py.forallb_string p s = true ->
  Forall (fun part => Py.forallb_string p part = true) (Py.split sep s).
Proof.
  induction s as [|c s IH]; intros E.
  - repeat constructor.
  - cbn [Py.forallb_string] in E. apply andb_true_iff in E. destruct E as [Ec Es].
    specialize (IH Es). cbn [Py.split].
    destruct (Ascii.eqb c sep).
    + constructor; [reflexivity | exact IH].
    + destruct (Py.split sep s) as [|part parts].
      * repeat constructor. cbn. now rewrite Ec.
      * inversion IH; subst. constructor; [|assumption].
        cbn [Py.forallb_string]. now rewrite Ec.
Qed.

Lemma dow_letters_no_dquote (letters : string) :
  dow_letters_ok letters = true -> Py.contains dquote letters = false.
Proof.
  unfold dow_letters_ok. intros E.
  apply andb_true_iff in E. destruct E as [E _].
  apply andb_true_iff in E. destruct E as [L F].
  apply Nat.eqb_eq in L.
  destruct letters as [|c0 [|c1 [|c2 [|c3 [|c4 [|c5 [|c6 [|c7 r]]]]]]]];
    try discriminate L.
  cbn [seq forallb String.get nth dow_letters] in F.
  repeat (apply andb_true_iff in F; destruct F as [? F]).
  cbn [Py.contains].
  repeat match goal with
    | H : Ascii.eqb ?c ?x || Ascii.eqb ?c ?y = true |- _ =>
        apply orb_true_iff in H; destruct H as [H|H];
        apply Ascii.eqb_eq in H; subst c
    end; reflexivity.
Qed.

(** The reader on the line of any record of the shape the CSV stage
    writes. *)
Lemma read_record_fields (a q1 q2 q3 q5 d dowf b e : string) :
  Py.forallb_string plain_char a = true ->
  Py.contains dquote q1 = false -> Py.contains dquote q2 = false ->
  Py.contains dquote q3 = false -> Py.contains dquote q5 = false ->
  (dowf = EmptyString /\ d = EmptyString
   \/ dowf = quoted d /\ Py.contains dquote d = false) ->
  Py.forallb_string plain_char b = true ->
  Py.forallb_string plain_char e = true ->
  Csv.rows ";"
    [csv_line [ a; quoted q1; quoted q2; quoted q3; EmptyString; quoted q5;
                EmptyString; EmptyString; EmptyString; dowf; b; e ]]
  = Ok [[ a; q1; q2; q3; EmptyString; q5; EmptyString; EmptyString;
          EmptyString; d; b; e ]].
Proof.
  intros Ha H1 H2 H3 H5 Hd Hb He.
  unfold Csv.rows. cbn [Csv.rows_from].
  assert (F : Csv.feed_line ";" Csv.reset
                (csv_line [ a; quoted q1; quoted q2; quoted q3; EmptyString;
                            quoted q5; EmptyString; EmptyString; EmptyString;
                            dowf; b; e ])
              = Ok {| Csv.st := Csv.START_RECORD; Csv.field := EmptyString;
                      Csv.fields := [ a; q1; q2; q3; EmptyString; q5; EmptyString;
                                      EmptyString; EmptyString; d; b; e ] |}).
  { change (csv_line [ a; quoted q1; quoted q2; quoted q3; EmptyString; quoted q5;
                       EmptyString; EmptyString; EmptyString; dowf; b; e ])
      with (a ++ String ";" (quoted q1 ++ String ";" (quoted q2 ++ String ";"
              (quoted q3 ++ String ";" (EmptyString ++ String ";"
                (quoted q5 ++ String ";" (EmptyString ++ String ";"
                  (EmptyString ++ String ";" (EmptyString ++ String ";"
                    (dowf ++ String ";" (b ++ String ";" e)))))))))))%string.
    unfold Csv.feed_line, Csv.reset.
    rewrite feed_plain_field by (auto; exact Ha).
    rewrite feed_quoted_field by (auto; exact H1).
    rewrite feed_quoted_field by (auto; exact H2).
    rewrite feed_quoted_field by (auto; exact H3).
    rewrite feed_plain_field by (auto; reflexivity).
    rewrite feed_quoted_field by (auto; exact H5).
    rewrite feed_plain_field by (auto; reflexivity).
    rewrite feed_plain_field by (auto; reflexivity).
    rewrite feed_plain_field by (auto; reflexivity).
    destruct Hd as [[-> ->]|[-> Hd]].
    - rewrite feed_plain_field by (auto; reflexivity).
      rewrite feed_plain_field by (auto; exact Hb).
      rewrite (feed_last_plain_field e _ He). reflexivity.
    - rewrite feed_quoted_field by (auto; exact Hd).
      rewrite feed_plain_field by (auto; exact Hb).
      rewrite (feed_last_plain_field e _ He). reflexivity. }
  rewrite F. reflexivity.
Qed.

Lemma notes_standalone_no_dquote (itu rem f6 f5 : string) :
  Py.contains dquote itu = false -> Py.contains dquote rem = false ->
  Py.contains dquote f6 = false -> Py.contains dquote f5 = false ->
  Py.contains dquote
    (Py.strip (notes_standalone itu rem (target_note (Py.strip f6))
                 (lang_note (Py.strip f5)))) = false.
Proof.
  intros Hi Hr H6 H5. apply contains_strip.
  assert (Ht : Py.contains dquote (target_note (Py.strip f6)) = false).
  { unfold target_note. destruct (is_empty (Py.strip f6)); [reflexivity|].
    rewrite !contains_app, (contains_strip _ _ H6). reflexivity. }
  assert (Hl : Py.contains dquote (lang_note (Py.strip f5)) = false).
  { unfold lang_note. destruct (is_empty (Py.strip f5)); [reflexivity|].
    rewrite !contains_app, (contains_strip _ _ H5). reflexivity. }
  unfold notes_standalone. destruct (is_empty rem);
    rewrite !contains_app, ?Hi, ?Hr, ?Ht, ?Hl; reflexivity.
Qed.

Lemma clamp_plain (s : string) :
  Py.forallb_string plain_char s = true ->
  Py.forallb_string plain_char (clamp_begin s) = true
  /\ Py.forallb_string plain_char (clamp_end s) = true.
Proof.
  intros E. unfold clamp_begin, clamp_end.
  destruct (String.eqb s "0000"), (String.eqb s "2400"); auto.
Qed.

(** X23. For a row that the standalone script converts, when the
    frequency prints without semicolon, quote or newline, the time range
    holds none of them, and the country, identifier, language, target and
    relay columns hold no double quote, the reader of the JSON stage
    makes of the written line a row of the same twelve fields with the
    quotes around them removed. *)
Theorem csv_stage_line_read_back `{FloatOps} (outrow : list (list string))
    (row : list string) (st' : loop_state) :
  process_row Standalone (outrow, EmptyString) row = Ok st' ->
  (forall khz, py_float (nth 0 row EmptyString) = Ok khz ->
     Py.forallb_string plain_char (py_str khz) = true) ->
  Py.forallb_string plain_char (nth 1 row EmptyString) = true ->
  (forall i, (3 <= i <= 7)%nat ->
     Py.contains dquote (nth i row EmptyString) = false) ->
  exists rec,
    st' = (outrow ++ [rec], EmptyString) /\
    List.length rec = 12%nat /\
    Csv.rows ";" [csv_line rec] = Ok [map (Py.strip_char dquote) rec].
Proof.
  intros E Hkhz Htime Hcols. unfold process_row in E.
  apply bind_ok in E. destruct E as (f0 & E0 & E).
  apply bind_ok in E. destruct E as (khz & Ek & E).
  apply bind_ok in E. destruct E as (f1 & E1 & E).
  apply bind_ok in E. destruct E as (be & Eb & E).
  apply bind_ok in E. destruct E as (day & E2 & E).
  apply bind_ok in E. destruct E as (dow & Ed & E).
  apply bind_ok in E. destruct E as (itu & E3 & E).
  apply bind_ok in E. destruct E as (ident & E4 & E).
  apply bind_ok in E. destruct E as (f5 & E5 & E).
  apply bind_ok in E. destruct E as (f6 & E6 & E).
  apply bind_ok in E. destruct E as (f7 & E7 & E).
  destruct (getnat_nth row 0 f0 EmptyString E0) as [_ N0].
  destruct (getnat_nth row 1 f1 EmptyString E1) as [_ N1].
  destruct (getnat_nth row 3 itu EmptyString E3) as [_ N3].
  destruct (getnat_nth row 4 ident EmptyString E4) as [_ N4].
  destruct (getnat_nth row 5 f5 EmptyString E5) as [_ N5].
  destruct (getnat_nth row 6 f6 EmptyString E6) as [_ N6].
  destruct (getnat_nth row 7 f7 EmptyString E7) as [_ N7].
  assert (Ha : Py.forallb_string plain_char (py_str khz) = true)
    by (apply Hkhz; now rewrite N0).
  assert (Hitu : Py.contains dquote itu = false) by (rewrite <- N3; apply Hcols; lia).
  assert (Hident : Py.contains dquote ident = false)
    by (rewrite <- N4; apply Hcols; lia).
  assert (H5 : Py.contains dquote f5 = false) by (rewrite <- N5; apply Hcols; lia).
  assert (H6 : Py.contains dquote f6 = false) by (rewrite <- N6; apply Hcols; lia).
  assert (H7 : Py.contains dquote f7 = false) by (rewrite <- N7; apply Hcols; lia).
  rewrite N1 in Htime.
  assert (Hbe : Py.forallb_string plain_char (fst be) = true
                /\ Py.forallb_string plain_char (snd be) = true).
  { pose proof (split_forallb plain_char "-" f1 Htime) as F.
    unfold unpack2 in Eb.
    destruct (Py.split "-" f1) as [|x [|y [|z r]]]; try discriminate Eb.
    inversion Eb; subst be. inversion F as [|? ? Fx F']; subst.
    inversion F' as [|? ? Fy _]; subst. cbn [fst snd]. auto. }
  destruct Hbe as [Hb He].
  destruct (clamp_plain _ Hb) as [Hcb _]. destruct (clamp_plain _ He) as [_ Hce].
  pose proof (notes_standalone_no_dquote itu f7 f6 f5 Hitu H7 H6 H5) as Hnotes.
  assert (Htag : Py.contains dquote (type_tag (Py.strip f5)) = false)
    by (unfold type_tag;
        destruct (Py.startswith "-" (Py.strip f5) || is_empty (Py.strip f5));
        reflexivity).
  assert (Hdow : (quote_dow dow = EmptyString /\ dow = EmptyString)
                 \/ (quote_dow dow = quoted dow /\ Py.contains dquote dow = false)).
  { destruct (day_of_week_ok Standalone day dow Ed) as [-> | Hok]; [now left|].
    right. split; [|now apply dow_letters_no_dquote].
    unfold quote_dow. destruct dow; [discriminate Hok | reflexivity]. }
  inversion E. eexists. split; [reflexivity|]. split; [reflexivity|].
  cbn [notes_of].
  rewrite (read_record_fields (py_str khz) "QAM" ident _ _ dow (quote_dow dow)
             _ _ Ha eq_refl Hident Hnotes Htag Hdow Hcb Hce).
  cbn [map].
  rewrite !strip_char_quoted by (try reflexivity; assumption).
  rewrite !(strip_char_none (py_str khz)) by now apply plain_no_dquote.
  rewrite (strip_char_none (clamp_begin (fst be))) by now apply plain_no_dquote.
  rewrite (strip_char_none (clamp_end (snd be))) by now apply plain_no_dquote.
  destruct Hdow as [[Q ->]|[Q Hq]]; rewrite Q.
  - reflexivity.
  - now rewrite strip_char_quoted.
Qed.

Lemma csv_stage_line_read_back_witness :
  @process_row DecFloat Standalone ([], EmptyString) sample_row_irregular
  = Ok ([[ "9500.0"; quoted "QAM"; quoted "Deutsche Welle";
           quoted "D via /USA-g. Target: Eu. Lang: E"; EmptyString;
           quoted "T3"; EmptyString; EmptyString; EmptyString; EmptyString;
           "0001"; "2359" ]], EmptyString) /\
  Csv.rows ";"
    [csv_line [ "9500.0"; quoted "QAM"; quoted "Deutsche Welle";
                quoted "D via /USA-g. Target: Eu. Lang: E"; EmptyString;
                quoted "T3"; EmptyString; EmptyString; EmptyString; EmptyString;
                "0001"; "2359" ]]
  = Ok [[ "9500.0"; "QAM"; "Deutsche Welle";
          "D via /USA-g. Target: Eu. Lang: E"; EmptyString; "T3"; EmptyString;
          EmptyString; EmptyString; EmptyString; "0001"; "2359" ]].
Proof.
  assert (E : @process_row DecFloat Standalone ([], EmptyString) sample_row_irregular
              = Ok ([[ "9500.0"; quoted "QAM"; quoted "Deutsche Welle";
                       quoted "D via /USA-g. Target: Eu. Lang: E"; EmptyString;
                       quoted "T3"; EmptyString; EmptyString; EmptyString;
                       EmptyString; "0001"; "2359" ]], EmptyString))
    by (vm_compute; reflexivity).
  split; [exact E|].
  destruct (@csv_stage_line_read_back DecFloat [] sample_row_irregular _ E)
    as (rec & Erec & _ & R).
  - intros khz Ek. vm_compute in Ek. inversion Ek. vm_compute. reflexivity.
  - reflexivity.
  - intros i Hi.
    destruct i as [|[|[|[|[|[|[|[|i]]]]]]]]; try lia; reflexivity.
  - inversion Erec; subst rec. rewrite R. vm_compute. reflexivity.
Defined.
